(** * The asynchronous movie-frame pipeline of [ffpyplayer_player.py]

    A shallow embedding of [StreamStatus], [StreamData],
    [MovieStreamThread] (the stream reader) and [FFPyPlayer] (the player
    facade) of [psychopy/visual/movies/players/ffpyplayer_player.py],
    followed by the properties of the pipeline: the hand-off queue, the
    play/pause flag, the polling interval, the timing conversions and the
    error behaviour of the facade.

    Python [float] arithmetic is an interface, [PyFloat], with two
    instances: IEEE binary64 ([PrimFloat], the arithmetic the interpreter
    executes) and exact rationals ([Q]).  The decoder
    ([ffpyplayer.player.MediaPlayer]) is an interface too, [MediaPlayer];
    [SimPlayer] is a small decoder driven by a list of frames. *)

From Stdlib Require Import ZArith QArith Qabs Qround Floats List String Bool
  Lia.
Import ListNotations.
Local Open Scope Z_scope.

(** ** Python exceptions and the outcome of a call *)

Inductive exn : Type :=
| RuntimeError (msg : string)
| TypeError (msg : string)
| AttributeError (attr : string)
| ZeroDivisionError
| OverflowError
| IndexError.

(** The message of [FFPyPlayer._assertMediaPlayer]. *)
Definition msg_not_loaded : string :=
  "Calling this class method requires a successful call to `load` first.".

(** The message of [FFPyPlayer.stop] on a player that holds no handle. *)
Definition msg_not_opened : string :=
  "Cannot close stream, not opened yet.".

Definition msg_metadata_type : string :=
  "Incorrect type for property `metadata`, expected `MovieMetadata` or `None`.".

Definition msg_streamStatus_type : string :=
  "Incorrect type for property `streamStatus`, expected `StreamStatus` or `None`.".

Definition msg_movieTime_type : string :=
  "Value for parameter `movieTime` must have type `float` or `int`.".

Definition msg_absTime_type : string :=
  "Value for parameter `absTime` must have type `float` or `int`.".

(** A call on state [S] returns a value, raises (the state as the
    exception left it), or does not come back: a loop that never ends or
    a blocking call that is never released. *)
Inductive outcome (S A : Type) : Type :=
| Ret (a : A) (s : S)
| Raise (e : exn) (s : S)
| Hang.
Arguments Ret {S A} a s.
Arguments Raise {S A} e s.
Arguments Hang {S A}.

Definition M (S A : Type) : Type := S -> outcome S A.

Definition ret {S A} (a : A) : M S A := fun s => Ret a s.
Definition raise {S A} (e : exn) : M S A := fun s => Raise e s.
Definition hang {S A} : M S A := fun _ => Hang.
Definition bind {S A B} (c : M S A) (k : A -> M S B) : M S B :=
  fun s => match c s with
           | Ret a s' => k a s'
           | Raise e s' => Raise e s'
           | Hang => Hang
           end.
Definition get {S} : M S S := fun s => Ret s s.
Definition modify {S} (f : S -> S) : M S unit := fun s => Ret tt (f s).

Declare Scope py_scope.
Delimit Scope py_scope with py.
Notation "x <- c ;; k" := (bind c (fun x => k))
  (at level 61, c at next level, right associativity) : py_scope.
Notation "c ;; k" := (bind c (fun _ => k))
  (at level 61, right associativity) : py_scope.

(** ** Python [float] *)

(** The operations the module applies to floats.  [f_lit a b] is the
    literal written [a/b] in decimal in the source text ([0.001] is
    [f_lit 1 1000]); [f_of_int] is the conversion [float(n)] of an [int],
    which raises [OverflowError] out of range; [f_div] is [/], which
    raises [ZeroDivisionError] on a zero divisor; [f_floor] is
    [math.floor], which raises on an infinity or a NaN. *)
Class PyFloat (F : Type) : Type := {
  f_lit : Z -> positive -> F;
  f_of_int : Z -> option F;
  f_add : F -> F -> F;
  f_sub : F -> F -> F;
  f_mul : F -> F -> F;
  f_div : F -> F -> option F;
  f_floor : F -> option Z;
  f_ltb : F -> F -> bool
}.

(** *** IEEE binary64 *)

Module Binary64.

(** [float(n)]: the integer rounded to the nearest double, ties to
    even. *)
Definition round_Z (z : Z) : float :=
  SF2Prim (binary_normalize prec emax z 0 false).

Definition is_finite (x : float) : bool :=
  match Prim2SF x with
  | S754_zero _ | S754_finite _ _ _ => true
  | _ => false
  end.

Definition of_int (z : Z) : option float :=
  let x := round_Z z in if is_finite x then Some x else None.

Definition lit (a : Z) (b : positive) : float :=
  PrimFloat.div (round_Z a) (round_Z (Z.pos b)).

Definition div (x y : float) : option float :=
  if PrimFloat.eqb y PrimFloat.zero then None else Some (PrimFloat.div x y).

(** The integer part of a finite double, rounded towards minus
    infinity. *)
Definition floor (x : float) : option Z :=
  match Prim2SF x with
  | S754_zero _ => Some 0
  | S754_finite s m e =>
      let v := if s then Z.neg m else Z.pos m in
      Some (if 0 <=? e then v * 2 ^ e else v / 2 ^ (- e))
  | _ => None
  end.

(** The exact rational value of a finite double. *)
Definition to_Q (x : float) : option Q :=
  match Prim2SF x with
  | S754_zero _ => Some (0 # 1)
  | S754_finite s m e =>
      let v := if s then Z.neg m else Z.pos m in
      Some (if 0 <=? e then inject_Z (v * 2 ^ e)
            else Qmake v (Z.to_pos (2 ^ (- e))))
  | _ => None
  end.

End Binary64.

#[export] Instance PyFloat_binary64 : PyFloat float := {|
  f_lit := Binary64.lit;
  f_of_int := Binary64.of_int;
  f_add := PrimFloat.add;
  f_sub := PrimFloat.sub;
  f_mul := PrimFloat.mul;
  f_div := Binary64.div;
  f_floor := Binary64.floor;
  f_ltb := PrimFloat.ltb
|}.

(** *** Exact rationals *)

Module Exact.

Definition div (x y : Q) : option Q :=
  if Qeq_bool y (0 # 1) then None else Some (Qdiv x y).

Definition ltb (x y : Q) : bool := negb (Qle_bool y x).

End Exact.

#[export] Instance PyFloat_exact : PyFloat Q := {|
  f_lit := Qmake;
  f_of_int := fun z => Some (inject_Z z);
  f_add := Qplus;
  f_sub := Qminus;
  f_mul := Qmult;
  f_div := Exact.div;
  f_floor := fun q => Some (Qfloor q);
  f_ltb := Exact.ltb
|}.

(** ** Status constants *)

(** Modelled from the spec: the status constants [NOT_STARTED],
    [PLAYING], [PAUSED], [STOPPING], [STOPPED] and [FINISHED] imported
    from [psychopy.constants], which is not part of the sources.  The
    spec gives them as the six values of one enumeration. *)
Inductive Status : Type :=
| NOT_STARTED | PLAYING | PAUSED | STOPPING | STOPPED | FINISHED.

Definition Status_eqb (a b : Status) : bool :=
  match a, b with
  | NOT_STARTED, NOT_STARTED | PLAYING, PLAYING | PAUSED, PAUSED
  | STOPPING, STOPPING | STOPPED, STOPPED | FINISHED, FINISHED => true
  | _, _ => false
  end.

(** ** The hand-off queue: [queue.Queue(maxsize)] *)

Module Queue.

Record t (A : Type) : Type := mk { maxsize : Z; items : list A }.
Arguments mk {A} maxsize items.
Arguments maxsize {A} _.
Arguments items {A} _.

Definition new {A} (maxsize : Z) : t A := mk maxsize [].

Definition qsize {A} (q : t A) : Z := Z.of_nat (List.length (items q)).

(** [Queue.full]: [0 < maxsize <= qsize]; a queue made with
    [maxsize <= 0] is never full. *)
Definition full {A} (q : t A) : bool :=
  (0 <? maxsize q) && (maxsize q <=? qsize q).

Definition empty {A} (q : t A) : bool :=
  match items q with [] => true | _ => false end.

(** [Queue.put(item)] with the default [block=True]: on a full queue
    the caller waits for a slot, [None] here. *)
Definition put {A} (x : A) (q : t A) : option (t A) :=
  if full q then None else Some (mk (maxsize q) (items q ++ [x])).

(** [Queue.get_nowait()]: [None] stands for the exception
    [queue.Empty]. *)
Definition get_nowait {A} (q : t A) : option (A * t A) :=
  match items q with
  | [] => None
  | x :: rest => Some (x, mk (maxsize q) rest)
  end.

End Queue.


(** ** Data carried through the pipeline *)

(** A decoded picture, [ffpyplayer.pic.Image]: [to_bytearray()] gives
    its planes and [get_size()] its width and height. *)
Record Image : Type := mkImage {
  to_bytearray : list (list Byte.byte);
  get_size : Z * Z
}.

(** [img.to_bytearray()[0]], the first plane; empty if there is none. *)
Definition to_bytearray_first (img : Image) : list Byte.byte :=
  match to_bytearray img with
  | [] => []
  | plane :: _ => plane
  end.

(** The second component of the pair [MediaPlayer.get_frame()] returns:
    one of the strings ['eof'], ['paused'], ['not ready'], or the delay
    until the frame is due. *)
Inductive frame_val (F : Type) : Type :=
| val_str (s : string)
| val_delay (d : F).
Arguments val_str {F} s.
Arguments val_delay {F} d.

(** [val == s] for a string literal [s]. *)
Definition val_is {F} (v : frame_val F) (s : string) : bool :=
  match v with
  | val_str s' => String.eqb s' s
  | val_delay _ => false
  end.

(** The dictionary [MediaPlayer.get_metadata()] returns, with the keys
    the module reads. *)
Record MetaDict (F : Type) : Type := mkMetaDict {
  title : string;
  duration : F;
  frame_rate : Z * Z;
  src_vid_size : Z * Z;
  src_pix_fmt : string
}.
Arguments mkMetaDict {F} _ _ _ _ _.
Arguments title {F} _.
Arguments duration {F} _.
Arguments frame_rate {F} _.
Arguments src_vid_size {F} _.
Arguments src_pix_fmt {F} _.

(** A [MovieMetadata] object as [FFPyPlayer.getMetadata] builds it; the
    class is imported from [..metadata].  The fields are the keyword
    arguments of the constructor ([userData] is always [None]). *)
Record MovieMetadata (F : Type) : Type := mkMovieMetadata {
  md_mediaPath : string;
  md_title : string;
  md_duration : F;
  md_frameRate : Z * Z;
  md_size : Z * Z;
  md_pixelFormat : string;
  md_movieLib : string
}.
Arguments mkMovieMetadata {F} _ _ _ _ _ _ _.
Arguments md_mediaPath {F} _.
Arguments md_title {F} _.
Arguments md_duration {F} _.
Arguments md_frameRate {F} _.
Arguments md_size {F} _.
Arguments md_pixelFormat {F} _.
Arguments md_movieLib {F} _.

(** The property [MovieMetadata.frameInterval]; its definition is in
    [..metadata], so it is a parameter of the model. *)
Class MetadataProps (F : Type) : Type := {
  frameInterval : MovieMetadata F -> F
}.

(** [StreamStatus]: the constructor converts with [int] and [float];
    the four attributes are read-only properties. *)
Record StreamStatus (F : Type) : Type := mkStreamStatus {
  ss_status : Status;
  ss_streamTime : F;
  ss_recTime : F;
  ss_recBytes : Z
}.
Arguments mkStreamStatus {F} _ _ _ _.
Arguments ss_status {F} _.
Arguments ss_streamTime {F} _.
Arguments ss_recTime {F} _.
Arguments ss_recBytes {F} _.

(** The Python values that reach the attributes of [StreamData] and the
    arguments of the timing conversions. *)
Inductive value (F : Type) : Type :=
| VNone
| VBool (b : bool)
| VInt (n : Z)
| VFloat (x : F)
| VStr (s : string)
| VDict (d : MetaDict F)
| VMovieMetadata (m : MovieMetadata F)
| VStreamStatus (s : StreamStatus F)
| VImage (i : Image).
Arguments VNone {F}.
Arguments VBool {F} b.
Arguments VInt {F} n.
Arguments VFloat {F} x.
Arguments VStr {F} s.
Arguments VDict {F} d.
Arguments VMovieMetadata {F} m.
Arguments VStreamStatus {F} s.
Arguments VImage {F} i.

Definition is_None {F} (v : value F) : bool :=
  match v with VNone => true | _ => false end.

(** [isinstance(v, MovieMetadata)], [isinstance(v, StreamStatus)] and
    [isinstance(v, float)]. *)
Definition isinstance_MovieMetadata {F} (v : value F) : bool :=
  match v with VMovieMetadata _ => true | _ => false end.

Definition isinstance_StreamStatus {F} (v : value F) : bool :=
  match v with VStreamStatus _ => true | _ => false end.

Definition isinstance_float {F} (v : value F) : bool :=
  match v with VFloat _ => true | _ => false end.

(** [StreamData]: the constructor stores its four arguments as they are
    given. *)
Record StreamData (F : Type) : Type := mkStreamData {
  sd_metadata : value F;
  sd_frameImage : value F;
  sd_streamStatus : value F;
  sd_cameraLib : string
}.
Arguments mkStreamData {F} _ _ _ _.
Arguments sd_metadata {F} _.
Arguments sd_frameImage {F} _.
Arguments sd_streamStatus {F} _.
Arguments sd_cameraLib {F} _.

(** The setter of [StreamData.metadata]. *)
Definition StreamData_set_metadata {F} (v : value F) : M (StreamData F) unit :=
  fun self =>
    if negb (isinstance_MovieMetadata v) || negb (is_None v)
    then Raise (TypeError msg_metadata_type) self
    else Ret tt (mkStreamData v (sd_frameImage self) (sd_streamStatus self)
                   (sd_cameraLib self)).

(** The setter of [StreamData.frameImage]. *)
Definition StreamData_set_frameImage {F} (v : value F) : M (StreamData F) unit :=
  fun self =>
    Ret tt (mkStreamData (sd_metadata self) v (sd_streamStatus self)
              (sd_cameraLib self)).

(** The setter of [StreamData.streamStatus]. *)
Definition StreamData_set_streamStatus {F} (v : value F) : M (StreamData F) unit :=
  fun self =>
    if negb (isinstance_StreamStatus v) || negb (is_None v)
    then Raise (TypeError msg_streamStatus_type) self
    else Ret tt (mkStreamData (sd_metadata self) (sd_frameImage self) v
                   (sd_cameraLib self)).

(** A [MovieFrame] as [FFPyPlayer._enqueueFrame] builds it; the class is
    imported from [..frame].  The fields are the keyword arguments of
    the constructor ([audioSamples] and [userData] are always [None]). *)
Record MovieFrame (F : Type) : Type := mkMovieFrame {
  mf_frameIndex : Z;
  mf_absTime : F;
  mf_size : Z * Z;
  mf_colorData : list Byte.byte;
  mf_audioChannels : Z;
  mf_metadata : value F;
  mf_movieLib : string
}.
Arguments mkMovieFrame {F} _ _ _ _ _ _ _.
Arguments mf_frameIndex {F} _.
Arguments mf_absTime {F} _.
Arguments mf_size {F} _.
Arguments mf_colorData {F} _.
Arguments mf_audioChannels {F} _.
Arguments mf_metadata {F} _.
Arguments mf_movieLib {F} _.

(** Modelled from the spec: the constant [NULL_MOVIE_FRAME_INFO] of
    [..frame], which is not part of the sources.  The spec describes it
    as the null sentinel frame, whose frame index is [-1], the value that
    marks an invalid or unset frame. *)
Definition NULL_MOVIE_FRAME_INFO {F} `{PyFloat F} : MovieFrame F :=
  mkMovieFrame (-1) (f_lit (-1) 1) (0, 0) [] 0 VNone "".

(** ** The decoder: [ffpyplayer.player.MediaPlayer] *)

(** The methods of the decoder the module calls, on a decoder state [H].
    [mp_open] is the constructor [MediaPlayer(filename, ff_opts)]; the
    second argument of [seek] is the keyword [relative]. *)
Class MediaPlayer (F H : Type) : Type := {
  mp_open : string -> H;
  set_pause : bool -> H -> H;
  get_pause : H -> bool;
  set_mute : bool -> H -> H;
  get_frame : H -> (option (Image * F) * frame_val F) * H;
  get_metadata : H -> MetaDict F;
  seek : F -> bool -> H -> H;
  get_pts : H -> F;
  close_player : H -> H
}.

(** ** The stream reader: [MovieStreamThread] *)

(** Where the thread of control of a [threading.Thread] is: the object
    exists, [start()] was called, [run()] is past its first lines, or
    [run()] is over. *)
Inductive Phase : Type := Created | Started | Running | Exited.

(** What the body of the [while] loop of [run] ends with: it falls
    through to the test of the stop signal, or it leaves by [continue]. *)
Inductive flow : Type := FallThrough | Continue.

Section Reader.
Context {F : Type} {PF : PyFloat F} {H : Type} {MP : MediaPlayer F H}.

(** The attributes of the thread object, then the local variables of
    [run].  The attribute [_player] is the decoder object the facade
    holds in [_handle]: the functions below take its state and give it
    back. *)
Record MovieStreamThread : Type := mkThread {
  t_frameQueue : Queue.t (StreamData F);
  t_status : Status;
  t_streamTime : F;
  t_isReadyEvent : bool;
  t_isPlaying : bool;
  t_isStreamingEvent : bool;
  t_stopSignal : bool;
  t_phase : Phase;
  t_frameInterval : F;
  t_playbackJustStarted : bool;
  t_statusFlag : Status
}.

Definition with_frameQueue (q : Queue.t (StreamData F)) (t : MovieStreamThread) :=
  mkThread q (t_status t) (t_streamTime t) (t_isReadyEvent t) (t_isPlaying t)
    (t_isStreamingEvent t) (t_stopSignal t) (t_phase t) (t_frameInterval t)
    (t_playbackJustStarted t) (t_statusFlag t).

Definition with_streamTime (x : F) (t : MovieStreamThread) :=
  mkThread (t_frameQueue t) (t_status t) x (t_isReadyEvent t) (t_isPlaying t)
    (t_isStreamingEvent t) (t_stopSignal t) (t_phase t) (t_frameInterval t)
    (t_playbackJustStarted t) (t_statusFlag t).

Definition with_isReadyEvent (b : bool) (t : MovieStreamThread) :=
  mkThread (t_frameQueue t) (t_status t) (t_streamTime t) b (t_isPlaying t)
    (t_isStreamingEvent t) (t_stopSignal t) (t_phase t) (t_frameInterval t)
    (t_playbackJustStarted t) (t_statusFlag t).

Definition with_isPlaying (b : bool) (t : MovieStreamThread) :=
  mkThread (t_frameQueue t) (t_status t) (t_streamTime t) (t_isReadyEvent t) b
    (t_isStreamingEvent t) (t_stopSignal t) (t_phase t) (t_frameInterval t)
    (t_playbackJustStarted t) (t_statusFlag t).

Definition with_isStreamingEvent (b : bool) (t : MovieStreamThread) :=
  mkThread (t_frameQueue t) (t_status t) (t_streamTime t) (t_isReadyEvent t)
    (t_isPlaying t) b (t_stopSignal t) (t_phase t) (t_frameInterval t)
    (t_playbackJustStarted t) (t_statusFlag t).

Definition with_stopSignal (b : bool) (t : MovieStreamThread) :=
  mkThread (t_frameQueue t) (t_status t) (t_streamTime t) (t_isReadyEvent t)
    (t_isPlaying t) (t_isStreamingEvent t) b (t_phase t) (t_frameInterval t)
    (t_playbackJustStarted t) (t_statusFlag t).

Definition with_phase (p : Phase) (t : MovieStreamThread) :=
  mkThread (t_frameQueue t) (t_status t) (t_streamTime t) (t_isReadyEvent t)
    (t_isPlaying t) (t_isStreamingEvent t) (t_stopSignal t) p (t_frameInterval t)
    (t_playbackJustStarted t) (t_statusFlag t).

Definition with_frameInterval (x : F) (t : MovieStreamThread) :=
  mkThread (t_frameQueue t) (t_status t) (t_streamTime t) (t_isReadyEvent t)
    (t_isPlaying t) (t_isStreamingEvent t) (t_stopSignal t) (t_phase t) x
    (t_playbackJustStarted t) (t_statusFlag t).

Definition with_playbackJustStarted (b : bool) (t : MovieStreamThread) :=
  mkThread (t_frameQueue t) (t_status t) (t_streamTime t) (t_isReadyEvent t)
    (t_isPlaying t) (t_isStreamingEvent t) (t_stopSignal t) (t_phase t)
    (t_frameInterval t) b (t_statusFlag t).

Definition with_statusFlag (s : Status) (t : MovieStreamThread) :=
  mkThread (t_frameQueue t) (t_status t) (t_streamTime t) (t_isReadyEvent t)
    (t_isPlaying t) (t_isStreamingEvent t) (t_stopSignal t) (t_phase t)
    (t_frameInterval t) (t_playbackJustStarted t) s.

(** [MovieStreamThread.__init__(player, bufferFrames)].  The locals of
    [run] hold the values [run] gives them first. *)
Definition MovieStreamThread_init (bufferFrames : Z) : MovieStreamThread :=
  mkThread (Queue.new bufferFrames) NOT_STARTED (f_lit 0 1) false false false
    false Created (f_lit 1 1000) true NOT_STARTED.

(** [threading.Thread.start()]. *)
Definition Thread_start (t : MovieStreamThread) : MovieStreamThread :=
  with_phase Started t.

(** [MovieStreamThread.play], [pause] and [shutdown]: the main thread
    sets or clears an event. *)
Definition MovieStreamThread_play (t : MovieStreamThread) : MovieStreamThread :=
  with_isPlaying true t.

Definition MovieStreamThread_pause (t : MovieStreamThread) : MovieStreamThread :=
  with_isPlaying false t.

Definition MovieStreamThread_shutdown (t : MovieStreamThread) : MovieStreamThread :=
  with_stopSignal true t.

Definition isReady (t : MovieStreamThread) : bool := t_isReadyEvent t.

(** [MovieStreamThread.getRecentFrame]: [None] when the queue is empty. *)
Definition getRecentFrame (t : MovieStreamThread)
  : option (StreamData F) * MovieStreamThread :=
  if Queue.empty (t_frameQueue t) then (None, t)
  else match Queue.get_nowait (t_frameQueue t) with
       | Some (x, q) => (Some x, with_frameQueue q t)
       | None => (None, t)
       end.

(** *** [MovieStreamThread.run] *)

(** The first lines of [run], before the loop. *)
Definition run_prologue (t : MovieStreamThread) : MovieStreamThread :=
  with_phase Running
    (with_statusFlag NOT_STARTED
       (with_playbackJustStarted true
          (with_frameInterval (f_lit 1 1000)
             (with_isReadyEvent false (with_isPlaying false t))))).

(** The last lines of [run], after the loop. *)
Definition run_epilogue (t : MovieStreamThread) : MovieStreamThread :=
  with_phase Exited (with_isStreamingEvent false (with_isReadyEvent false t)).

(** Lines 246-249: the request of the main thread is read from the event
    [_isPlaying]. *)
Definition observe (t : MovieStreamThread) : MovieStreamThread :=
  if t_isPlaying t then with_statusFlag PLAYING t else with_statusFlag PAUSED t.

(** Lines 257-263: frames are pulled until one is there and the decoder
    does not answer ['not ready'].  [fuel] bounds the number of pulls. *)
Fixpoint pull_frame (fuel : nat) (h : H) : option ((Image * F) * frame_val F * H) :=
  match fuel with
  | O => None
  | S fuel' =>
      let '(frameData, val, h') := get_frame h in
      match frameData with
      | None => pull_frame fuel' h'
      | Some fd =>
          if val_is val "not ready" then pull_frame fuel' h'
          else Some (fd, val, h')
      end
  end.

(** Line 275: [1.0 / (numer / float(denom))]. *)
Definition poll_interval (numer denom : Z) : exn + F :=
  match f_of_int denom with
  | None => inl OverflowError
  | Some d =>
      match f_of_int numer with
      | None => inl OverflowError
      | Some n =>
          match f_div n d with
          | None => inl ZeroDivisionError
          | Some rate =>
              match f_div (f_lit 1 1) rate with
              | None => inl ZeroDivisionError
              | Some i => inr i
              end
          end
      end
  end.

(** Lines 284-296: the frame goes into the queue unless the queue is
    full.  The result is [None] if [put] had to wait. *)
Definition publish (sd : StreamData F) (q : Queue.t (StreamData F))
  : option (Queue.t (StreamData F)) :=
  if negb (Queue.full q) then Queue.put sd q else Some q.

(** Lines 251-299: the branch of a playing reader. *)
Definition run_playing (fuel : nat) (t : MovieStreamThread) (h : H)
  : outcome (MovieStreamThread * H) flow :=
  let h := if get_pause h then set_pause false h else h in
  match pull_frame fuel h with
  | None => Hang
  | Some (frameData, val, h) =>
      let t := with_isReadyEvent true t in
      let metadata := get_metadata h in
      let '(numer, denom) := frame_rate metadata in
      if denom =? 0 then Ret Continue (t, h)
      else
        match poll_interval numer denom with
        | inl e => Raise e (t, h)
        | inr i =>
            let t := with_frameInterval i t in
            let '(img, pts) := frameData in
            let t := with_streamTime pts t in
            let streamStatus :=
              mkStreamStatus (t_statusFlag t) (t_streamTime t) (f_lit 0 1) 0 in
            let toReturn :=
              mkStreamData (VDict metadata) (VImage img)
                (VStreamStatus streamStatus) "ffpyplayer" in
            match publish toReturn (t_frameQueue t) with
            | None => Hang
            | Some q =>
                let t := with_frameQueue q t in
                let t := if val_is val "eof" then with_statusFlag STOPPING t else t in
                Ret FallThrough (t, h)
            end
        end
  end.

(** Lines 301-305: the branch of a paused reader. *)
Definition run_paused (t : MovieStreamThread) (h : H) : MovieStreamThread * H :=
  (t, if negb (get_pause h) then set_pause true h else h).

(** Lines 308-309: the stop signal, or the end of the stream, ends the
    loop. *)
Definition stop_check (t : MovieStreamThread) : MovieStreamThread :=
  if t_stopSignal t || Status_eqb (t_statusFlag t) STOPPING
  then with_statusFlag STOPPED t else t.

(** One pass through the body of the [while] loop of [run]. *)
Definition run_body (fuel : nat) (t : MovieStreamThread) (h : H)
  : outcome (MovieStreamThread * H) unit :=
  if Status_eqb (t_statusFlag t) NOT_STARTED
  then Ret tt (with_statusFlag PLAYING t, set_pause false h)
  else
    let t := observe t in
    if Status_eqb (t_statusFlag t) PLAYING then
      match run_playing fuel t h with
      | Ret FallThrough (t, h) => Ret tt (stop_check t, h)
      | Ret Continue (t, h) => Ret tt (t, h)
      | Raise e s => Raise e s
      | Hang => Hang
      end
    else if Status_eqb (t_statusFlag t) PAUSED then
      let '(t, h) := run_paused t h in Ret tt (stop_check t, h)
    else Ret tt (stop_check t, h).

(** One step of the thread: the first lines of [run], one pass through
    the loop, or the last lines of [run].  An exception nobody catches
    ends the thread.  [None]: the step does not end.  A pass is one
    step: the calls of the main thread are placed between two passes.  A
    call that lands inside a pass, after lines 246-249 have read the play
    flag, meets the reader of [pass_in_flight] below. *)
Definition thread_step (fuel : nat) (t : MovieStreamThread) (h : H)
  : option (MovieStreamThread * H) :=
  match t_phase t with
  | Created | Exited => Some (t, h)
  | Started => Some (run_prologue t, h)
  | Running =>
      if Status_eqb (t_statusFlag t) STOPPED then Some (run_epilogue t, h)
      else match run_body fuel t h with
           | Ret _ s => Some s
           | Raise _ (t', h') => Some (with_phase Exited t', h')
           | Hang => None
           end
  end.

(** [threading.Thread.join()]: the caller waits until the thread is
    over; [steps] bounds the number of steps it waits for. *)
Fixpoint Thread_join (steps fuel : nat) (t : MovieStreamThread) (h : H)
  : option (MovieStreamThread * H) :=
  match t_phase t with
  | Exited => Some (t, h)
  | _ =>
      match steps with
      | O => None
      | S steps' =>
          match thread_step fuel t h with
          | None => None
          | Some (t', h') => Thread_join steps' fuel t' h'
          end
      end
  end.

(** The state a playing reader is left in by a frame it could not
    publish: the time stamp and the polling interval are updated, the
    ready flag is set; neither the picture nor the metadata is kept. *)
Definition after_dropped_frame (t : MovieStreamThread) (pts i : F)
  (val : frame_val F) : MovieStreamThread :=
  let t' := with_streamTime pts (with_frameInterval i (with_isReadyEvent true t)) in
  if val_is val "eof" then with_statusFlag STOPPING t' else t'.

End Reader.
Arguments MovieStreamThread : clear implicits.

(** ** The player facade: [FFPyPlayer] *)

(** The calls the facade makes on the decoder and on the reader thread
    that change them, in the order they are made (a ghost record; the
    source keeps none). *)
Inductive Call (F : Type) : Type :=
| call_open (filename : string)
| call_set_mute (b : bool)
| call_set_pause (b : bool)
| call_seek (timestamp : F) (relative : bool)
| call_close_player
| call_thread_start
| call_thread_play
| call_thread_pause
| call_thread_shutdown
| call_thread_join.
Arguments call_open {F} filename.
Arguments call_set_mute {F} b.
Arguments call_set_pause {F} b.
Arguments call_seek {F} timestamp relative.
Arguments call_close_player {F}.
Arguments call_thread_start {F}.
Arguments call_thread_play {F}.
Arguments call_thread_pause {F}.
Arguments call_thread_shutdown {F}.
Arguments call_thread_join {F}.

Section Facade.
Context {F : Type} {PF : PyFloat F} {H : Type} {MP : MediaPlayer F H}
        {MD : MetadataProps F}.

(** The attributes of the player.  [__init__] creates the first seven;
    [_lastFrame], [_streamTime], [_recordingTime] and [_recordingBytes]
    exist once [_enqueueFrame] has assigned them ([None] before). *)
Record FFPyPlayer : Type := mkPlayer {
  p_filename : string;
  p_handle : option H;
  p_queuedFrame : MovieFrame F;
  p_frameIndex : Z;
  p_needsNewFrame : bool;
  p_status : Status;
  p_tStream : option (MovieStreamThread F);
  p_lastFrame : option (MovieFrame F);
  p_streamTime : option F;
  p_recordingTime : option F;
  p_recordingBytes : option Z
}.

Definition with_filename (x : string) (p : FFPyPlayer) :=
  mkPlayer x (p_handle p) (p_queuedFrame p) (p_frameIndex p) (p_needsNewFrame p)
    (p_status p) (p_tStream p) (p_lastFrame p) (p_streamTime p)
    (p_recordingTime p) (p_recordingBytes p).

Definition with_handle (x : option H) (p : FFPyPlayer) :=
  mkPlayer (p_filename p) x (p_queuedFrame p) (p_frameIndex p) (p_needsNewFrame p)
    (p_status p) (p_tStream p) (p_lastFrame p) (p_streamTime p)
    (p_recordingTime p) (p_recordingBytes p).

Definition with_queuedFrame (x : MovieFrame F) (p : FFPyPlayer) :=
  mkPlayer (p_filename p) (p_handle p) x (p_frameIndex p) (p_needsNewFrame p)
    (p_status p) (p_tStream p) (p_lastFrame p) (p_streamTime p)
    (p_recordingTime p) (p_recordingBytes p).

Definition with_frameIndex (x : Z) (p : FFPyPlayer) :=
  mkPlayer (p_filename p) (p_handle p) (p_queuedFrame p) x (p_needsNewFrame p)
    (p_status p) (p_tStream p) (p_lastFrame p) (p_streamTime p)
    (p_recordingTime p) (p_recordingBytes p).

Definition with_status (x : Status) (p : FFPyPlayer) :=
  mkPlayer (p_filename p) (p_handle p) (p_queuedFrame p) (p_frameIndex p)
    (p_needsNewFrame p) x (p_tStream p) (p_lastFrame p) (p_streamTime p)
    (p_recordingTime p) (p_recordingBytes p).

Definition with_tStream (x : option (MovieStreamThread F)) (p : FFPyPlayer) :=
  mkPlayer (p_filename p) (p_handle p) (p_queuedFrame p) (p_frameIndex p)
    (p_needsNewFrame p) (p_status p) x (p_lastFrame p) (p_streamTime p)
    (p_recordingTime p) (p_recordingBytes p).

Definition with_lastFrame (x : option (MovieFrame F)) (p : FFPyPlayer) :=
  mkPlayer (p_filename p) (p_handle p) (p_queuedFrame p) (p_frameIndex p)
    (p_needsNewFrame p) (p_status p) (p_tStream p) x (p_streamTime p)
    (p_recordingTime p) (p_recordingBytes p).

Definition with_stream_info (st rt : F) (rb : Z) (p : FFPyPlayer) :=
  mkPlayer (p_filename p) (p_handle p) (p_queuedFrame p) (p_frameIndex p)
    (p_needsNewFrame p) (p_status p) (p_tStream p) (p_lastFrame p) (Some st)
    (Some rt) (Some rb).

(** [FFPyPlayer.__init__]. *)
Definition FFPyPlayer_init : FFPyPlayer :=
  mkPlayer "" None NULL_MOVIE_FRAME_INFO (-1) false NOT_STARTED None None None
    None None.

(** The player together with what surrounds it: the experiment clock
    behind [psychopy.core.getTime] (its successive readings, and how many
    were taken), and the calls made so far. *)
Record World : Type := mkWorld {
  self : FFPyPlayer;
  clock : nat -> F;
  now : nat;
  log : list (Call F)
}.

Definition World_init (clock : nat -> F) : World :=
  mkWorld FFPyPlayer_init clock O [].

(** *** Small steps of a method body *)

Definition self_upd (f : FFPyPlayer -> FFPyPlayer) : M World unit :=
  fun w => Ret tt (mkWorld (f (self w)) (clock w) (now w) (log w)).

Definition record (c : Call F) : M World unit :=
  fun w => Ret tt (mkWorld (self w) (clock w) (now w) (log w ++ [c])).

(** A read of [self]. *)
Definition get_self : M World FFPyPlayer := fun w => Ret (self w) w.

(** [psychopy.core.getTime()]. *)
Definition getTime : M World F :=
  fun w => Ret (clock w (now w)) (mkWorld (self w) (clock w) (S (now w)) (log w)).

(** The object in [self._handle], for a method call on it; on [None] the
    attribute lookup fails. *)
Definition the_handle : M World H :=
  fun w => match p_handle (self w) with
           | Some h => Ret h w
           | None => Raise (AttributeError "NoneType") w
           end.

(** The object in [self._tStream], for a method call on it. *)
Definition the_thread : M World (MovieStreamThread F) :=
  fun w => match p_tStream (self w) with
           | Some t => Ret t w
           | None => Raise (AttributeError "NoneType") w
           end.

(** A call [self._handle.m(...)] that changes the decoder. *)
Definition handle_do (c : Call F) (f : H -> H) : M World unit :=
  (h <- the_handle ;;
   self_upd (with_handle (Some (f h))) ;;
   record c)%py.

(** A call [self._tStream.m()] that changes the thread object. *)
Definition thread_do (c : Call F)
  (f : MovieStreamThread F -> MovieStreamThread F) : M World unit :=
  (t <- the_thread ;;
   self_upd (with_tStream (Some (f t))) ;;
   record c)%py.

(** *** Methods *)

(** [FFPyPlayer._assertMediaPlayer]. *)
Definition _assertMediaPlayer : M World unit :=
  fun w => match p_handle (self w) with
           | Some _ => Ret tt w
           | None => Raise (RuntimeError msg_not_loaded) w
           end.

(** The loop of [start]: frames are pulled, and dropped, until one is
    there. *)
Fixpoint first_frame (fuel : nat) (h : H) : option H :=
  match fuel with
  | O => None
  | S fuel' =>
      let '(frame, _, h') := get_frame h in
      match frame with
      | None => first_frame fuel' h'
      | Some _ => Some h'
      end
  end.

(** [FFPyPlayer.start]. *)
Definition start (fuel : nat) : M World unit :=
  (self_upd (with_queuedFrame NULL_MOVIE_FRAME_INFO) ;;
   self_upd (with_frameIndex (-1)) ;;
   p <- get_self ;;
   self_upd (with_handle (Some (mp_open (p_filename p)))) ;;
   record (call_open (p_filename p)) ;;
   handle_do (call_set_mute true) (set_mute true) ;;
   handle_do (call_set_pause false) (set_pause false) ;;
   h <- the_handle ;;
   match first_frame fuel h with
   | None => hang
   | Some h' =>
       self_upd (with_handle (Some h')) ;;
       handle_do (call_set_pause true) (set_pause true) ;;
       handle_do (call_seek (f_lit 0 1) false) (seek (f_lit 0 1) false) ;;
       handle_do (call_set_mute false) (set_mute false) ;;
       self_upd (with_status NOT_STARTED) ;;
       self_upd (with_tStream (Some (MovieStreamThread_init 1))) ;;
       thread_do call_thread_start Thread_start
   end)%py.

(** [FFPyPlayer.unload]. *)
Definition unload : M World unit :=
  (handle_do call_close_player close_player ;;
   self_upd (with_filename "") ;;
   self_upd (with_frameIndex (-1)) ;;
   self_upd (with_handle None))%py.

(** [FFPyPlayer.load].  The first statement, which replaces the file
    name ["untitled.mp4"] by a path below the resources folder, is left
    out: the next statement assigns [_filename] whatever it did.  The
    handle is a [MediaPlayer] or [None], so the type check passes. *)
Definition load (fuel : nat) (pathToMovie : string) : M World unit :=
  (self_upd (with_filename pathToMovie) ;;
   p <- get_self ;;
   match p_handle p with
   | Some _ => unload
   | None => ret tt
   end ;;
   start fuel ;;
   self_upd (with_status NOT_STARTED))%py.

Definition handle (p : FFPyPlayer) : option H := p_handle p.

Definition isLoaded (p : FFPyPlayer) : bool :=
  match p_handle p with Some _ => true | None => false end.

(** The [MovieMetadata] object [getMetadata] builds from the dictionary
    of the decoder. *)
Definition metadata_of (p : FFPyPlayer) (h : H) : MovieMetadata F :=
  let metadata := get_metadata h in
  mkMovieMetadata (p_filename p) (title metadata) (duration metadata)
    (frame_rate metadata) (src_vid_size metadata) (src_pix_fmt metadata)
    "ffpyplayer".

(** [FFPyPlayer.getMetadata]. *)
Definition getMetadata : M World (MovieMetadata F) :=
  (_assertMediaPlayer ;;
   h <- the_handle ;;
   p <- get_self ;;
   ret (metadata_of p h))%py.

Definition status (p : FFPyPlayer) : Status := p_status p.

Definition isPlaying (p : FFPyPlayer) : bool := Status_eqb (status p) PLAYING.

Definition isNotStarted (p : FFPyPlayer) : bool :=
  Status_eqb (status p) NOT_STARTED.

Definition isStopped (p : FFPyPlayer) : bool := Status_eqb (status p) STOPPED.

Definition isFinished (p : FFPyPlayer) : bool := Status_eqb (status p) FINISHED.

(** [FFPyPlayer.isPaused]. *)
Definition isPaused : M World bool :=
  (_assertMediaPlayer ;;
   h <- the_handle ;;
   ret (get_pause h))%py.

(** [FFPyPlayer.play]. *)
Definition play : M World unit :=
  (_assertMediaPlayer ;;
   thread_do call_thread_play MovieStreamThread_play ;;
   self_upd (with_status PLAYING))%py.

(** [self._tStream.join()]: the reader runs on the decoder until it is
    over. *)
Definition join_thread (fuel : nat) : M World unit :=
  (t <- the_thread ;;
   h <- the_handle ;;
   match Thread_join fuel fuel t h with
   | None => hang
   | Some (t', h') =>
       self_upd (with_tStream (Some t')) ;;
       self_upd (with_handle (Some h')) ;;
       record call_thread_join
   end)%py.

(** [FFPyPlayer.stop]. *)
Definition stop (fuel : nat) : M World unit :=
  (p <- get_self ;;
   match p_handle p with
   | None => raise (RuntimeError msg_not_opened)
   | Some _ =>
       thread_do call_thread_shutdown MovieStreamThread_shutdown ;;
       join_thread fuel ;;
       self_upd (with_tStream None) ;;
       handle_do call_close_player close_player ;;
       self_upd (with_handle None)
   end)%py.

(** [FFPyPlayer.pause]. *)
Definition pause : M World bool :=
  (_assertMediaPlayer ;;
   thread_do call_thread_pause MovieStreamThread_pause ;;
   ret false)%py.

(** [FFPyPlayer.seek] (the method; [seek] alone is the decoder's). *)
Definition FFPyPlayer_seek (timestamp : F) : M World F :=
  (_assertMediaPlayer ;;
   handle_do (call_seek timestamp false) (seek timestamp false) ;;
   self_upd (with_queuedFrame NULL_MOVIE_FRAME_INFO) ;;
   h <- the_handle ;;
   ret (get_pts h))%py.

(** The property [FFPyPlayer.pts]. *)
Definition pts : M World F :=
  fun w => match p_handle (self w) with
           | None => Ret (f_lit (-1) 1) w
           | Some h => Ret (get_pts h) w
           end.

(** [FFPyPlayer.rewind]. *)
Definition rewind (seconds : F) : M World F :=
  (_assertMediaPlayer ;;
   now_pts <- pts ;;
   let timestamp := f_sub now_pts seconds in
   FFPyPlayer_seek timestamp ;;
   h <- the_handle ;;
   ret (get_pts h))%py.

(** [FFPyPlayer.fastForward]. *)
Definition fastForward (seconds : F) : M World F :=
  (_assertMediaPlayer ;;
   now_pts <- pts ;;
   let timestamp := f_add now_pts seconds in
   FFPyPlayer_seek timestamp ;;
   h <- the_handle ;;
   ret (get_pts h))%py.

(** [FFPyPlayer.replay]. *)
Definition replay (fuel : nat) (autoStart : bool) : M World unit :=
  (p <- get_self ;;
   let lastMovieFile := p_filename p in
   stop fuel ;;
   load fuel lastMovieFile ;;
   start fuel)%py.

(** *** Timing *)

(** [FFPyPlayer.getStartAbsTime]. *)
Definition getStartAbsTime : M World F :=
  (_assertMediaPlayer ;;
   t <- getTime ;;
   h <- the_handle ;;
   ret (f_sub t (get_pts h)))%py.

(** [FFPyPlayer.movieToAbsTime]. *)
Definition movieToAbsTime (movieTime : value F) : M World F :=
  (_assertMediaPlayer ;;
   match movieTime with
   | VFloat x => s <- getStartAbsTime ;; ret (f_add s x)
   | _ => raise (TypeError msg_movieTime_type)
   end)%py.

(** [FFPyPlayer.absToMovieTime]. *)
Definition absToMovieTime (absTime : value F) : M World F :=
  (_assertMediaPlayer ;;
   match absTime with
   | VFloat x => s <- getStartAbsTime ;; ret (f_sub x s)
   | _ => raise (TypeError msg_absTime_type)
   end)%py.

(** [FFPyPlayer.movieTimeFromFrameIndex]: an [int] times a [float]. *)
Definition movieTimeFromFrameIndex (frameIdx : Z) : M World F :=
  (_assertMediaPlayer ;;
   metadata <- getMetadata ;;
   match f_of_int frameIdx with
   | None => raise OverflowError
   | Some i => ret (f_mul i (frameInterval metadata))
   end)%py.

(** [FFPyPlayer.frameIndexFromMovieTime]. *)
Definition frameIndexFromMovieTime (movieTime : F) : M World Z :=
  (_assertMediaPlayer ;;
   metadata <- getMetadata ;;
   match f_div movieTime (frameInterval metadata) with
   | None => raise ZeroDivisionError
   | Some q =>
       match f_floor q with
       | None => raise OverflowError
       | Some n => ret n
       end
   end)%py.

Definition isSeekable (p : FFPyPlayer) : bool := true.

(** The property [FFPyPlayer.frameIndex]. *)
Definition frameIndex (p : FFPyPlayer) : Z := mf_frameIndex (p_queuedFrame p).

(** *** Frames *)

(** The loop of [_enqueueFrame] that waits for a frame.  While the main
    thread sleeps between two looks at the queue, the reader takes a
    step. *)
Fixpoint wait_frame (steps fuel : nat) (t : MovieStreamThread F) (h : H)
  : option (StreamData F * MovieStreamThread F * H) :=
  match steps with
  | O => None
  | S steps' =>
      match getRecentFrame t with
      | (Some sd, t') => Some (sd, t', h)
      | (None, t') =>
          match thread_step fuel t' h with
          | None => None
          | Some (t'', h') => wait_frame steps' fuel t'' h'
          end
      end
  end.

(** [FFPyPlayer._enqueueFrame]. *)
Definition _enqueueFrame (fuel : nat) (blockUntilFrame : bool) : M World bool :=
  (_assertMediaPlayer ;;
   t <- the_thread ;;
   h <- the_handle ;;
   enqueued <-
     (if blockUntilFrame then
        match wait_frame fuel fuel t h with
        | None => hang
        | Some (sd, t', h') =>
            self_upd (with_tStream (Some t')) ;;
            self_upd (with_handle (Some h')) ;;
            ret (Some sd)
        end
      else
        let '(r, t') := getRecentFrame t in
        self_upd (with_tStream (Some t')) ;; ret r) ;;
   match enqueued with
   | None => ret false
   | Some enqueuedFrame =>
       let metadata := sd_metadata enqueuedFrame in
       let frameImage := sd_frameImage enqueuedFrame in
       match sd_streamStatus enqueuedFrame with
       | VStreamStatus streamStatus =>
           self_upd (with_stream_info (ss_streamTime streamStatus)
                       (ss_recTime streamStatus) (ss_recBytes streamStatus)) ;;
           match frameImage with
           | VImage img =>
               match to_bytearray img with
               | [] => raise IndexError
               | videoBuffer :: _ =>
                   p <- get_self ;;
                   self_upd (with_lastFrame
                     (Some (mkMovieFrame (p_frameIndex p) (ss_recTime streamStatus)
                              (get_size img) videoBuffer 0 metadata "ffpyplayer"))) ;;
                   ret true
               end
           | _ => raise (AttributeError "to_bytearray")
           end
       | _ => raise (AttributeError "streamTime")
       end
   end)%py.

(** [FFPyPlayer.getMovieFrame]. *)
Definition getMovieFrame (fuel : nat) (absTime : F) : M World (MovieFrame F) :=
  (_assertMediaPlayer ;;
   _enqueueFrame fuel true ;;
   p <- get_self ;;
   match p_lastFrame p with
   | Some frame => ret frame
   | None => raise (AttributeError "_lastFrame")
   end)%py.

(** *** Calls from outside *)

(** The transport and timing methods a caller can invoke, with their
    arguments. *)
Inductive Op : Type :=
| op_load (pathToMovie : string)
| op_start
| op_play
| op_pause
| op_stop
| op_seek (timestamp : F)
| op_rewind (seconds : F)
| op_fastForward (seconds : F)
| op_replay (autoStart : bool)
| op_getMovieFrame (absTime : F)
| op_getMetadata
| op_movieToAbsTime (movieTime : value F)
| op_absToMovieTime (absTime : value F)
| op_frameIndexFromMovieTime (movieTime : F)
| op_movieTimeFromFrameIndex (frameIdx : Z).

Definition discard {A} (c : M World A) : M World unit := (c ;; ret tt)%py.

(** The call of a method, its result dropped. *)
Definition run_op (fuel : nat) (op : Op) : M World unit :=
  match op with
  | op_load path => load fuel path
  | op_start => start fuel
  | op_play => play
  | op_pause => discard pause
  | op_stop => stop fuel
  | op_seek t => discard (FFPyPlayer_seek t)
  | op_rewind s => discard (rewind s)
  | op_fastForward s => discard (fastForward s)
  | op_replay a => replay fuel a
  | op_getMovieFrame t => discard (getMovieFrame fuel t)
  | op_getMetadata => discard getMetadata
  | op_movieToAbsTime v => discard (movieToAbsTime v)
  | op_absToMovieTime v => discard (absToMovieTime v)
  | op_frameIndexFromMovieTime t => discard (frameIndexFromMovieTime t)
  | op_movieTimeFromFrameIndex i => discard (movieTimeFromFrameIndex i)
  end.

(** The methods that need a loaded movie: all but [load] and [start],
    and [stop], which has a check of its own. *)
Definition needs_load (op : Op) : bool :=
  match op with
  | op_load _ | op_start | op_stop | op_replay _ => false
  | _ => true
  end.

(** The reader thread takes a step between two calls of the main
    thread.  [None]: the step does not end. *)
Definition tick (fuel : nat) (w : World) : option World :=
  match p_tStream (self w), p_handle (self w) with
  | Some t, Some h =>
      match thread_step fuel t h with
      | None => None
      | Some (t', h') =>
          Some (mkWorld (with_handle (Some h') (with_tStream (Some t') (self w)))
                  (clock w) (now w) (log w))
      end
  | _, _ => Some w
  end.

(** The states of the world a program can reach: it creates the player,
    then calls methods, catching what they raise, while the reader
    thread runs in between. *)
Inductive reachable : World -> Prop :=
| reach_init : forall clk, reachable (World_init clk)
| reach_ret : forall fuel op w w',
    reachable w -> run_op fuel op w = Ret tt w' -> reachable w'
| reach_raise : forall fuel op e w w',
    reachable w -> run_op fuel op w = Raise e w' -> reachable w'
| reach_tick : forall fuel w w',
    reachable w -> tick fuel w = Some w' -> reachable w'.

(** *** States and invariants the properties speak of *)

(** What [load] leaves of a player without a decoder, once the new
    decoder has given its first frame and is in state [h']. *)
Definition loaded_world (w : World) (path : string) (h' : H) : World :=
  mkWorld
    (mkPlayer path
       (Some (set_mute false (seek (f_lit 0 1) false (set_pause true h'))))
       NULL_MOVIE_FRAME_INFO (-1) (p_needsNewFrame (self w)) NOT_STARTED
       (Some (Thread_start (MovieStreamThread_init 1)))
       (p_lastFrame (self w)) (p_streamTime (self w))
       (p_recordingTime (self w)) (p_recordingBytes (self w)))
    (clock w) (now w)
    (log w ++ [call_open path; call_set_mute true; call_set_pause false;
               call_set_pause true; call_seek (f_lit 0 1) false;
               call_set_mute false; call_thread_start]).

(** [stop] on a player whose reader comes to its end: the reader is told
    to shut down, the main thread waits for it, lets go of it and closes
    the decoder, in this order. *)
Definition stopped_world (w : World) : World :=
  mkWorld (with_handle None (with_tStream None (self w))) (clock w) (now w)
    (log w ++ [call_thread_shutdown; call_thread_join; call_close_player]).

(** The status is NOT_STARTED or PLAYING. *)
Definition status_inv (w : World) : Prop :=
  p_status (self w) = NOT_STARTED \/ p_status (self w) = PLAYING.

(** A call keeps [I] if the state it returns or raises in satisfies [I]
    whenever the state it started in does. *)
Definition keeps {A} (I : World -> Prop) (c : M (World) A) : Prop :=
  forall w, I w ->
    match c w with
    | Ret _ w' | Raise _ w' => I w'
    | Hang => True
    end.

End Facade.
Arguments FFPyPlayer : clear implicits.
Arguments World : clear implicits.
Arguments Op : clear implicits.

(** ** Signals of the main thread to the reader *)

Inductive signal : Type := sig_play | sig_pause.

Section Signals.
Context {F : Type}.

(** The call [play()] or [pause()] on the reader. *)
Definition send (s : signal) (t : MovieStreamThread F) : MovieStreamThread F :=
  match s with
  | sig_play => MovieStreamThread_play t
  | sig_pause => MovieStreamThread_pause t
  end.


Definition requested (s : signal) : Status :=
  match s with sig_play => PLAYING | sig_pause => PAUSED end.

End Signals.

(** ** A decoder to run the model on *)

(** A decoder that plays a list of frames: [get_frame] hands out the
    frame under the cursor and moves on, answers ['paused'] while paused
    and ['eof'] past the last frame; an absolute [seek] puts the cursor
    on the first frame at or after the timestamp. *)
Record SimPlayer (F : Type) : Type := mkSim {
  sim_frames : list (Image * F);
  sim_meta : MetaDict F;
  sim_pos : nat;
  sim_pause : bool;
  sim_mute : bool;
  sim_pts : F;
  sim_closed : bool
}.
Arguments mkSim {F} _ _ _ _ _ _ _.
Arguments sim_frames {F} _.
Arguments sim_meta {F} _.
Arguments sim_pos {F} _.
Arguments sim_pause {F} _.
Arguments sim_mute {F} _.
Arguments sim_pts {F} _.
Arguments sim_closed {F} _.

Section Sim.
Context {F : Type} {PF : PyFloat F}.

(** The movies on disk: for a file name, its frames and its metadata. *)
Variable disk : string -> list (Image * F) * MetaDict F.

Definition sim_open (filename : string) : SimPlayer F :=
  mkSim (fst (disk filename)) (snd (disk filename)) O false false (f_lit 0 1)
    false.

Definition sim_set_pause (b : bool) (s : SimPlayer F) : SimPlayer F :=
  mkSim (sim_frames s) (sim_meta s) (sim_pos s) b (sim_mute s) (sim_pts s)
    (sim_closed s).

Definition sim_set_mute (b : bool) (s : SimPlayer F) : SimPlayer F :=
  mkSim (sim_frames s) (sim_meta s) (sim_pos s) (sim_pause s) b (sim_pts s)
    (sim_closed s).

Definition sim_get_frame (s : SimPlayer F)
  : (option (Image * F) * frame_val F) * SimPlayer F :=
  if sim_pause s then ((None, val_str "paused"), s)
  else match nth_error (sim_frames s) (sim_pos s) with
       | Some (img, t) =>
           ((Some (img, t), val_delay (f_lit 0 1)),
            mkSim (sim_frames s) (sim_meta s) (S (sim_pos s)) (sim_pause s)
              (sim_mute s) t (sim_closed s))
       | None => ((None, val_str "eof"), s)
       end.

Definition sim_seek (timestamp : F) (relative : bool) (s : SimPlayer F)
  : SimPlayer F :=
  let target := if relative then f_add (sim_pts s) timestamp else timestamp in
  mkSim (sim_frames s) (sim_meta s)
    (List.length (filter (fun fr => f_ltb (snd fr) target) (sim_frames s)))
    (sim_pause s) (sim_mute s) target (sim_closed s).

Definition sim_close (s : SimPlayer F) : SimPlayer F :=
  mkSim (sim_frames s) (sim_meta s) (sim_pos s) (sim_pause s) (sim_mute s)
    (sim_pts s) true.

Definition SimMediaPlayer : MediaPlayer F (SimPlayer F) := {|
  mp_open := sim_open;
  set_pause := sim_set_pause;
  get_pause := sim_pause;
  set_mute := sim_set_mute;
  get_frame := sim_get_frame;
  get_metadata := sim_meta;
  seek := sim_seek;
  get_pts := sim_pts;
  close_player := sim_close
|}.

(** Modelled from the spec: [MovieMetadata.frameInterval], whose class is
    not part of the sources.  The spec defines the frame interval as the
    reciprocal of the frame rate: for the rate [numer/denom] it is the
    float nearest to [denom/numer]. *)
Definition reciprocal_frameInterval : MetadataProps F := {|
  frameInterval := fun m =>
    f_lit (snd (md_frameRate m)) (Z.to_pos (fst (md_frameRate m)))
|}.

(** A picture of one plane that holds the byte [n]. *)
Definition picture (n : nat) : Image :=
  mkImage [[match Byte.of_nat n with Some b => b | None => Byte.x00 end]] (1, 1).

(** A clip of [n] frames at the rate [numer/denom]: frame [k] shows
    [picture k] at [k * denom / numer] seconds. *)
Definition clip (n : nat) (numer : positive) (denom : Z)
  : list (Image * F) * MetaDict F :=
  (map (fun k => (picture k, f_lit (Z.of_nat k * denom) numer)) (seq 0 n),
   mkMetaDict "clip" (f_lit (Z.of_nat n * denom) numer) (Z.pos numer, denom)
     (1, 1) "rgb24").

End Sim.

(** ** Scripts *)

(** What happens next: the main thread calls a method, or the reader
    thread takes a step. *)
Inductive action (F : Type) : Type :=
| call (op : Op F)
| step.
Arguments call {F} op.
Arguments step {F}.

Section Script.
Context {F : Type} {PF : PyFloat F} {H : Type} {MP : MediaPlayer F H}
        {MD : MetadataProps F}.

(** The actions of a list, one after the other; the main thread catches
    what a call raises and goes on.  [None]: an action does not end. *)
Fixpoint run_script (fuel : nat) (l : list (action F)) (w : World F H)
  : option (World F H) :=
  match l with
  | [] => Some w
  | call op :: l' =>
      match run_op fuel op w with
      | Ret _ w' | Raise _ w' => run_script fuel l' w'
      | Hang => None
      end
  | step :: l' =>
      match tick fuel w with
      | Some w' => run_script fuel l' w'
      | None => None
      end
  end.

End Script.

(** The disk of the examples: a clip of ten frames at one frame per
    second, one of 60 frames at 30 frames per second, and a stream whose
    frame rate is not known yet. *)
Definition demo_disk {F} `{PyFloat F} (filename : string)
  : list (Image * F) * MetaDict F :=
  if String.eqb filename "slow.mp4" then clip 10 1 1
  else if String.eqb filename "clip30.mp4" then clip 60 30 1
  else (fst (clip 10 1 1),
        mkMetaDict "raw" (f_lit 0 1) (0, 0) (1, 1) "rgb24").

(** An experiment clock that reads 10 s first and 10.001 s at each later
    reading. *)
Definition demo_clock {F} `{PyFloat F} (n : nat) : F :=
  match n with
  | O => f_lit 10 1
  | S _ => f_lit 10001 1000
  end.



(** The reader of the examples after one frame was published: its queue
    of one slot holds the frame of [picture 0]. *)
Definition demo_entry {F} `{PyFloat F} : StreamData F :=
  mkStreamData (VDict (snd (clip 10 1 1))) (VImage (picture 0))
    (VStreamStatus (mkStreamStatus PLAYING (f_lit 0 1) (f_lit 0 1) 0))
    "ffpyplayer".

Definition demo_full_reader {F} `{PyFloat F} : MovieStreamThread F :=
  with_statusFlag PLAYING
    (with_phase Running
       (with_isPlaying true
          (with_frameQueue (Queue.mk 1 [demo_entry]) (MovieStreamThread_init 1)))).

(** The decoder, the frame interval, the players and the programs of the
    examples, in binary64 and in exact arithmetic. *)
Module Demo.

Definition player64 : MediaPlayer float (SimPlayer float) :=
  SimMediaPlayer demo_disk.

Definition props64 : MetadataProps float := reciprocal_frameInterval.

Definition playerQ : MediaPlayer Q (SimPlayer Q) := SimMediaPlayer demo_disk.

Definition propsQ : MetadataProps Q := reciprocal_frameInterval.

Definition run64 (l : list (action float)) : option (World float (SimPlayer float)) :=
  run_script (MP := player64) (MD := props64) 20 l (World_init demo_clock).

Definition runQ (l : list (action Q)) : option (World Q (SimPlayer Q)) :=
  run_script (MP := playerQ) (MD := propsQ) 20 l (World_init demo_clock).

(** The slow clip is loaded, the reader starts, the clip is played and
    its first frame is fetched; the reader then puts the second frame,
    due at 1 s, in the queue. *)
Definition watching : list (action float) :=
  [call (op_load "slow.mp4"); step; call op_play; step; step;
   call (op_getMovieFrame (f_lit 0 1)); step].

(** The clip of 30 frames per second, loaded. *)
Definition loaded30 : list (action float) := [call (op_load "clip30.mp4")].

Definition loaded30Q : World Q (SimPlayer Q) :=
  match runQ [call (op_load "clip30.mp4")] with
  | Some w => w
  | None => World_init demo_clock
  end.

Definition loaded64 : World float (SimPlayer float) :=
  match run64 loaded30 with
  | Some w => w
  | None => World_init demo_clock
  end.

(** A program that loads, plays, pauses and stops the slow clip. *)
Definition session : list (action float) :=
  [call (op_load "slow.mp4"); step; call op_play; step; call op_pause;
   call op_stop].

(** The slow clip, opened and not paused. *)
Definition slow64 : SimPlayer float := sim_open demo_disk "slow.mp4".

(** A stream that does not know its frame rate yet, opened. *)
Definition raw64 : SimPlayer float := sim_open demo_disk "raw.bin".

Definition playing_reader : MovieStreamThread float :=
  with_statusFlag PLAYING
    (with_phase Running (with_isPlaying true (MovieStreamThread_init 1))).

End Demo.

(** ** [EyetrackerControl] of [psychopy/hardware/eyetracker.py] *)

(** The calls the controller makes on the ioHub server and on the
    tracker device, in the order they are made. *)
Inductive DeviceCall : Type :=
| getDevice (name : string)
| clearEvents
| setRecordingState (recording : bool).

Module Eyetracker.
Section Control.

(** The status constants the module imports from [psychopy.constants],
    which is not part of the sources: integers, taken as parameters. *)
Variables STARTED NOT_STARTED PAUSED STOPPED FINISHED : Z.

(** The attribute [_status] and the calls made so far. *)
Record EyetrackerControl : Type := mkControl {
  ec_status : Z;
  ec_calls : list DeviceCall
}.

(** [value in (a, b, ...)] for integers. *)
Definition is_in (value : Z) (t : list Z) : bool := existsb (Z.eqb value) t.

(** [EyetrackerControl.__init__(server, tracker)]: without a tracker,
    the device is asked of the server. *)
Definition init (tracker_given : bool) : EyetrackerControl :=
  mkControl NOT_STARTED (if tracker_given then [] else [getDevice "tracker"]).

(** The setter of [EyetrackerControl.status]. *)
Definition set_status (value : Z) (self : EyetrackerControl) : EyetrackerControl :=
  let old := ec_status self in
  let new := value in
  if new =? old then mkControl new (ec_calls self)
  else
    let started :=
      if is_in new [STARTED] then
        (if is_in old [NOT_STARTED; STOPPED; FINISHED] then [clearEvents] else [])
        ++ [setRecordingState true]
      else [] in
    let stopped :=
      if is_in new [NOT_STARTED; PAUSED; STOPPED; FINISHED]
      then [setRecordingState false] else [] in
    mkControl new (ec_calls self ++ started ++ stopped).

(** The assignments of a list, from left to right. *)
Definition set_all (values : list Z) (self : EyetrackerControl) : EyetrackerControl :=
  fold_left (fun s v => set_status v s) values self.

(** What the tracker was last told: the argument of the last
    [setRecordingState], if there was one. *)
Fixpoint last_recording (calls : list DeviceCall) : option bool :=
  match calls with
  | [] => None
  | c :: rest =>
      match last_recording rest with
      | Some b => Some b
      | None => match c with
                | setRecordingState b => Some b
                | _ => None
                end
      end
  end.

(** The status values the setter knows. *)
Definition known (value : Z) : bool :=
  is_in value [STARTED; NOT_STARTED; PAUSED; STOPPED; FINISHED].

(** Each [clearEvents] of a list of calls comes right before a
    [setRecordingState(True)]. *)
Fixpoint clears_before_start (calls : list DeviceCall) : bool :=
  match calls with
  | [] => true
  | clearEvents :: rest =>
      match rest with
      | setRecordingState true :: _ => clears_before_start rest
      | _ => false
      end
  | _ :: rest => clears_before_start rest
  end.

(** The last call of a list is [clearEvents]. *)
Fixpoint ends_with_clear (calls : list DeviceCall) : bool :=
  match calls with
  | [] => false
  | c :: rest =>
      match rest with
      | [] => match c with clearEvents => true | _ => false end
      | _ => ends_with_clear rest
      end
  end.

(** The tracker was told nothing and the status is NOT_STARTED, or it was
    last told to record exactly if the status is STARTED. *)
Definition tracker_follows (s : EyetrackerControl) : Prop :=
  (last_recording (ec_calls s) = None /\ ec_status s = NOT_STARTED) \/
  last_recording (ec_calls s) = Some (ec_status s =? STARTED).

End Control.
End Eyetracker.

(** ** More of [FFPyPlayer]: audio and progress *)

(** The audio methods of the decoder. *)
Class AudioControls (F H : Type) : Type := {
  get_volume : H -> F;
  set_volume : F -> H -> H;
  get_mute : H -> bool
}.

Section Audio.
Context {F : Type} {PF : PyFloat F} {H : Type} {MP : MediaPlayer F H}
        {MD : MetadataProps F} {AC : AudioControls F H}.

(** The built-ins [min(a, b)] and [max(a, b)]: the first argument is
    kept unless the second is smaller (larger). *)
Definition py_min (a b : F) : F := if f_ltb b a then b else a.

Definition py_max (a b : F) : F := if f_ltb a b then b else a.

(** [max(min(value, 1.0), 0.0)], the volume the setter hands to the
    decoder. *)
Definition clamp_volume (value : F) : F :=
  py_max (py_min value (f_lit 1 1)) (f_lit 0 1).

(** The getter of [FFPyPlayer.muted]: no check of the handle. *)
Definition muted : M (World F H) bool :=
  (h <- the_handle ;; ret (get_mute h))%py.

(** The setter of [FFPyPlayer.muted]. *)
Definition set_muted (value : bool) : M (World F H) unit :=
  handle_do (call_set_mute value) (set_mute value).

(** The getter of [FFPyPlayer.volume]. *)
Definition volume : M (World F H) F :=
  (_assertMediaPlayer ;;
   h <- the_handle ;;
   ret (get_volume h))%py.

(** The setter of [FFPyPlayer.volume]. *)
Definition set_volume_property (value : F) : M (World F H) unit :=
  (_assertMediaPlayer ;;
   h <- the_handle ;;
   self_upd (with_handle (Some (set_volume (clamp_volume value) h))))%py.

(** [FFPyPlayer.volumeUp]. *)
Definition volumeUp (amount : F) : M (World F H) F :=
  (_assertMediaPlayer ;;
   v <- volume ;;
   set_volume_property (f_add v amount) ;;
   volume)%py.

(** [FFPyPlayer.volumeDown]. *)
Definition volumeDown (amount : F) : M (World F H) F :=
  (_assertMediaPlayer ;;
   v <- volume ;;
   set_volume_property (f_sub v amount) ;;
   volume)%py.

(** [FFPyPlayer.getPercentageComplete]. *)
Definition getPercentageComplete : M (World F H) F :=
  (metadata <- getMetadata ;;
   h <- the_handle ;;
   match f_div (get_pts h) (md_duration metadata) with
   | None => raise ZeroDivisionError
   | Some q => ret (f_mul q (f_lit 100 1))
   end)%py.

(** The invariant of the frame bookkeeping: [_frameIndex] is [-1],
    [_queuedFrame] is the null frame and the frame in [_lastFrame], if
    there is one, carries the index [-1]. *)
Definition frame_inv (w : World F H) : Prop :=
  p_frameIndex (self w) = -1 /\
  p_queuedFrame (self w) = NULL_MOVIE_FRAME_INFO /\
  (forall frame, p_lastFrame (self w) = Some frame -> mf_frameIndex frame = -1).

(** The frame [_enqueueFrame] builds from a queue entry. *)
Definition frame_of_entry (p : FFPyPlayer F H) (sd : StreamData F)
  : option (MovieFrame F) :=
  match sd_streamStatus sd, sd_frameImage sd with
  | VStreamStatus streamStatus, VImage img =>
      match to_bytearray img with
      | [] => None
      | videoBuffer :: _ =>
          Some (mkMovieFrame (p_frameIndex p) (ss_recTime streamStatus)
                  (get_size img) videoBuffer 0 (sd_metadata sd) "ffpyplayer")
      end
  | _, _ => None
  end.

(** What the reader publishes for a frame. *)
Definition entry_of_frame (metadata : MetaDict F) (img : Image) (pts : F)
  : StreamData F :=
  mkStreamData (VDict metadata) (VImage img)
    (VStreamStatus (mkStreamStatus PLAYING pts (f_lit 0 1) 0)) "ffpyplayer".

(** An entry as the reader builds it, for a frame pulled while the
    status flag is [st]. *)
Definition published (st : Status) (sd : StreamData F) : Prop :=
  exists metadata img pts,
    sd = mkStreamData (VDict metadata) (VImage img)
           (VStreamStatus (mkStreamStatus st pts (f_lit 0 1) 0)) "ffpyplayer".

(** What a pass of the reader does to the queue: nothing, or one entry
    more at its end when there was room. *)
Definition queue_grows_by_at_most_one (st : Status)
  (q q' : Queue.t (StreamData F)) : Prop :=
  q' = q \/
  (Queue.full q = false /\
   exists sd, published st sd /\
              q' = Queue.mk (Queue.maxsize q) (Queue.items q ++ [sd])).

End Audio.

(** The getter of [StreamData.cameraLib]: the library named by the
    metadata, blank if there is none.  A dictionary has no attribute
    [movieLib]. *)
Definition StreamData_cameraLib {F} (self : StreamData F) : exn + string :=
  match sd_metadata self with
  | VNone => inr ""%string
  | VMovieMetadata m => inr (md_movieLib m)
  | _ => inl (AttributeError "movieLib")
  end.

(** ** A decoder with a volume *)

(** The decoder of the examples with a volume beside it. *)
Definition LoudPlayer (F : Type) : Type := (SimPlayer F * F)%type.

Section Loud.
Context {F : Type} {PF : PyFloat F}.
Variable disk : string -> list (Image * F) * MetaDict F.

Definition LoudMediaPlayer : MediaPlayer F (LoudPlayer F) := {|
  mp_open := fun filename => (sim_open disk filename, f_lit 1 1);
  set_pause := fun b s => (sim_set_pause b (fst s), snd s);
  get_pause := fun s => sim_pause (fst s);
  set_mute := fun b s => (sim_set_mute b (fst s), snd s);
  get_frame := fun s =>
    let '(r, s') := sim_get_frame (fst s) in (r, (s', snd s));
  get_metadata := fun s => sim_meta (fst s);
  seek := fun t relative s => (sim_seek t relative (fst s), snd s);
  get_pts := fun s => sim_pts (fst s);
  close_player := fun s => (sim_close (fst s), snd s)
|}.

Definition LoudAudio : AudioControls F (LoudPlayer F) := {|
  get_volume := fun s => snd s;
  set_volume := fun v s => (fst s, v);
  get_mute := fun s => sim_mute (fst s)
|}.

End Loud.

(** ** A decoder that plays a tape of answers *)

(** A decoder whose [get_frame] gives the answers of a list, one per
    call, and no frame with ['eof'] once the list is used up. *)
Record TapePlayer (F : Type) : Type := mkTape {
  tape : list (option (Image * F) * frame_val F);
  tape_meta : MetaDict F;
  tape_pause : bool;
  tape_pts : F
}.
Arguments mkTape {F} _ _ _ _.
Arguments tape {F} _.
Arguments tape_meta {F} _.
Arguments tape_pause {F} _.
Arguments tape_pts {F} _.

Section Tape.
Context {F : Type} {PF : PyFloat F}.
Variable disk : string -> list (option (Image * F) * frame_val F) * MetaDict F.

Definition tape_get_frame (s : TapePlayer F)
  : (option (Image * F) * frame_val F) * TapePlayer F :=
  match tape s with
  | [] => ((None, val_str "eof"), s)
  | answer :: rest =>
      (answer,
       mkTape rest (tape_meta s) (tape_pause s)
         (match fst answer with Some (_, t) => t | None => tape_pts s end))
  end.

Definition TapeMediaPlayer : MediaPlayer F (TapePlayer F) := {|
  mp_open := fun filename =>
    mkTape (fst (disk filename)) (snd (disk filename)) false (f_lit 0 1);
  set_pause := fun b s => mkTape (tape s) (tape_meta s) b (tape_pts s);
  get_pause := tape_pause;
  set_mute := fun _ s => s;
  get_frame := tape_get_frame;
  get_metadata := tape_meta;
  seek := fun t _ s => mkTape (tape s) (tape_meta s) (tape_pause s) t;
  get_pts := tape_pts;
  close_player := fun s => s
|}.

End Tape.

(** The tapes of the examples: a stream that has ended, and one whose
    frame rate is 0/1. *)
Definition demo_tapes {F} `{PyFloat F} (filename : string)
  : list (option (Image * F) * frame_val F) * MetaDict F :=
  if String.eqb filename "ended.mp4"
  then ([], mkMetaDict "ended" (f_lit 10 1) (1, 1) (1, 1) "rgb24")
  else ([(Some (picture 0, f_lit 0 1), val_delay (f_lit 0 1));
         (Some (picture 1, f_lit 1 1), val_delay (f_lit 0 1))],
        mkMetaDict "still" (f_lit 0 1) (0, 1) (1, 1) "rgb24").

(** The decoders, players and readers of the further examples. *)
Module Demo2.

Definition tapes64 : MediaPlayer float (TapePlayer float) :=
  TapeMediaPlayer demo_tapes.

Definition ended64 : TapePlayer float :=
  mp_open (MediaPlayer := tapes64) "ended.mp4".

Definition still64 : TapePlayer float :=
  mp_open (MediaPlayer := tapes64) "still.mp4".

Definition loud64 : MediaPlayer float (LoudPlayer float) :=
  LoudMediaPlayer demo_disk.

Definition audio64 : AudioControls float (LoudPlayer float) := LoudAudio.

Definition loudQ : MediaPlayer Q (LoudPlayer Q) := LoudMediaPlayer demo_disk.

Definition audioQ : AudioControls Q (LoudPlayer Q) := LoudAudio.

(** The slow clip, loaded in a player with a volume. *)
Definition loud_loaded64 : World float (LoudPlayer float) :=
  match run_script (MP := loud64) (MD := Demo.props64) 20
          [call (op_load "slow.mp4")] (World_init demo_clock) with
  | Some w => w
  | None => World_init demo_clock
  end.

Definition loud_loadedQ : World Q (LoudPlayer Q) :=
  match run_script (MP := loudQ) (MD := Demo.propsQ) 20
          [call (op_load "slow.mp4")] (World_init demo_clock) with
  | Some w => w
  | None => World_init demo_clock
  end.

(** The slow clip being played: the reader is running and the frame of
    0 s waits in the queue. *)
Definition playing64 : World float (SimPlayer float) :=
  match Demo.run64 [call (op_load "slow.mp4"); step; call op_play; step; step] with
  | Some w => w
  | None => World_init demo_clock
  end.

(** The slow clip was loaded and the reader has run three steps;
    nobody called [play]. *)
Definition idle64 : World float (SimPlayer float) :=
  match Demo.run64 [call (op_load "slow.mp4"); step; step; step] with
  | Some w => w
  | None => World_init demo_clock
  end.

End Demo2.

(** ** A pass of the reader, once the play flag is read *)

Section Passes.
Context {F : Type} {PF : PyFloat F} {H : Type} {MP : MediaPlayer F H}.




End Passes.

(** A clock that stands still. *)
Definition frozen_clock {F} (c : F) (n : nat) : F := c.

(** ** A disk on which an unknown name is no movie *)

(** The slow clip, and nothing else: any other name, the empty one
    included, gives a decoder without frames. *)
Definition strict_disk {F} `{PyFloat F} (filename : string)
  : list (Image * F) * MetaDict F :=
  if String.eqb filename "slow.mp4" then clip 10 1 1
  else ([], mkMetaDict "none" (f_lit 0 1) (0, 0) (0, 0) "").

(** The further players and programs of the examples. *)
Module Demo3.

Definition strict64 : MediaPlayer float (SimPlayer float) :=
  SimMediaPlayer strict_disk.

(** The slow clip, loaded from the strict disk. *)
Definition strict_loaded64 : World float (SimPlayer float) :=
  match run_script (MP := strict64) (MD := Demo.props64) 20
          [call (op_load "slow.mp4")] (World_init demo_clock) with
  | Some w => w
  | None => World_init demo_clock
  end.






(** The clip of 30 frames per second, loaded while the clock stands at
    10 s. *)
Definition frozen64 : World float (SimPlayer float) :=
  match run_script (MP := Demo.player64) (MD := Demo.props64) 20
          [call (op_load "clip30.mp4")]
          (World_init (frozen_clock (f_lit 10 1))) with
  | Some w => w
  | None => World_init demo_clock
  end.

(** The same, the clock standing at 2^40 s. *)
Definition far64 : World float (SimPlayer float) :=
  match run_script (MP := Demo.player64) (MD := Demo.props64) 20
          [call (op_load "clip30.mp4")]
          (World_init (frozen_clock (f_lit 1099511627776 1))) with
  | Some w => w
  | None => World_init demo_clock
  end.

End Demo3.

(** ** Doubles as integers *)

(** After [k] shifts to the right of the mantissa [m]: the quotient, and
    where the remainder lies in the interval it fell out of. *)
Definition shifted (m k : Z) (x : shr_record) : Prop :=
  shr_m x = m / 2 ^ k /\
  (shr_r x = true <-> 2 ^ k <= 2 * (m mod 2 ^ k)) /\
  (shr_s x = true <-> (m mod 2 ^ k <> 0 /\ 2 * (m mod 2 ^ k) <> 2 ^ k)).

Section Scaled.
Variables prec emax : Z.

(** The value of a finite float of the format, in units of [2^emin]. *)
Definition scaled (x : spec_float) : Z :=
  match x with
  | S754_finite s m e => cond_Zopp s (Z.pos m) * 2 ^ (e - SpecFloat.emin prec emax)
  | _ => 0
  end.

(** A zero, or a finite float whose exponent is not below [emin]. *)
Definition grounded (x : spec_float) : Prop :=
  match x with
  | S754_zero _ => True
  | S754_finite _ _ e => SpecFloat.emin prec emax <= e
  | _ => False
  end.

End Scaled.

(** The value of a double in units of [2^-1074], the smallest positive
    double. *)
Definition ticks (x : float) : Z := scaled prec emax (Prim2SF x).

(** [2^1074], the number of units in 1. *)
Definition ticks_per_unit : positive := Z.to_pos (2 ^ 1074).

(** * Properties *)

(** ** [StreamData]: the setters *)

(** C10. Whatever the value, [None] and values of the right class
    included, the setters of [StreamData.metadata] and of
    [StreamData.streamStatus] raise [TypeError] and leave the object as
    it was: the guard [not isinstance(value, T) or value is not None] is
    true for every value. *)
Theorem StreamData_setters_always_raise :
  forall (F : Type) (self : StreamData F) (v : value F),
    (negb (isinstance_MovieMetadata v) || negb (is_None v) = true /\
     StreamData_set_metadata v self = Raise (TypeError msg_metadata_type) self) /\
    (negb (isinstance_StreamStatus v) || negb (is_None v) = true /\
     StreamData_set_streamStatus v self
     = Raise (TypeError msg_streamStatus_type) self).
Proof.
  intros F self v.
  destruct v; repeat split; reflexivity.
Qed.

(** ** The hand-off queue *)

Section QueueFacts.
Context {A : Type}.

Lemma full_iff : forall q : Queue.t A,
  Queue.full q = true <-> 0 < Queue.maxsize q <= Queue.qsize q.
Proof.
  intros q. unfold Queue.full.
  rewrite andb_true_iff, Z.ltb_lt, Z.leb_le. tauto.
Qed.

(** A queue that holds as many entries as its positive capacity is
    full. *)
Lemma at_capacity_full : forall q : Queue.t A,
  0 < Queue.maxsize q -> Queue.qsize q = Queue.maxsize q -> Queue.full q = true.
Proof.
  intros q Hpos Hsize. apply full_iff. lia.
Qed.

Lemma put_not_full : forall (x : A) (q : Queue.t A),
  Queue.full q = false ->
  Queue.put x q = Some (Queue.mk (Queue.maxsize q) (Queue.items q ++ [x])).
Proof.
  intros x q Hq. unfold Queue.put. rewrite Hq. reflexivity.
Qed.

(** [put] alone would wait on a full queue. *)
Lemma put_full_waits : forall (x : A) (q : Queue.t A),
  Queue.full q = true -> Queue.put x q = None.
Proof.
  intros x q Hq. unfold Queue.put. rewrite Hq. reflexivity.
Qed.

End QueueFacts.

Section ReaderFacts.
Context {F : Type} {PF : PyFloat F} {H : Type} {MP : MediaPlayer F H}.

Lemma with_frameQueue_same : forall t : MovieStreamThread F,
  with_frameQueue (t_frameQueue t) t = t.
Proof. intros [ ]; reflexivity. Qed.

(** The guarded [put] of the reader never waits. *)
Lemma publish_returns : forall (sd : StreamData F) q,
  exists q', publish sd q = Some q'.
Proof.
  intros sd q. unfold publish.
  destruct (Queue.full q) eqn:Hq; simpl.
  - exists q. reflexivity.
  - rewrite (put_not_full sd q Hq). eexists. reflexivity.
Qed.

Lemma publish_full : forall (sd : StreamData F) q,
  Queue.full q = true -> publish sd q = Some q.
Proof.
  intros sd q Hq. unfold publish. rewrite Hq. reflexivity.
Qed.

Lemma run_playing_full : forall fuel (t : MovieStreamThread F) (h : H)
    img pts val h1 numer denom i,
  Queue.full (t_frameQueue t) = true ->
  pull_frame fuel (if get_pause h then set_pause false h else h)
  = Some ((img, pts), val, h1) ->
  frame_rate (get_metadata h1) = (numer, denom) ->
  denom <> 0 ->
  poll_interval numer denom = inr i ->
  run_playing fuel t h = Ret FallThrough (after_dropped_frame t pts i val, h1).
Proof.
  intros fuel t h img pts val h1 numer denom i Hfull Hpull Hrate Hden Hint.
  unfold run_playing. rewrite Hpull, Hrate.
  apply Z.eqb_neq in Hden. rewrite Hden, Hint.
  cbn [t_frameQueue with_streamTime with_frameInterval with_isReadyEvent].
  rewrite publish_full by exact Hfull.
  unfold after_dropped_frame.
  destruct t; cbn. destruct (val_is val "eof"); reflexivity.
Qed.

(** C2. When the queue of the reader is full, the guard of the
    publishing step reports that there is no room, the step returns
    without waiting and leaves the queue as it was, whatever the entry;
    and the pass of a playing reader that pulled the frame ends in a
    state that holds nothing of the entry but its time stamp: the
    picture and the metadata are dropped. *)
Theorem publish_on_full_queue_drops_entry :
  forall (t : MovieStreamThread F) (sd : StreamData F),
    Queue.full (t_frameQueue t) = true ->
    negb (Queue.full (t_frameQueue t)) = false /\
    publish sd (t_frameQueue t) = Some (t_frameQueue t) /\
    (forall fuel (h : H) img pts val h1 numer denom i,
        pull_frame fuel (if get_pause h then set_pause false h else h)
        = Some ((img, pts), val, h1) ->
        frame_rate (get_metadata h1) = (numer, denom) ->
        denom <> 0 ->
        poll_interval numer denom = inr i ->
        run_playing fuel t h
        = Ret FallThrough (after_dropped_frame t pts i val, h1) /\
        t_frameQueue (after_dropped_frame t pts i val) = t_frameQueue t).
Proof.
  intros t sd Hfull. split; [ | split ].
  - rewrite Hfull. reflexivity.
  - apply publish_full. exact Hfull.
  - intros fuel h img pts val h1 numer denom i Hpull Hrate Hden Hint. split.
    + eapply run_playing_full; eassumption.
    + unfold after_dropped_frame. destruct (val_is val "eof"); reflexivity.
Qed.

(** ** The play/pause flag *)




Lemma observe_send : forall (s : signal) (t : MovieStreamThread F),
  t_statusFlag (observe (send s t)) = requested s.
Proof. intros [ ] [ ]; reflexivity. Qed.

End ReaderFacts.

(** ** The polling interval *)

Section PollingFacts.
Context {F : Type} {PF : PyFloat F} {H : Type} {MP : MediaPlayer F H}.

(** A pass of a playing reader that pulls a frame while the metadata
    still reports the denominator [0] of the frame rate ends by
    [continue]: only the ready flag and the status flag are written. *)
Lemma run_body_zero_denominator : forall fuel (t : MovieStreamThread F) (h : H)
    fd val h1 numer,
  Status_eqb (t_statusFlag t) NOT_STARTED = false ->
  t_isPlaying t = true ->
  pull_frame fuel (if get_pause h then set_pause false h else h)
  = Some (fd, val, h1) ->
  frame_rate (get_metadata h1) = (numer, 0) ->
  run_body fuel t h
  = Ret tt (with_isReadyEvent true (with_statusFlag PLAYING t), h1).
Proof.
  intros fuel t h fd val h1 numer Hns Hplay Hpull Hrate.
  unfold run_body. rewrite Hns. unfold observe. rewrite Hplay.
  cbn [t_statusFlag with_statusFlag Status_eqb].
  unfold run_playing. rewrite Hpull, Hrate. reflexivity.
Qed.

End PollingFacts.

Section ExactPolling.

Lemma Qeq_bool_false : forall x : Q, ~ (x == 0)%Q -> Qeq_bool x (0 # 1) = false.
Proof.
  intros x Hx. destruct (Qeq_bool x (0 # 1)) eqn:E; [ | reflexivity ].
  apply Qeq_bool_iff in E. contradiction.
Qed.

Lemma inject_Z_pos_nonzero : forall z : Z, 0 < z -> ~ (inject_Z z == 0)%Q.
Proof.
  intros z Hz E. unfold Qeq in E. simpl in E. lia.
Qed.

(** In exact arithmetic [1.0 / (numer / float(denom))] is
    [denom / numer]. *)
Lemma poll_interval_exact : forall numer denom : Z,
  0 < numer -> 0 < denom ->
  exists i : Q,
    poll_interval numer denom = inr i /\
    (i == inject_Z denom / inject_Z numer)%Q.
Proof.
  intros numer denom Hn Hd.
  pose proof (inject_Z_pos_nonzero numer Hn) as Hn0.
  pose proof (inject_Z_pos_nonzero denom Hd) as Hd0.
  assert (Hrate : ~ (inject_Z numer / inject_Z denom == 0)%Q).
  { intro E. apply Hn0.
    setoid_replace (inject_Z numer)
      with ((inject_Z numer / inject_Z denom) * inject_Z denom)%Q
      by (field; exact Hd0).
    rewrite E. ring. }
  unfold poll_interval. cbn [f_of_int f_div f_lit PyFloat_exact].
  unfold Exact.div.
  rewrite (Qeq_bool_false _ Hd0), (Qeq_bool_false _ Hrate).
  eexists. split; [ reflexivity | ].
  field. split; assumption.
Qed.

End ExactPolling.

(** C4, as the code has it. In exact arithmetic the polling interval
    [1.0 / (numer / float(denom))] of a frame rate with positive
    numerator and denominator is [denom / numer]; in binary64 it is that
    quotient after two roundings.  And in any arithmetic, a
    playing reader that pulls a frame while the denominator is still [0]
    leaves the pass by [continue]: nothing is put in the queue, the
    polling interval is kept, and the loop goes on to its next pass,
    PLAYING. *)
Theorem poll_interval_exact_and_zero_denominator_skips :
  (forall numer denom : Z,
      0 < numer -> 0 < denom ->
      exists i : Q,
        poll_interval numer denom = inr i /\
        (i == inject_Z denom / inject_Z numer)%Q) /\
  (forall (F : Type) (PF : PyFloat F) (H : Type) (MP : MediaPlayer F H)
          fuel (t : MovieStreamThread F) (h : H) fd val h1 numer,
      t_phase t = Running ->
      Status_eqb (t_statusFlag t) NOT_STARTED = false ->
      Status_eqb (t_statusFlag t) STOPPED = false ->
      t_isPlaying t = true ->
      pull_frame fuel (if get_pause h then set_pause false h else h)
      = Some (fd, val, h1) ->
      frame_rate (get_metadata h1) = (numer, 0) ->
      exists t',
        thread_step fuel t h = Some (t', h1) /\
        t_frameQueue t' = t_frameQueue t /\
        t_frameInterval t' = t_frameInterval t /\
        t_statusFlag t' = PLAYING /\
        t_phase t' = Running).
Proof.
  split.
  - exact poll_interval_exact.
  - intros F PF H MP fuel t h fd val h1 numer Hph Hns Hst Hplay Hpull Hrate.
    exists (with_isReadyEvent true (with_statusFlag PLAYING t)).
    unfold thread_step. rewrite Hph, Hst.
    rewrite (run_body_zero_denominator fuel t h fd val h1 numer Hns Hplay Hpull Hrate).
    repeat split. exact Hph.
Qed.

(** ** Calls on a loaded player *)

Lemma bind_Ret : forall {S A B} (c : M S A) (k : A -> M S B) s a s',
  c s = Ret a s' -> bind c k s = k a s'.
Proof. intros S A B c k s a s' E. unfold bind. rewrite E. reflexivity. Qed.

Lemma bind_Raise : forall {S A B} (c : M S A) (k : A -> M S B) s e s',
  c s = Raise e s' -> bind c k s = Raise e s'.
Proof. intros S A B c k s e s' E. unfold bind. rewrite E. reflexivity. Qed.

Lemma bind_Hang : forall {S A B} (c : M S A) (k : A -> M S B) s,
  c s = Hang -> bind c k s = Hang.
Proof. intros S A B c k s E. unfold bind. rewrite E. reflexivity. Qed.

Section FacadeFacts.
Context {F : Type} {PF : PyFloat F} {H : Type} {MP : MediaPlayer F H}
        {MD : MetadataProps F}.

Lemma assert_loaded : forall (w : World F H) h,
  p_handle (self w) = Some h -> _assertMediaPlayer w = Ret tt w.
Proof. intros w h E. unfold _assertMediaPlayer. rewrite E. reflexivity. Qed.

Lemma assert_not_loaded : forall w : World F H,
  p_handle (self w) = None ->
  _assertMediaPlayer w = Raise (RuntimeError msg_not_loaded) w.
Proof. intros w E. unfold _assertMediaPlayer. rewrite E. reflexivity. Qed.

Lemma the_handle_loaded : forall (w : World F H) h,
  p_handle (self w) = Some h -> the_handle w = Ret h w.
Proof. intros w h E. unfold the_handle. rewrite E. reflexivity. Qed.

Lemma the_thread_some : forall (w : World F H) t,
  p_tStream (self w) = Some t -> the_thread w = Ret t w.
Proof. intros w t E. unfold the_thread. rewrite E. reflexivity. Qed.

Lemma getMetadata_loaded : forall (w : World F H) h,
  p_handle (self w) = Some h ->
  getMetadata w = Ret (metadata_of (self w) h) w.
Proof.
  intros w h E. unfold getMetadata.
  rewrite (bind_Ret _ _ _ _ _ (assert_loaded w h E)).
  rewrite (bind_Ret _ _ _ _ _ (the_handle_loaded w h E)).
  reflexivity.
Qed.

Lemma getStartAbsTime_loaded : forall (w : World F H) h,
  p_handle (self w) = Some h ->
  getStartAbsTime w
  = Ret (f_sub (clock w (now w)) (get_pts h))
      (mkWorld (self w) (clock w) (S (now w)) (log w)).
Proof.
  intros w h E. unfold getStartAbsTime.
  rewrite (bind_Ret _ _ _ _ _ (assert_loaded w h E)).
  unfold getTime at 1. unfold bind at 1.
  erewrite bind_Ret by (apply the_handle_loaded; exact E).
  reflexivity.
Qed.

End FacadeFacts.

(** ** The timing conversions *)

Section ExactTiming.
Context {H : Type} {MP : MediaPlayer Q H} {MD : MetadataProps Q}.

Lemma Qfloor_mul_div : forall (i : Z) (fi : Q),
  (0 < fi)%Q -> Qfloor (inject_Z i * fi / fi) = i.
Proof.
  intros i fi Hfi.
  assert (E : (inject_Z i * fi / fi == inject_Z i)%Q).
  { field. intro E0. rewrite E0 in Hfi. exact (Qlt_irrefl 0 Hfi). }
  rewrite (Qfloor_comp _ _ E). apply Qfloor_Z.
Qed.

(** C5, as the code has it. In exact arithmetic, on a loaded player with
    a positive frame interval, [frameIndexFromMovieTime] gives back the
    index [movieTimeFromFrameIndex] was given, for every non-negative
    index; neither call changes the player.  (In binary64 the round trip
    can lose one.) *)
Theorem frame_index_roundtrip_exact :
  forall (w : World Q H) (h : H) (i : Z),
    p_handle (self w) = Some h ->
    (0 < frameInterval (metadata_of (self w) h))%Q ->
    0 <= i ->
    exists t : Q,
      movieTimeFromFrameIndex i w = Ret t w /\
      frameIndexFromMovieTime t w = Ret i w.
Proof.
  intros w h i Hh Hfi Hi.
  exists (inject_Z i * frameInterval (metadata_of (self w) h))%Q.
  unfold movieTimeFromFrameIndex, frameIndexFromMovieTime.
  rewrite !(bind_Ret _ _ _ _ _ (assert_loaded w h Hh)).
  rewrite !(bind_Ret _ _ _ _ _ (getMetadata_loaded w h Hh)).
  cbn [f_of_int f_mul f_div f_floor PyFloat_exact].
  split; [ reflexivity | ].
  unfold Exact.div. rewrite Qeq_bool_false.
  - rewrite (Qfloor_mul_div i _ Hfi). reflexivity.
  - intro E. rewrite E in Hfi. exact (Qlt_irrefl 0 Hfi).
Qed.

(** In exact arithmetic, on a loaded player,
    [movieToAbsTime(absToMovieTime(x))] is [x] plus the time the
    experiment clock advanced between the reading [getStartAbsTime] took
    in the inner call and the one it took in the outer call (the
    presentation time of the decoder is read twice too, and is the same
    if the decoder was left alone). *)
Lemma abs_movie_time_roundtrip_exact :
  forall (w : World Q H) (h : H) (x : Q),
    p_handle (self w) = Some h ->
    exists (m r : Q) (w1 w2 : World Q H),
      absToMovieTime (VFloat x) w = Ret m w1 /\
      movieToAbsTime (VFloat m) w1 = Ret r w2 /\
      (r == x + (clock w (S (now w)) - clock w (now w)))%Q /\
      ((clock w (S (now w)) == clock w (now w))%Q -> (r == x)%Q).
Proof.
  intros w h x Hh.
  set (w1 := mkWorld (self w) (clock w) (S (now w)) (log w)).
  assert (Hh1 : p_handle (self w1) = Some h) by exact Hh.
  exists (x - (clock w (now w) - get_pts h))%Q.
  exists (clock w (S (now w)) - get_pts h + (x - (clock w (now w) - get_pts h)))%Q.
  exists w1, (mkWorld (self w1) (clock w1) (S (now w1)) (log w1)).
  unfold absToMovieTime, movieToAbsTime.
  rewrite (bind_Ret _ _ _ _ _ (assert_loaded w h Hh)).
  rewrite (bind_Ret _ _ _ _ _ (getStartAbsTime_loaded w h Hh)).
  rewrite (bind_Ret _ _ _ _ _ (assert_loaded w1 h Hh1)).
  rewrite (bind_Ret _ _ _ _ _ (getStartAbsTime_loaded w1 h Hh1)).
  split; [ reflexivity | ].
  split; [ reflexivity | ].
  split.
  - ring.
  - intro E. rewrite E. ring.
Qed.

End ExactTiming.

(** ** Rounding to nearest in [SpecFloat]

    The rounding of [SpecFloat] shifts a mantissa to the right, keeps
    what falls out as two bits and rounds to nearest, ties to even.  The
    result is within half a unit in the last place: this gives the error
    of an addition and of a subtraction. *)

Section Shifts.

Lemma digits2_pos_bounds : forall p : positive,
  2 ^ (Z.pos (digits2_pos p) - 1) <= Z.pos p < 2 ^ Z.pos (digits2_pos p).
Proof.
  induction p as [ p IH | p IH | ]; cbn [digits2_pos].
  - rewrite Pos2Z.inj_succ.
    replace (Z.succ (Z.pos (digits2_pos p)) - 1) with (Z.succ (Z.pos (digits2_pos p) - 1)) by lia.
    rewrite !Z.pow_succ_r by lia. lia.
  - rewrite Pos2Z.inj_succ.
    replace (Z.succ (Z.pos (digits2_pos p)) - 1) with (Z.succ (Z.pos (digits2_pos p) - 1)) by lia.
    rewrite !Z.pow_succ_r by lia. lia.
  - cbn. lia.
Qed.

Lemma digits2_pos_unique : forall (p : positive) (k : Z),
  2 ^ (k - 1) <= Z.pos p < 2 ^ k -> Z.pos (digits2_pos p) = k.
Proof.
  intros p k [ Hlo Hhi ]. destruct (digits2_pos_bounds p) as [ Dlo Dhi ].
  set (d := Z.pos (digits2_pos p)) in *.
  assert (0 < d) by (unfold d; lia).
  assert (0 < k).
  { destruct (Z.ltb_spec 0 k) as [ Hk | Hk ]; [ exact Hk | ].
    exfalso. destruct (Z.eq_dec k 0) as [ -> | Hne ].
    - cbn in Hhi. lia.
    - rewrite (Z.pow_neg_r 2 k) in Hhi by lia. lia. }
  destruct (Z.lt_trichotomy d k) as [ Hlt | [ Heq | Hgt ] ]; [ | exact Heq | ].
  - exfalso. assert (2 ^ d <= 2 ^ (k - 1)) by (apply Z.pow_le_mono_r; lia). lia.
  - exfalso. assert (2 ^ k <= 2 ^ (d - 1)) by (apply Z.pow_le_mono_r; lia). lia.
Qed.

Lemma shr_1_nonneg : forall m r s,
  0 <= m ->
  shr_1 (Build_shr_record m r s) = Build_shr_record (Z.div2 m) (Z.odd m) (r || s).
Proof.
  intros m r s Hm. destruct m as [ | [ p | p | ] | p ]; try reflexivity. lia.
Qed.

Lemma shifted_0 : forall m, shifted m 0 (Build_shr_record m false false).
Proof.
  intros m. unfold shifted. cbn [shr_m shr_r shr_s].
  rewrite Z.pow_0_r, Z.div_1_r, Z.mod_1_r.
  split; [ reflexivity | ]. split; split; intros; try discriminate; lia.
Qed.

Lemma shifted_step : forall m k x,
  0 <= m -> 0 <= k -> shifted m k x -> shifted m (k + 1) (shr_1 x).
Proof.
  intros m k [ q r s ] Hm Hk [ Hq [ Hr Hs ] ]. cbn [shr_m shr_r shr_s] in *.
  assert (Hpk : 0 < 2 ^ k) by (apply Z.pow_pos_nonneg; lia).
  assert (Hq0 : 0 <= q) by (subst q; apply Z.div_pos; lia).
  rewrite (shr_1_nonneg q r s Hq0). unfold shifted. cbn [shr_m shr_r shr_s].
  rewrite Z.pow_add_r, Z.pow_1_r by lia.
  pose proof (Z.div_mod m (2 ^ k) ltac:(lia)) as Dm.
  pose proof (Z.mod_pos_bound m (2 ^ k) Hpk) as Bm.
  rewrite <- Hq in Dm.
  pose proof (Z.div_mod q 2 ltac:(lia)) as Dq.
  pose proof (Z.mod_pos_bound q 2 ltac:(lia)) as Bq.
  set (rem := m mod 2 ^ k) in *.
  assert (Hdiv : m / (2 ^ k * 2) = q / 2).
  { rewrite <- Z.div_div by lia. rewrite <- Hq. reflexivity. }
  assert (Hmod : m mod (2 ^ k * 2) = rem + 2 ^ k * (q mod 2)).
  { symmetry. apply (Z.mod_unique_pos m (2 ^ k * 2) (q / 2)); nia. }
  rewrite Hdiv, Hmod, Z.div2_div.
  split; [ reflexivity | ].
  assert (Hodd : Z.odd q = true <-> q mod 2 = 1).
  { rewrite Zodd_mod. destruct (Z.eqb_spec (q mod 2) 1); split; intros;
      try reflexivity; try discriminate; lia. }
  rewrite orb_true_iff, Hr, Hs, Hodd.
  set (b := q mod 2) in *. set (pk := 2 ^ k) in *.
  assert (Hb : b = 0 \/ b = 1) by lia.
  clear Hodd Hr Hs Hmod Hdiv Dq Dm.
  destruct Hb as [ -> | -> ]; rewrite ?Z.mul_0_r, ?Z.mul_1_r, ?Z.add_0_r.
  - split; [ split; intro E; lia | ].
    split; [ intros [ E | [ E1 E2 ] ]; split; lia | ].
    intros [ E1 E2 ].
    destruct (Z.le_gt_cases pk (2 * rem)) as [ L | G ]; [ left; exact L | ].
    right. split; lia.
  - split; [ split; intro E; lia | ].
    split; [ intros [ E | [ E1 E2 ] ]; split; lia | ].
    intros [ E1 E2 ].
    destruct (Z.le_gt_cases pk (2 * rem)) as [ L | G ]; [ left; exact L | ].
    right. split; lia.
Qed.

Lemma iter_pos_shifted : forall m, 0 <= m ->
  forall p k x, 0 <= k -> shifted m k x ->
  shifted m (k + Z.pos p) (iter_pos shr_1 p x).
Proof.
  intros m Hm. induction p as [ p IH | p IH | ]; intros k x Hk Hx;
    cbn [iter_pos].
  - replace (k + Z.pos p~1) with (k + 1 + Z.pos p + Z.pos p) by lia.
    apply IH; [ lia | ]. apply IH; [ lia | ]. apply shifted_step; assumption.
  - replace (k + Z.pos p~0) with (k + Z.pos p + Z.pos p) by lia.
    apply IH; [ lia | ]. apply IH; assumption.
  - apply shifted_step; assumption.
Qed.

(** Rounding to nearest, ties to even, of a shifted mantissa: the result
    is within half a unit of the mantissa. *)
Lemma round_nearest_even_shifted : forall m k x,
  0 <= m -> 0 <= k -> shifted m k x ->
  let m' := round_nearest_even (shr_m x) (loc_of_shr_record x) in
  (m' = m / 2 ^ k \/ m' = m / 2 ^ k + 1) /\
  2 * Z.abs (m' * 2 ^ k - m) <= 2 ^ k.
Proof.
  intros m k [ q r s ] Hm Hk [ Hq [ Hr Hs ] ]. cbn [shr_m shr_r shr_s] in *.
  assert (Hpk : 0 < 2 ^ k) by (apply Z.pow_pos_nonneg; lia).
  pose proof (Z.div_mod m (2 ^ k) ltac:(lia)) as Dm.
  pose proof (Z.mod_pos_bound m (2 ^ k) Hpk) as Bm.
  rewrite <- Hq in Dm. rewrite <- Hq.
  set (rem := m mod 2 ^ k) in *.
  cbv zeta. unfold loc_of_shr_record, round_nearest_even.
  destruct r, s.
  - assert (2 ^ k <= 2 * rem) by (apply Hr; reflexivity).
    assert (rem <> 0 /\ 2 * rem <> 2 ^ k) by (apply Hs; reflexivity).
    split; [ right; reflexivity | nia ].
  - assert (2 ^ k <= 2 * rem) by (apply Hr; reflexivity).
    assert (~ (rem <> 0 /\ 2 * rem <> 2 ^ k))
      by (intro A; apply Hs in A; discriminate A).
    assert (2 * rem = 2 ^ k) by lia.
    destruct (Z.even q); [ split; [ left; reflexivity | nia ]
                         | split; [ right; reflexivity | nia ] ].
  - assert (~ 2 ^ k <= 2 * rem) by (intro A; apply Hr in A; discriminate A).
    split; [ left; reflexivity | nia ].
  - assert (~ 2 ^ k <= 2 * rem) by (intro A; apply Hr in A; discriminate A).
    assert (~ (rem <> 0 /\ 2 * rem <> 2 ^ k))
      by (intro A; apply Hs in A; discriminate A).
    assert (rem = 0) by lia.
    split; [ left; reflexivity | nia ].
Qed.

End Shifts.

Section Round.
Variables prec emax : Z.
Hypothesis Hprec : 0 < prec.
Hypothesis Hemax : 2 <= emax.

Local Abbreviation emin := (SpecFloat.emin prec emax).
Local Abbreviation fexp := (SpecFloat.fexp prec emax).

Lemma shr_shifted : forall m e n,
  0 <= m ->
  exists x,
    shr (Build_shr_record m false false) e n = (x, e + Z.max 0 n) /\
    shifted m (Z.max 0 n) x.
Proof.
  intros m e n Hm. destruct n as [ | p | p ]; cbn [shr].
  - eexists. split; [ rewrite Z.add_0_r; reflexivity | apply shifted_0 ].
  - eexists. split; [ reflexivity | ].
    apply (iter_pos_shifted m Hm p 0 _ (Z.le_refl 0)). apply shifted_0.
  - eexists. split; [ rewrite Z.add_0_r; reflexivity | apply shifted_0 ].
Qed.

Lemma pos_iter_xO : forall (p n : positive),
  Z.pos (Pos.iter xO p n) = Z.pos p * 2 ^ Z.pos n.
Proof.
  intros p n. induction n as [ | n IH ] using Pos.peano_ind.
  - cbn. lia.
  - rewrite Pos.iter_succ, Pos2Z.inj_succ, Z.pow_succ_r by lia.
    rewrite Pos2Z.inj_xO, IH. lia.
Qed.

(** The rounding of a mantissa that is aligned on, or below, the
    exponent of its format. *)
Lemma binary_round_aux_aligned : forall sx (mx : positive) e,
  emin <= e ->
  e <= fexp (Z.pos (digits2_pos mx) + e) ->
  Z.pos (digits2_pos mx) + e < emax ->
  exists (m3 : positive) e3,
    binary_round_aux prec emax sx (Z.pos mx) e loc_Exact = S754_finite sx m3 e3 /\
    e <= e3 /\
    2 * Z.abs (Z.pos m3 * 2 ^ (e3 - e) - Z.pos mx)
    <= 2 ^ (fexp (Z.pos (digits2_pos mx) + e) - e).
Proof.
  intros sx mx e Hemin Hal Hmax.
  destruct (digits2_pos_bounds mx) as [ Dlo Dhi ].
  set (d := Z.pos (digits2_pos mx)) in *.
  assert (Hd : 0 < d) by (unfold d; lia).
  unfold binary_round_aux, shr_fexp. cbn [Zdigits2]. fold d.
  set (n1 := fexp (d + e) - e) in *.
  assert (Hn1 : 0 <= n1) by (unfold n1; lia).
  destruct (shr_shifted (Z.pos mx) e n1 ltac:(lia)) as [ x1 [ E1 S1 ] ].
  cbn [shr_record_of_loc]. rewrite E1.
  rewrite Z.max_r in * by lia.
  destruct (round_nearest_even_shifted (Z.pos mx) n1 x1 ltac:(lia) Hn1 S1)
    as [ Hm2 Herr ].
  set (m2 := round_nearest_even (shr_m x1) (loc_of_shr_record x1)) in *.
  assert (Hp1 : 0 < 2 ^ n1) by (apply Z.pow_pos_nonneg; lia).
  destruct (Z.eq_dec n1 0) as [ Hz | Hnz ].
  - (* the mantissa fits *)
    rewrite Hz in *. rewrite Z.pow_0_r in *. rewrite Z.div_1_r in Hm2.
    assert (Em2 : m2 = Z.pos mx) by lia.
    rewrite Em2, Z.add_0_r. cbn [Zdigits2]. fold d.
    destruct (shr_shifted (Z.pos mx) e (fexp (d + e) - e) ltac:(lia))
      as [ x2 [ E2 S2 ] ].
    rewrite E2. fold n1. rewrite Hz. change (Z.max 0 0) with 0 in *. rewrite Z.add_0_r.
    fold n1 in S2. rewrite Hz in S2. destruct S2 as [ S2 _ ].
    rewrite Z.pow_0_r, Z.div_1_r in S2. rewrite S2.
    assert (Hle : (e <=? emax - prec) = true).
    { apply Z.leb_le. unfold n1, SpecFloat.fexp, SpecFloat.emin in *. lia. }
    rewrite Hle. exists mx, e. split; [ reflexivity | ]. split; [ lia | ].
    rewrite Z.sub_diag, Z.pow_0_r. lia.
  - (* the mantissa is shifted *)
    assert (Hn1' : n1 = d - prec)
      by (unfold n1, SpecFloat.fexp, SpecFloat.emin in *; lia).
    assert (Hq : 2 ^ (prec - 1) <= Z.pos mx / 2 ^ n1 < 2 ^ prec).
    { assert (E1' : 2 ^ (d - 1) = 2 ^ (prec - 1) * 2 ^ n1)
        by (rewrite <- Z.pow_add_r by lia; f_equal; lia).
      assert (E2' : 2 ^ d = 2 ^ prec * 2 ^ n1)
        by (rewrite <- Z.pow_add_r by lia; f_equal; lia).
      split.
      - apply Z.div_le_lower_bound; lia.
      - apply Z.div_lt_upper_bound; lia. }
    assert (Hpp : 0 < 2 ^ (prec - 1)) by (apply Z.pow_pos_nonneg; lia).
    assert (Hpow : 2 ^ prec = 2 * 2 ^ (prec - 1)).
    { replace prec with (Z.succ (prec - 1)) at 1 by lia.
      rewrite Z.pow_succ_r by lia. reflexivity. }
    assert (Hm2b : 2 ^ (prec - 1) <= m2 <= 2 ^ prec) by lia.
    destruct m2 as [ | p2 | p2 ] eqn:Em2; try lia.
    cbn [Zdigits2].
    destruct (Z.eq_dec (Z.pos p2) (2 ^ prec)) as [ Hc | Hnc ].
    + (* the rounding carried *)
      assert (Hd2 : Z.pos (digits2_pos p2) = prec + 1).
      { apply digits2_pos_unique. rewrite Hc.
        replace (prec + 1 - 1) with prec by lia.
        rewrite Z.pow_add_r, Z.pow_1_r by lia. lia. }
      rewrite Hd2.
      destruct (shr_shifted (Z.pos p2) (e + n1)
                  (fexp (prec + 1 + (e + n1)) - (e + n1)) ltac:(lia))
        as [ x2 [ E2 S2 ] ].
      rewrite E2.
      assert (Hn2 : fexp (prec + 1 + (e + n1)) - (e + n1) = 1)
        by (unfold SpecFloat.fexp, SpecFloat.emin in *; lia).
      rewrite Hn2 in *. change (Z.max 0 1) with 1 in *.
      destruct S2 as [ S2 _ ]. rewrite Z.pow_1_r in S2.
      assert (S2' : shr_m x2 = 2 ^ (prec - 1)).
      { rewrite S2, Hc, Hpow. rewrite Z.mul_comm. apply Z.div_mul. lia. }
      rewrite S2'.
      destruct (2 ^ (prec - 1)) as [ | p3 | p3 ] eqn:Ep3; try lia.
      assert (Hle : (e + n1 + 1 <=? emax - prec) = true)
        by (apply Z.leb_le; lia).
      rewrite Hle. exists p3, (e + n1 + 1). split; [ reflexivity | ].
      split; [ lia | ].
      replace (e + n1 + 1 - e) with (Z.succ n1) by lia.
      rewrite Z.pow_succ_r by lia.
      replace (Z.pos p3 * (2 * 2 ^ n1)) with (Z.pos p2 * 2 ^ n1) by lia.
      exact Herr.
    + assert (Hd2 : Z.pos (digits2_pos p2) = prec)
        by (apply digits2_pos_unique; lia).
      rewrite Hd2.
      destruct (shr_shifted (Z.pos p2) (e + n1)
                  (fexp (prec + (e + n1)) - (e + n1)) ltac:(lia))
        as [ x2 [ E2 S2 ] ].
      rewrite E2.
      assert (Hn2 : fexp (prec + (e + n1)) - (e + n1) = 0)
        by (unfold SpecFloat.fexp, SpecFloat.emin in *; lia).
      rewrite Hn2 in *. change (Z.max 0 0) with 0 in *.
      destruct S2 as [ S2 _ ]. rewrite Z.pow_0_r, Z.div_1_r in S2.
      rewrite S2, Z.add_0_r.
      assert (Hle : (e + n1 <=? emax - prec) = true)
        by (apply Z.leb_le; lia).
      rewrite Hle. exists p2, (e + n1). split; [ reflexivity | ].
      split; [ lia | ].
      replace (e + n1 - e) with n1 by lia. exact Herr.
Qed.

(** The rounding of [mx * 2^ex], in units of [2^emin]: a float within
    half a unit in the last place. *)
Lemma binary_round_error : forall sx (mx : positive) ex,
  emin <= ex ->
  Z.pos (digits2_pos mx) + ex < emax ->
  exists (m3 : positive) e3,
    binary_round prec emax sx mx ex = S754_finite sx m3 e3 /\
    emin <= e3 /\
    2 * Z.abs (Z.pos m3 * 2 ^ (e3 - emin) - Z.pos mx * 2 ^ (ex - emin))
    <= 2 ^ (Z.max 0 (Z.pos (digits2_pos mx) - prec) + ex - emin) /\
    (Z.pos (digits2_pos mx) <= prec ->
     Z.pos m3 * 2 ^ (e3 - emin) = Z.pos mx * 2 ^ (ex - emin)).
Proof.
  intros sx mx ex Hemin Hmax.
  destruct (digits2_pos_bounds mx) as [ Dlo Dhi ].
  set (d := Z.pos (digits2_pos mx)) in *.
  assert (Hd : 0 < d) by (unfold d; lia).
  unfold binary_round, shl_align. fold d.
  destruct (fexp (d + ex) - ex) as [ | dd | dd ] eqn:Ed.
  - destruct (binary_round_aux_aligned sx mx ex Hemin) as [ m3 [ e3 [ E [ He Herr ] ] ] ];
      fold d; try lia.
    rewrite E. exists m3, e3. split; [ reflexivity | ]. split; [ lia | ].
    fold d in Herr. rewrite Ed, Z.pow_0_r in Herr.
    assert (Hex : Z.pos m3 * 2 ^ (e3 - ex) = Z.pos mx) by lia.
    replace (e3 - emin) with ((e3 - ex) + (ex - emin)) by lia.
    rewrite Z.pow_add_r by lia. rewrite Z.mul_assoc, Hex, Z.sub_diag.
    cbn [Z.abs Z.mul].
    assert (0 < 2 ^ (Z.max 0 (d - prec) + ex - emin))
      by (apply Z.pow_pos_nonneg; lia).
    split; [ lia | reflexivity ].
  - destruct (binary_round_aux_aligned sx mx ex Hemin) as [ m3 [ e3 [ E [ He Herr ] ] ] ];
      fold d; try lia.
    rewrite E. exists m3, e3. split; [ reflexivity | ]. split; [ lia | ].
    fold d in Herr. rewrite Ed in Herr.
    assert (Hk : Z.pos dd = d - prec)
      by (unfold SpecFloat.fexp, SpecFloat.emin in *; lia).
    rewrite Z.max_r by lia. rewrite <- Hk.
    replace (e3 - emin) with ((e3 - ex) + (ex - emin)) by lia.
    replace (Z.pos dd + ex - emin) with (Z.pos dd + (ex - emin)) by lia.
    rewrite !Z.pow_add_r by lia.
    rewrite Z.mul_assoc, <- Z.mul_sub_distr_r.
    assert (Hp : 0 < 2 ^ (ex - emin)) by (apply Z.pow_pos_nonneg; lia).
    rewrite Z.abs_mul, (Z.abs_eq (2 ^ (ex - emin))) by lia.
    split; [ | intro; lia ].
    rewrite Z.mul_assoc. apply Z.mul_le_mono_nonneg_r; [ lia | exact Herr ].
  - (* the mantissa is shifted to the left *)
    set (ez := fexp (d + ex)) in *.
    assert (Hez : emin <= ez) by (unfold ez, SpecFloat.fexp; lia).
    assert (Hdd : Z.pos dd = ex - ez) by lia.
    assert (Hmz : Z.pos (Pos.iter xO mx dd) = Z.pos mx * 2 ^ Z.pos dd)
      by apply pos_iter_xO.
    assert (Hp : 0 < 2 ^ Z.pos dd) by (apply Z.pow_pos_nonneg; lia).
    assert (Hdz : Z.pos (digits2_pos (Pos.iter xO mx dd)) = d + Z.pos dd).
    { apply digits2_pos_unique. rewrite Hmz.
      replace (d + Z.pos dd - 1) with ((d - 1) + Z.pos dd) by lia.
      rewrite !Z.pow_add_r by lia. split.
      - apply Z.mul_le_mono_nonneg_r; lia.
      - apply Zmult_lt_compat_r; [ exact Hp | exact Dhi ]. }
    destruct (binary_round_aux_aligned sx (Pos.iter xO mx dd) ez Hez)
      as [ m3 [ e3 [ E [ He Herr ] ] ] ].
    + rewrite Hdz. replace (d + Z.pos dd + ez) with (d + ex) by lia.
      fold ez. lia.
    + rewrite Hdz. lia.
    + rewrite E. exists m3, e3. split; [ reflexivity | ]. split; [ lia | ].
      rewrite Hdz in Herr. replace (d + Z.pos dd + ez) with (d + ex) in Herr by lia.
      fold ez in Herr. rewrite Z.sub_diag, Z.pow_0_r in Herr.
      assert (Hex : Z.pos m3 * 2 ^ (e3 - ez) = Z.pos (Pos.iter xO mx dd)) by lia.
      assert (HB : 0 < 2 ^ (Z.max 0 (d - prec) + ex - emin))
        by (apply Z.pow_pos_nonneg; lia).
      set (B := 2 ^ (Z.max 0 (d - prec) + ex - emin)) in *.
      replace (e3 - emin) with ((e3 - ez) + (ez - emin)) by lia.
      rewrite Z.pow_add_r by lia. rewrite Z.mul_assoc, Hex, Hmz.
      replace (ex - emin) with (Z.pos dd + (ez - emin)) by lia.
      rewrite Z.pow_add_r by lia. rewrite Z.mul_assoc, Z.sub_diag.
      cbn [Z.abs Z.mul]. split; [ lia | reflexivity ].
Qed.

End Round.

Section Ops.
Variables prec emax : Z.
Hypothesis Hprec : 0 < prec.
Hypothesis Hemax : 2 <= emax.

Local Abbreviation emin := (SpecFloat.emin prec emax).

Lemma shl_align_fst : forall (mx : positive) ex ez,
  ez <= ex ->
  Z.pos (fst (shl_align mx ex ez)) = Z.pos mx * 2 ^ (ex - ez).
Proof.
  intros mx ex ez Hle. unfold shl_align.
  destruct (ez - ex) as [ | dd | dd ] eqn:Ed; cbn [fst].
  - replace (ex - ez) with 0 by lia. rewrite Z.pow_0_r. lia.
  - lia.
  - rewrite pos_iter_xO. f_equal. f_equal. lia.
Qed.

(** The rounding of the integer [M], counted in units of [2^ez]. *)
Lemma binary_normalize_error : forall (M ez K : Z),
  emin <= ez ->
  K < emax ->
  Z.abs M * 2 ^ (ez - emin) < 2 ^ (K - emin) ->
  grounded prec emax (binary_normalize prec emax M ez false) /\
  2 * Z.abs (scaled prec emax (binary_normalize prec emax M ez false) - M * 2 ^ (ez - emin))
  <= 2 ^ (K - prec - emin).
Proof.
  intros M ez K Hez HK Hmag.
  assert (Hp : 0 < 2 ^ (ez - emin)) by (apply Z.pow_pos_nonneg; lia).
  assert (Hpos : forall (sx : bool) (p : positive),
             Z.pos p * 2 ^ (ez - emin) < 2 ^ (K - emin) ->
             grounded prec emax (binary_round prec emax sx p ez) /\
             2 * Z.abs (scaled prec emax (binary_round prec emax sx p ez)
                        - cond_Zopp sx (Z.pos p) * 2 ^ (ez - emin))
             <= 2 ^ (K - prec - emin)).
  { intros sx p Hm.
    destruct (digits2_pos_bounds p) as [ Dlo Dhi ].
    set (d := Z.pos (digits2_pos p)) in *.
    assert (Hd : 0 < d) by (unfold d; lia).
    assert (HdK : d + ez <= K).
    { destruct (Z.le_gt_cases (d + ez) K) as [ L | G ]; [ exact L | exfalso ].
      assert (2 ^ (K - emin) <= 2 ^ ((d - 1) + (ez - emin)))
        by (apply Z.pow_le_mono_r; lia).
      rewrite Z.pow_add_r in * by lia.
      assert (2 ^ (d - 1) * 2 ^ (ez - emin) <= Z.pos p * 2 ^ (ez - emin))
        by (apply Z.mul_le_mono_nonneg_r; lia).
      lia. }
    destruct (binary_round_error prec emax Hprec Hemax sx p ez Hez)
      as [ m3 [ e3 [ E [ He3 [ Herr Hexact ] ] ] ] ]; [ fold d; lia | ].
    rewrite E. cbn [grounded scaled]. split; [ exact He3 | ].
    fold d in Herr, Hexact.
    assert (Hdiff : Z.abs (cond_Zopp sx (Z.pos m3) * 2 ^ (e3 - emin)
                           - cond_Zopp sx (Z.pos p) * 2 ^ (ez - emin))
                    = Z.abs (Z.pos m3 * 2 ^ (e3 - emin) - Z.pos p * 2 ^ (ez - emin))).
    { destruct sx; cbn [cond_Zopp]; [ | reflexivity ].
      rewrite <- Z.abs_opp. f_equal. lia. }
    rewrite Hdiff.
    destruct (Z.le_gt_cases d prec) as [ L | G ].
    - rewrite (Hexact L), Z.sub_diag. cbn [Z.abs Z.mul].
      apply Z.pow_nonneg. lia.
    - eapply Z.le_trans; [ exact Herr | ].
      apply Z.pow_le_mono_r; lia. }
  destruct M as [ | p | p ]; cbn [binary_normalize].
  - cbn [grounded scaled Z.mul Z.sub Z.abs Z.opp]. split; [ exact Logic.I | ].
    apply Z.pow_nonneg. lia.
  - apply (Hpos false p). exact Hmag.
  - apply (Hpos true p). exact Hmag.
Qed.

Lemma scaled_sum : forall (sx sy : bool) (mx my : positive) ex ey,
  emin <= ex -> emin <= ey ->
  (cond_Zopp sx (Z.pos (fst (shl_align mx ex (Z.min ex ey))))
   + cond_Zopp sy (Z.pos (fst (shl_align my ey (Z.min ex ey)))))
  * 2 ^ (Z.min ex ey - emin)
  = scaled prec emax (S754_finite sx mx ex) + scaled prec emax (S754_finite sy my ey).
Proof.
  intros sx sy mx my ex ey Hx Hy. cbn [scaled].
  rewrite !shl_align_fst by lia.
  set (ez := Z.min ex ey).
  replace (ex - emin) with ((ex - ez) + (ez - emin)) by lia.
  replace (ey - emin) with ((ey - ez) + (ez - emin)) by lia.
  rewrite !Z.pow_add_r by lia.
  destruct sx, sy; cbn [cond_Zopp]; ring.
Qed.

Lemma scaled_opp : forall s m e,
  scaled prec emax (S754_finite (negb s) m e) = - scaled prec emax (S754_finite s m e).
Proof. intros [ ] m e; cbn [scaled negb cond_Zopp]; lia. Qed.

(** The sum of two grounded prec emax floats whose exact sum is below [2^K]: a
    grounded prec emax float within half a unit in the last place of the exact
    sum. *)
Lemma SFadd_error : forall (x y : spec_float) (K : Z),
  grounded prec emax x -> grounded prec emax y ->
  K < emax -> emin <= K - prec ->
  Z.abs (scaled prec emax x + scaled prec emax y) < 2 ^ (K - emin) ->
  grounded prec emax (SFadd prec emax x y) /\
  2 * Z.abs (scaled prec emax (SFadd prec emax x y) - (scaled prec emax x + scaled prec emax y))
  <= 2 ^ (K - prec - emin).
Proof.
  intros x y K Hx Hy HK HKp Hmag.
  assert (HB : 0 <= 2 ^ (K - prec - emin)) by (apply Z.pow_nonneg; lia).
  destruct x as [ sx | sx | | sx mx ex ]; try contradiction;
    destruct y as [ sy | sy | | sy my ey ]; try contradiction.
  - destruct sx, sy; cbn; split; trivial.
  - cbn [SFadd]. split; [ exact Hy | ].
    cbn [scaled]. rewrite Z.add_0_l, Z.sub_diag. exact HB.
  - cbn [SFadd]. split; [ exact Hx | ].
    cbn [scaled]. rewrite Z.add_0_r, Z.sub_diag. exact HB.
  - cbn [grounded] in Hx, Hy. unfold SFadd.
    rewrite <- (scaled_sum sx sy mx my ex ey Hx Hy) in *.
    assert (Hp : 0 <= 2 ^ (Z.min ex ey - emin)) by (apply Z.pow_nonneg; lia).
    apply binary_normalize_error; [ lia | lia | ].
    rewrite <- (Z.abs_eq (2 ^ (Z.min ex ey - emin))) at 1 by exact Hp.
    rewrite <- Z.abs_mul. exact Hmag.
Qed.

Lemma SFsub_error : forall (x y : spec_float) (K : Z),
  grounded prec emax x -> grounded prec emax y ->
  K < emax -> emin <= K - prec ->
  Z.abs (scaled prec emax x - scaled prec emax y) < 2 ^ (K - emin) ->
  grounded prec emax (SFsub prec emax x y) /\
  2 * Z.abs (scaled prec emax (SFsub prec emax x y) - (scaled prec emax x - scaled prec emax y))
  <= 2 ^ (K - prec - emin).
Proof.
  intros x y K Hx Hy HK HKp Hmag.
  assert (HB : 0 <= 2 ^ (K - prec - emin)) by (apply Z.pow_nonneg; lia).
  destruct x as [ sx | sx | | sx mx ex ]; try contradiction;
    destruct y as [ sy | sy | | sy my ey ]; try contradiction.
  - destruct sx, sy; cbn; split; trivial.
  - cbn [SFsub]. split; [ exact Hy | ].
    rewrite scaled_opp. cbn [scaled].
    match goal with
    | |- 2 * Z.abs ?v <= _ => replace v with 0 by lia
    end.
    exact HB.
  - cbn [SFsub]. split; [ exact Hx | ].
    cbn [scaled]. rewrite Z.sub_0_r, Z.sub_diag. exact HB.
  - cbn [grounded] in Hx, Hy. unfold SFsub.
    assert (E : scaled prec emax (S754_finite sx mx ex) - scaled prec emax (S754_finite sy my ey)
                = (cond_Zopp sx (Z.pos (fst (shl_align mx ex (Z.min ex ey))))
                   - cond_Zopp sy (Z.pos (fst (shl_align my ey (Z.min ex ey)))))
                  * 2 ^ (Z.min ex ey - emin)).
    { rewrite <- (Z.add_opp_r (scaled prec emax _)), <- scaled_opp.
      rewrite <- (scaled_sum sx (negb sy) mx my ex ey Hx Hy).
      destruct sy; cbn [negb cond_Zopp]; ring. }
    rewrite E in *.
    assert (Hp : 0 <= 2 ^ (Z.min ex ey - emin)) by (apply Z.pow_nonneg; lia).
    apply binary_normalize_error; [ lia | lia | ].
    rewrite <- (Z.abs_eq (2 ^ (Z.min ex ey - emin))) at 1 by exact Hp.
    rewrite <- Z.abs_mul. exact Hmag.
Qed.

Lemma valid_grounded : forall s m e,
  SpecFloat.valid_binary prec emax (S754_finite s m e) = true -> emin <= e.
Proof.
  intros s m e Hv. cbn [SpecFloat.valid_binary] in Hv. unfold bounded in Hv.
  apply andb_true_iff in Hv as [ Hc _ ]. unfold canonical_mantissa in Hc.
  apply Z.eqb_eq in Hc. unfold SpecFloat.fexp in Hc. lia.
Qed.

End Ops.

(** ** The timing conversions in binary64 *)


Lemma ticks_per_unit_eq : Z.pos ticks_per_unit = 2 ^ 1074.
Proof. unfold ticks_per_unit. rewrite Z2Pos.id; [ reflexivity | ]. apply Z.pow_pos_nonneg; lia. Qed.

Lemma emin64 : SpecFloat.emin prec emax = -1074.
Proof. reflexivity. Qed.

Lemma to_Q_ticks : forall (x : float) (q : Q),
  Binary64.to_Q x = Some q ->
  grounded prec emax (Prim2SF x) /\ (q == ticks x # ticks_per_unit)%Q.
Proof.
  intros x q E. unfold Binary64.to_Q in E. unfold ticks.
  pose proof (Prim2SF_valid x) as Hv.
  destruct (Prim2SF x) as [ s | s | | s m e ]; try discriminate E.
  - injection E as <-. split; [ exact Logic.I | ]. cbn [scaled]. reflexivity.
  - apply (valid_grounded prec emax) in Hv. rewrite emin64 in Hv.
    cbn [grounded]. rewrite emin64. split; [ exact Hv | ].
    injection E as <-. cbn [scaled]. rewrite emin64.
    assert (Ev : (if s then Z.neg m else Z.pos m) = cond_Zopp s (Z.pos m))
      by (destruct s; reflexivity).
    rewrite Ev. set (v := cond_Zopp s (Z.pos m)).
    unfold Qeq. cbn [Qnum Qden]. rewrite ticks_per_unit_eq.
    replace (e - -1074) with (e + 1074) by lia.
    destruct (Z.leb_spec 0 e) as [ Hpos | Hneg ].
    + cbn [inject_Z Qnum Qden]. rewrite !Z.pow_add_r by lia. ring.
    + cbn [Qnum Qden].
      assert (Hp : 0 < 2 ^ (- e)) by (apply Z.pow_pos_nonneg; lia).
      rewrite Z2Pos.id by exact Hp.
      replace 1074 with ((e + 1074) + (- e)) at 1 by lia.
      rewrite Z.pow_add_r by lia. ring.
Qed.

Lemma grounded_to_Q : forall x : float,
  grounded prec emax (Prim2SF x) ->
  exists q, Binary64.to_Q x = Some q /\ (q == ticks x # ticks_per_unit)%Q.
Proof.
  intros x Hg.
  assert (E : exists q, Binary64.to_Q x = Some q).
  { unfold Binary64.to_Q. destruct (Prim2SF x); try contradiction;
      eexists; reflexivity. }
  destruct E as [ q E ]. exists q. split; [ exact E | ].
  apply (to_Q_ticks x q E).
Qed.

Lemma Qabs_ticks_le : forall (n : Z) (q : Q) (b : Z),
  (q == n # ticks_per_unit)%Q ->
  (Qabs q <= inject_Z b)%Q ->
  Z.abs n <= b * 2 ^ 1074.
Proof.
  intros n q b E Hb. rewrite E in Hb. unfold Qabs, Qle in Hb.
  cbn [Qnum Qden inject_Z] in Hb. rewrite ticks_per_unit_eq in Hb. lia.
Qed.

Lemma ticks_Qabs_le : forall (n : Z) (a : positive),
  Z.abs n * Z.pos a <= 2 ^ 1074 ->
  (Qabs (n # ticks_per_unit) <= 1 # a)%Q.
Proof.
  intros n a H. unfold Qabs, Qle. cbn [Qnum Qden].
  rewrite ticks_per_unit_eq. lia.
Qed.

Lemma ticks_combine : forall a b c d : Z,
  ((a # ticks_per_unit) - ((b # ticks_per_unit)
                           + ((c # ticks_per_unit) - (d # ticks_per_unit)))
   == (a - (b + (c - d))) # ticks_per_unit)%Q.
Proof.
  intros a b c d. unfold Qeq, Qminus, Qplus, Qopp. cbn [Qnum Qden].
  rewrite !Pos2Z.inj_mul. ring.
Qed.

(** The round trip [s2 + (x - s1)] in binary64: for values of magnitude
    2^32 at most it is within 1e-5 of [x + (s2 - s1)]. *)
Lemma add_sub_binary64 : forall (x s1 s2 : float) (qx qs1 qs2 : Q),
  Binary64.to_Q x = Some qx ->
  Binary64.to_Q s1 = Some qs1 ->
  Binary64.to_Q s2 = Some qs2 ->
  (Qabs qx <= inject_Z (2 ^ 32))%Q ->
  (Qabs qs1 <= inject_Z (2 ^ 32))%Q ->
  (Qabs qs2 <= inject_Z (2 ^ 32))%Q ->
  exists qr : Q,
    Binary64.to_Q (PrimFloat.add s2 (PrimFloat.sub x s1)) = Some qr /\
    (Qabs (qr - (qx + (qs2 - qs1))) <= 1 # 100000)%Q.
Proof.
  intros x s1 s2 qx qs1 qs2 Ex E1 E2 Bx B1 B2.
  destruct (to_Q_ticks x qx Ex) as [ Gx Qx ].
  destruct (to_Q_ticks s1 qs1 E1) as [ G1 Q1 ].
  destruct (to_Q_ticks s2 qs2 E2) as [ G2 Q2 ].
  pose proof (Qabs_ticks_le _ _ _ Qx Bx) as Zx.
  pose proof (Qabs_ticks_le _ _ _ Q1 B1) as Z1.
  pose proof (Qabs_ticks_le _ _ _ Q2 B2) as Z2.
  assert (P1054 : 0 < 2 ^ 1054) by (apply Z.pow_pos_nonneg; lia).
  assert (E1055 : 2 ^ (34 - prec - SpecFloat.emin prec emax) = 2 * 2 ^ 1054).
  { rewrite emin64. change (34 - prec - -1074) with (Z.succ 1054).
    rewrite Z.pow_succ_r by lia. reflexivity. }
  assert (E1108 : 2 ^ (34 - SpecFloat.emin prec emax) = 2 ^ 54 * 2 ^ 1054).
  { rewrite emin64. change (34 - -1074) with (54 + 1054).
    rewrite Z.pow_add_r by lia. reflexivity. }
  assert (E1074 : 2 ^ 1074 = 2 ^ 20 * 2 ^ 1054).
  { change 1074 with (20 + 1054). rewrite Z.pow_add_r by lia. reflexivity. }
  rewrite E1074 in Zx, Z1, Z2.
  change (2 ^ 32) with 4294967296 in Zx, Z1, Z2.
  change (2 ^ 20) with 1048576 in Zx, Z1, Z2.
  unfold ticks in Zx, Z1, Z2.
  (* the difference *)
  destruct (SFsub_error prec emax ltac:(reflexivity) ltac:(discriminate)
              (Prim2SF x) (Prim2SF s1) 34 Gx G1 ltac:(reflexivity)
              ltac:(discriminate)) as [ Gy Ey ].
  { rewrite E1108. change (2 ^ 54) with 18014398509481984.
    set (P := 2 ^ 1054) in *. lia. }
  rewrite <- sub_spec in Gy, Ey. rewrite E1055 in Ey.
  (* the sum *)
  destruct (SFadd_error prec emax ltac:(reflexivity) ltac:(discriminate)
              (Prim2SF s2) (Prim2SF (PrimFloat.sub x s1)) 34 G2 Gy
              ltac:(reflexivity) ltac:(discriminate)) as [ Gr Er ].
  { rewrite E1108. change (2 ^ 54) with 18014398509481984.
    set (P := 2 ^ 1054) in *. lia. }
  rewrite <- add_spec in Gr, Er. rewrite E1055 in Er.
  destruct (grounded_to_Q _ Gr) as [ qr [ Eq Qr ] ].
  exists qr. split; [ exact Eq | ].
  rewrite Qr, Qx, Q1, Q2, ticks_combine.
  apply ticks_Qabs_le. rewrite E1074. change (2 ^ 20) with 1048576.
  unfold ticks. set (P := 2 ^ 1054) in *. lia.
Qed.

Section Binary64Timing.
Context {H : Type} {MP : MediaPlayer float H} {MD : MetadataProps float}.

(** C6, as the code has it, in binary64.  On a loaded player, for a
    finite time stamp [x]: let [s1] and [s2] be the start times
    [getStartAbsTime] computes in [absToMovieTime] and in
    [movieToAbsTime], each the reading of the clock minus the
    presentation time of the decoder, rounded.  If [x], [s1] and [s2]
    are 2^32 s at most in magnitude, [movieToAbsTime(absToMovieTime(x))]
    is a finite double within 1e-5 s of [x + (s2 - s1)]; it is within
    1e-5 s of [x] when the two start times are the same. *)
Theorem abs_movie_time_roundtrip_within_tolerance :
  forall (w : World float H) (h : H) (x : float) (qx qs1 qs2 : Q),
    p_handle (self w) = Some h ->
    Binary64.to_Q x = Some qx ->
    Binary64.to_Q (PrimFloat.sub (clock w (now w)) (get_pts h)) = Some qs1 ->
    Binary64.to_Q (PrimFloat.sub (clock w (S (now w))) (get_pts h)) = Some qs2 ->
    (Qabs qx <= inject_Z (2 ^ 32))%Q ->
    (Qabs qs1 <= inject_Z (2 ^ 32))%Q ->
    (Qabs qs2 <= inject_Z (2 ^ 32))%Q ->
    exists (m r : float) (w1 w2 : World float H) (qr : Q),
      getStartAbsTime w
      = Ret (PrimFloat.sub (clock w (now w)) (get_pts h)) w1 /\
      absToMovieTime (VFloat x) w = Ret m w1 /\
      getStartAbsTime w1
      = Ret (PrimFloat.sub (clock w (S (now w))) (get_pts h)) w2 /\
      movieToAbsTime (VFloat m) w1 = Ret r w2 /\
      Binary64.to_Q r = Some qr /\
      (Qabs (qr - (qx + (qs2 - qs1))) <= 1 # 100000)%Q /\
      ((qs2 == qs1)%Q -> (Qabs (qr - qx) <= 1 # 100000)%Q).
Proof.
  intros w h x qx qs1 qs2 Hh Ex E1 E2 Bx B1 B2.
  set (s1 := PrimFloat.sub (clock w (now w)) (get_pts h)) in *.
  set (s2 := PrimFloat.sub (clock w (S (now w))) (get_pts h)) in *.
  destruct (add_sub_binary64 x s1 s2 qx qs1 qs2 Ex E1 E2 Bx B1 B2)
    as [ qr [ Er Hr ] ].
  set (w1 := mkWorld (self w) (clock w) (S (now w)) (log w)).
  assert (Hh1 : p_handle (self w1) = Some h) by exact Hh.
  exists (PrimFloat.sub x s1), (PrimFloat.add s2 (PrimFloat.sub x s1)).
  exists w1, (mkWorld (self w1) (clock w1) (S (now w1)) (log w1)), qr.
  split; [ exact (getStartAbsTime_loaded w h Hh) | ].
  split.
  { unfold absToMovieTime.
    rewrite (bind_Ret _ _ _ _ _ (assert_loaded w h Hh)).
    rewrite (bind_Ret _ _ _ _ _ (getStartAbsTime_loaded w h Hh)). reflexivity. }
  split; [ exact (getStartAbsTime_loaded w1 h Hh1) | ].
  split.
  { unfold movieToAbsTime.
    rewrite (bind_Ret _ _ _ _ _ (assert_loaded w1 h Hh1)).
    rewrite (bind_Ret _ _ _ _ _ (getStartAbsTime_loaded w1 h Hh1)). reflexivity. }
  split; [ exact Er | ]. split; [ exact Hr | ].
  intro E. rewrite E in Hr.
  assert (Eq : (qx + (qs1 - qs1) == qx)%Q) by ring.
  rewrite Eq in Hr. exact Hr.
Qed.

End Binary64Timing.

(** C6, as the claim has it, fails, in three ways.  On the loaded clip,
    paused at 0 s, the clock reads 10 s in [absToMovieTime(0.5)] and
    10.001 s in [movieToAbsTime] of the result: what comes back is more
    than 1e-5 above 0.5.  With a clock that stands still at 2^40 s, what
    comes back for 0.1 is more than 1e-5 below 0.1: the start time is too
    large for the difference to be kept.  With a clock that stands still
    at 10 s, what comes back for the float infinity is not within 1e-5 of
    it: the difference of two infinities is not a number. *)
Lemma abs_movie_time_roundtrip_drifts :
  (exists (w w1 w2 : World float (SimPlayer float)) (m r : float),
      Demo.run64 Demo.loaded30 = Some w /\
      absToMovieTime (MP := Demo.player64) (VFloat 0.5%float) w = Ret m w1 /\
      movieToAbsTime (MP := Demo.player64) (VFloat m) w1 = Ret r w2 /\
      f_ltb (f_lit 1 100000) (f_sub r 0.5%float) = true) /\
  (exists (w1 w2 : World float (SimPlayer float)) (m r : float),
      absToMovieTime (MP := Demo.player64) (VFloat (f_lit 1 10)) Demo3.far64
      = Ret m w1 /\
      movieToAbsTime (MP := Demo.player64) (VFloat m) w1 = Ret r w2 /\
      clock Demo3.far64 (S (now Demo3.far64)) = clock Demo3.far64 (now Demo3.far64) /\
      f_ltb (f_lit 1 100000) (f_sub (f_lit 1 10) r) = true) /\
  (exists (w1 w2 : World float (SimPlayer float)) (m r : float),
      absToMovieTime (MP := Demo.player64) (VFloat infinity) Demo3.frozen64
      = Ret m w1 /\
      movieToAbsTime (MP := Demo.player64) (VFloat m) w1 = Ret r w2 /\
      PrimFloat.leb (PrimFloat.abs (f_sub r infinity)) (f_lit 1 100000) = false).
Proof.
  split; [ | split ].
  - do 5 eexists.
    split; [ vm_compute; reflexivity | ].
    split; [ vm_compute; reflexivity | ].
    split; vm_compute; reflexivity.
  - do 4 eexists.
    split; [ vm_compute; reflexivity | ].
    split; [ vm_compute; reflexivity | ].
    split; vm_compute; reflexivity.
  - do 4 eexists.
    split; [ vm_compute; reflexivity | ].
    split; vm_compute; reflexivity.
Qed.

(** The round trip of 0.5 on the loaded clip, the clock reading 10 s
    and then 10.001 s; and with the clock standing at 10 s. *)
Lemma abs_movie_time_roundtrip_witness :
  (exists (m r : float) (w1 w2 : World float (SimPlayer float)) (qx qs1 qs2 qr : Q),
      absToMovieTime (MP := Demo.player64) (VFloat 0.5%float) Demo.loaded64
      = Ret m w1 /\
      movieToAbsTime (MP := Demo.player64) (VFloat m) w1 = Ret r w2 /\
      Binary64.to_Q 0.5%float = Some qx /\
      Binary64.to_Q (f_lit 10 1) = Some qs1 /\
      Binary64.to_Q (f_lit 10001 1000) = Some qs2 /\
      Binary64.to_Q r = Some qr /\
      (Qabs (qr - (qx + (qs2 - qs1))) <= 1 # 100000)%Q) /\
  (exists (m r : float) (w1 w2 : World float (SimPlayer float)) (qx qr : Q),
      absToMovieTime (MP := Demo.player64) (VFloat 0.5%float) Demo3.frozen64
      = Ret m w1 /\
      movieToAbsTime (MP := Demo.player64) (VFloat m) w1 = Ret r w2 /\
      Binary64.to_Q 0.5%float = Some qx /\
      Binary64.to_Q r = Some qr /\
      (Qabs (qr - qx) <= 1 # 100000)%Q).
Proof.
  assert (Hx : exists qx,
             Binary64.to_Q 0.5%float = Some qx /\
             (Qabs qx <= inject_Z (2 ^ 32))%Q)
    by (eexists; split; [ vm_compute; reflexivity | vm_compute; discriminate ]).
  destruct Hx as [ qx [ Ex Bx ] ].
  split.
  - assert (Hh : exists h qs1 qs2,
               p_handle (self Demo.loaded64) = Some h /\
               Binary64.to_Q (PrimFloat.sub (clock Demo.loaded64 (now Demo.loaded64))
                                (get_pts (MediaPlayer := Demo.player64) h)) = Some qs1 /\
               Binary64.to_Q (PrimFloat.sub (clock Demo.loaded64 (S (now Demo.loaded64)))
                                (get_pts (MediaPlayer := Demo.player64) h)) = Some qs2 /\
               Binary64.to_Q (f_lit 10 1) = Some qs1 /\
               Binary64.to_Q (f_lit 10001 1000) = Some qs2 /\
               (Qabs qs1 <= inject_Z (2 ^ 32))%Q /\
               (Qabs qs2 <= inject_Z (2 ^ 32))%Q)
      by (do 3 eexists; (split; [ vm_compute; reflexivity | ]);
          (split; [ vm_compute; reflexivity | ]);
          (split; [ vm_compute; reflexivity | ]);
          (split; [ vm_compute; reflexivity | ]);
          (split; [ vm_compute; reflexivity | ]);
          (split; vm_compute; discriminate)).
    destruct Hh as [ h [ qs1 [ qs2 [ Hh [ E1 [ E2 [ L1 [ L2 [ B1 B2 ] ] ] ] ] ] ] ] ].
    destruct (abs_movie_time_roundtrip_within_tolerance (MP := Demo.player64)
                Demo.loaded64 h 0.5%float qx qs1 qs2 Hh Ex E1 E2 Bx B1 B2)
      as [ m [ r [ w1 [ w2 [ qr [ _ [ A [ _ [ B [ Er [ Hr _ ] ] ] ] ] ] ] ] ] ] ].
    exists m, r, w1, w2, qx, qs1, qs2, qr. repeat split; assumption.
  - assert (Hh : exists h qs,
               p_handle (self Demo3.frozen64) = Some h /\
               Binary64.to_Q (PrimFloat.sub (clock Demo3.frozen64 (now Demo3.frozen64))
                                (get_pts (MediaPlayer := Demo.player64) h)) = Some qs /\
               Binary64.to_Q (PrimFloat.sub (clock Demo3.frozen64 (S (now Demo3.frozen64)))
                                (get_pts (MediaPlayer := Demo.player64) h)) = Some qs /\
               (Qabs qs <= inject_Z (2 ^ 32))%Q)
      by (do 2 eexists; (split; [ vm_compute; reflexivity | ]);
          (split; [ vm_compute; reflexivity | ]);
          (split; [ vm_compute; reflexivity | ]);
          vm_compute; discriminate).
    destruct Hh as [ h [ qs [ Hh [ E1 [ E2 B ] ] ] ] ].
    destruct (abs_movie_time_roundtrip_within_tolerance (MP := Demo.player64)
                Demo3.frozen64 h 0.5%float qx qs qs Hh Ex E1 E2 Bx B B)
      as [ m [ r [ w1 [ w2 [ qr [ _ [ A [ _ [ B' [ Er [ _ Hr ] ] ] ] ] ] ] ] ] ] ].
    exists m, r, w1, w2, qx, qr. repeat split; try assumption.
    apply Hr. reflexivity.
Defined.

(** ** Calls on a player that holds no decoder *)

Section ErrorFacts.
Context {F : Type} {PF : PyFloat F} {H : Type} {MP : MediaPlayer F H}
        {MD : MetadataProps F}.

Lemma load_not_loaded : forall fuel (w : World F H) path h',
  p_handle (self w) = None ->
  first_frame fuel (set_pause false (set_mute true (mp_open path))) = Some h' ->
  load fuel path w = Ret tt (loaded_world w path h').
Proof.
  intros fuel w path h' Hh Hff.
  unfold load, start, handle_do, thread_do, the_handle, the_thread, self_upd,
    record, get_self, bind, ret.
  cbn. rewrite Hh. cbn. rewrite Hff. cbn.
  unfold loaded_world. repeat rewrite <- app_assoc. reflexivity.
Qed.

(** C7. On a player that holds no decoder, each of [play], [pause],
    [seek], [rewind], [fastForward], [getMovieFrame], [getMetadata],
    [movieToAbsTime], [absToMovieTime], [frameIndexFromMovieTime] and
    [movieTimeFromFrameIndex] raises the [RuntimeError] of
    [_assertMediaPlayer] and leaves the player, the clock and the record
    of calls as they were; and [load] still works afterwards: it returns
    with a decoder in place as soon as the decoder gives a first frame. *)
Theorem not_loaded_call_raises_and_changes_nothing :
  forall fuel (op : Op F) (w : World F H),
    p_handle (self w) = None ->
    needs_load op = true ->
    run_op fuel op w = Raise (RuntimeError msg_not_loaded) w /\
    (forall fuel' path h',
        first_frame fuel' (set_pause false (set_mute true (mp_open path)))
        = Some h' ->
        exists w',
          load fuel' path w = Ret tt w' /\ isLoaded (self w') = true).
Proof.
  intros fuel op w Hh Hop. split.
  - pose proof (assert_not_loaded w Hh) as Ha.
    destruct op; try discriminate Hop; cbn [run_op];
      unfold discard, play, pause, FFPyPlayer_seek, rewind, fastForward,
        getMovieFrame, getMetadata, movieToAbsTime, absToMovieTime,
        frameIndexFromMovieTime, movieTimeFromFrameIndex;
      repeat (apply bind_Raise); exact Ha.
  - intros fuel' path h' Hff. exists (loaded_world w path h').
    split; [ apply load_not_loaded; assumption | reflexivity ].
Qed.

Lemma stop_opened : forall fuel (w : World F H) h t t' h',
  p_handle (self w) = Some h ->
  p_tStream (self w) = Some t ->
  Thread_join fuel fuel (MovieStreamThread_shutdown t) h = Some (t', h') ->
  stop fuel w = Ret tt (stopped_world w).
Proof.
  intros fuel w h t t' h' Hh Ht Hj.
  unfold stop, join_thread, handle_do, thread_do, the_handle, the_thread,
    self_upd, record, get_self, bind, ret.
  cbn. rewrite Hh. cbn. rewrite Ht. cbn. rewrite Hh. cbn. rewrite Hj. cbn.
  unfold stopped_world. destruct w as [ [ ] ? ? ? ]; cbn.
  repeat rewrite <- app_assoc. reflexivity.
Qed.

End ErrorFacts.

(** ** The status of the player *)

Section StatusFacts.
Context {F : Type} {PF : PyFloat F} {H : Type} {MP : MediaPlayer F H}
        {MD : MetadataProps F}.

Local Abbreviation keeps_status_inv := (keeps (F := F) (H := H) status_inv).

Lemma keeps_bind : forall {A B} (I : World F H -> Prop) (c : M (World F H) A) (k : A -> M (World F H) B),
  keeps I c -> (forall a, keeps I (k a)) -> keeps I (bind c k).
Proof.
  intros A B I c k Hc Hk w Hw. unfold bind.
  specialize (Hc w Hw). destruct (c w) as [ a w' | e w' | ]; auto.
  apply Hk. exact Hc.
Qed.

Lemma keeps_ret : forall {A} (I : World F H -> Prop) (a : A), keeps I (ret a).
Proof. intros A I a w Hw. exact Hw. Qed.

Lemma keeps_raise : forall {A} (I : World F H -> Prop) e,
  keeps I (@raise (World F H) A e).
Proof. intros A I e w Hw. exact Hw. Qed.

Lemma keeps_hang : forall {A} (I : World F H -> Prop),
  keeps I (@hang (World F H) A).
Proof. intros A I w Hw. exact Logic.I. Qed.

Lemma keeps_self_upd_stable : forall f,
  (forall p, p_status (f p) = p_status p) -> keeps_status_inv (self_upd f).
Proof.
  intros f Hf w Hw. unfold status_inv in *. cbn. rewrite Hf. exact Hw.
Qed.

Lemma keeps_set_status : forall s,
  s = NOT_STARTED \/ s = PLAYING -> keeps_status_inv (self_upd (with_status s)).
Proof. intros s Hs w Hw. exact Hs. Qed.

Lemma keeps_record : forall c, keeps_status_inv (record c).
Proof. intros c w Hw. exact Hw. Qed.

Lemma keeps_getTime : keeps_status_inv getTime.
Proof. intros w Hw. exact Hw. Qed.

Lemma keeps_get_self : keeps_status_inv get_self.
Proof. intros w Hw. exact Hw. Qed.

Lemma keeps_pts : keeps_status_inv pts.
Proof. intros w Hw. unfold pts. destruct (p_handle (self w)); exact Hw. Qed.

Lemma keeps_the_handle : keeps_status_inv the_handle.
Proof.
  intros w Hw. unfold the_handle. destruct (p_handle (self w)); exact Hw.
Qed.

Lemma keeps_the_thread : keeps_status_inv the_thread.
Proof.
  intros w Hw. unfold the_thread. destruct (p_tStream (self w)); exact Hw.
Qed.

Lemma keeps_assert : keeps_status_inv _assertMediaPlayer.
Proof.
  intros w Hw. unfold _assertMediaPlayer. destruct (p_handle (self w)); exact Hw.
Qed.

Create HintDb keeps.
#[local] Hint Resolve keeps_ret keeps_raise keeps_hang keeps_record
  keeps_getTime keeps_get_self keeps_pts keeps_the_handle keeps_the_thread
  keeps_assert : keeps.

(** The proof that a method keeps the status: its body is taken apart
    at each [bind] and each [match]; the leaves are calls that were dealt
    with before. *)
Ltac keeps_status :=
  repeat lazymatch goal with
    | |- keeps _ (bind _ _) => apply keeps_bind; [ | intro ]
    | |- keeps _ (match ?x with _ => _ end) => destruct x
    | |- keeps _ (let _ := _ in _) => cbv zeta
    | |- keeps _ (self_upd (with_status _)) => apply keeps_set_status; auto
    | |- keeps _ (self_upd _) =>
        apply keeps_self_upd_stable; intros [ ]; reflexivity
    | |- _ => solve [ auto with keeps nocore ]
    end.

Lemma keeps_handle_do : forall c f, keeps_status_inv (handle_do c f).
Proof. intros c f. unfold handle_do. keeps_status. Qed.

Lemma keeps_thread_do : forall c f, keeps_status_inv (thread_do c f).
Proof. intros c f. unfold thread_do. keeps_status. Qed.

#[local] Hint Resolve keeps_handle_do keeps_thread_do : keeps.

Lemma keeps_start : forall fuel, keeps_status_inv (start fuel).
Proof. intro fuel. unfold start. keeps_status. Qed.

Lemma keeps_unload : keeps_status_inv unload.
Proof. unfold unload. keeps_status. Qed.

#[local] Hint Resolve keeps_start keeps_unload : keeps.

Lemma keeps_load : forall fuel path, keeps_status_inv (load fuel path).
Proof. intros fuel path. unfold load. keeps_status. Qed.

Lemma keeps_play : keeps_status_inv play.
Proof. unfold play. keeps_status. Qed.

Lemma keeps_pause : keeps_status_inv pause.
Proof. unfold pause. keeps_status. Qed.

Lemma keeps_stop : forall fuel, keeps_status_inv (stop fuel).
Proof. intro fuel. unfold stop, join_thread. keeps_status. Qed.

Lemma keeps_seek : forall t, keeps_status_inv (FFPyPlayer_seek t).
Proof. intro t. unfold FFPyPlayer_seek. keeps_status. Qed.

#[local] Hint Resolve keeps_load keeps_play keeps_pause keeps_stop keeps_seek
  : keeps.

Lemma keeps_replay : forall fuel a, keeps_status_inv (replay fuel a).
Proof. intros fuel a. unfold replay. keeps_status. Qed.

Lemma keeps_getMetadata : keeps_status_inv getMetadata.
Proof. unfold getMetadata. keeps_status. Qed.

Lemma keeps_getStartAbsTime : keeps_status_inv getStartAbsTime.
Proof. unfold getStartAbsTime. keeps_status. Qed.

Lemma keeps_enqueueFrame : forall fuel b, keeps_status_inv (_enqueueFrame fuel b).
Proof. intros fuel b. unfold _enqueueFrame. keeps_status. Qed.

#[local] Hint Resolve keeps_replay keeps_getMetadata keeps_getStartAbsTime
  keeps_enqueueFrame : keeps.

Lemma keeps_run_op : forall fuel op, keeps_status_inv (run_op fuel op).
Proof.
  intros fuel op.
  destruct op; cbn [run_op]; unfold discard, rewind, fastForward, getMovieFrame,
    movieToAbsTime, absToMovieTime, frameIndexFromMovieTime,
    movieTimeFromFrameIndex;
    keeps_status.
Qed.

(** A step of the reader does not touch the status of the player. *)
Lemma tick_status : forall fuel (w w' : World F H),
  tick fuel w = Some w' -> p_status (self w') = p_status (self w).
Proof.
  intros fuel w w' E. unfold tick in E.
  destruct (p_tStream (self w)) as [ t | ];
    [ destruct (p_handle (self w)) as [ h | ] | ];
    try (injection E as <-; reflexivity).
  destruct (thread_step fuel t h) as [ [ t' h' ] | ]; [ | discriminate E ].
  injection E as <-. destruct w as [ [ ] ? ? ? ]; reflexivity.
Qed.

Lemma reachable_status_inv : forall w : World F H, reachable w -> status_inv w.
Proof.
  intros w Hr. induction Hr as
    [ clk | fuel op w w' _ IH E | fuel op e w w' _ IH E | fuel w w' _ IH E ].
  - left. reflexivity.
  - pose proof (keeps_run_op fuel op w IH) as K. rewrite E in K. exact K.
  - pose proof (keeps_run_op fuel op w IH) as K. rewrite E in K. exact K.
  - unfold status_inv. rewrite (tick_status fuel w w' E). exact IH.
Qed.

(** C9. In every state a program can reach by calling the methods of
    the player ([load], [start], [play], [pause], [seek], [stop],
    [replay] and the others), catching what they raise, while the reader
    runs, the status of the player is NOT_STARTED or PLAYING: [pause] and
    [stop] do not write it.  So [isStopped] and [isFinished] are
    [False]. *)
Theorem status_is_not_started_or_playing :
  forall w : World F H,
    reachable w ->
    (status (self w) = NOT_STARTED \/ status (self w) = PLAYING) /\
    isStopped (self w) = false /\
    isFinished (self w) = false.
Proof.
  intros w Hr. pose proof (reachable_status_inv w Hr) as Hs.
  split; [ exact Hs | ].
  unfold isStopped, isFinished, status.
  destruct Hs as [ -> | -> ]; split; reflexivity.
Qed.

End StatusFacts.

(** ** Seeking *)

Section SeekFacts.
Context {F : Type} {PF : PyFloat F} {H : Type} {MP : MediaPlayer F H}
        {MD : MetadataProps F}.

(** What [seek] does on a loaded player: one absolute seek on the
    decoder, [_queuedFrame] reset to the null frame, and the presentation
    time the decoder reports afterwards returned.  [_lastFrame], the
    attribute [getMovieFrame] returns, and the queue of the reader are
    not touched. *)
Lemma seek_loaded : forall (w : World F H) h timestamp,
  p_handle (self w) = Some h ->
  FFPyPlayer_seek timestamp w
  = Ret (get_pts (seek timestamp false h))
      (mkWorld
         (with_queuedFrame NULL_MOVIE_FRAME_INFO
            (with_handle (Some (seek timestamp false h)) (self w)))
         (clock w) (now w) (log w ++ [call_seek timestamp false])).
Proof.
  intros w h timestamp Hh.
  unfold FFPyPlayer_seek, handle_do, the_handle, self_upd, record,
    _assertMediaPlayer, bind, ret.
  cbn. rewrite Hh. cbn. rewrite Hh. reflexivity.
Qed.

Lemma seek_keeps_lastFrame_and_queue : forall (w w' : World F H) timestamp x,
  FFPyPlayer_seek timestamp w = Ret x w' ->
  p_lastFrame (self w') = p_lastFrame (self w) /\
  p_tStream (self w') = p_tStream (self w).
Proof.
  intros w w' timestamp x E.
  destruct (p_handle (self w)) as [ h | ] eqn:Hh.
  - rewrite (seek_loaded w h timestamp Hh) in E. injection E as _ <-.
    split; reflexivity.
  - unfold FFPyPlayer_seek in E.
    rewrite (bind_Raise _ _ _ _ _ (assert_not_loaded w Hh)) in E.
    discriminate E.
Qed.

End SeekFacts.

(** ** The end of the reader *)

Section JoinFacts.
Context {F : Type} {PF : PyFloat F} {H : Type} {MP : MediaPlayer F H}.

Lemma Thread_join_exited : forall n fuel (t : MovieStreamThread F) (h : H),
  t_phase t = Exited -> Thread_join n fuel t h = Some (t, h).
Proof. intros n fuel t h E. destruct n; cbn [Thread_join]; rewrite E; reflexivity. Qed.

Lemma Thread_join_step : forall n fuel (t t' : MovieStreamThread F) (h h' : H),
  t_phase t <> Exited ->
  thread_step fuel t h = Some (t', h') ->
  Thread_join (S n) fuel t h = Thread_join n fuel t' h'.
Proof.
  intros n fuel t t' h h' Hph E. cbn [Thread_join]. rewrite E.
  destruct (t_phase t); try reflexivity. contradiction Hph. reflexivity.
Qed.

Lemma step_started : forall fuel (t : MovieStreamThread F) (h : H),
  t_phase t = Started -> thread_step fuel t h = Some (run_prologue t, h).
Proof. intros fuel t h E. unfold thread_step. rewrite E. reflexivity. Qed.

Lemma step_warm_start : forall fuel (t : MovieStreamThread F) (h : H),
  t_phase t = Running ->
  t_statusFlag t = NOT_STARTED ->
  thread_step fuel t h = Some (with_statusFlag PLAYING t, set_pause false h).
Proof.
  intros fuel t h E1 E2. unfold thread_step, run_body. rewrite E1, E2.
  reflexivity.
Qed.

Lemma step_paused_stopping : forall fuel (t : MovieStreamThread F) (h : H),
  t_phase t = Running ->
  t_statusFlag t = PLAYING ->
  t_isPlaying t = false ->
  t_stopSignal t = true ->
  thread_step fuel t h
  = Some (with_statusFlag STOPPED (with_statusFlag PAUSED t),
          if negb (get_pause h) then set_pause true h else h).
Proof.
  intros fuel t h E1 E2 E3 E4. unfold thread_step, run_body, observe.
  rewrite E1, E2, E3. cbn [Status_eqb t_statusFlag with_statusFlag].
  unfold run_paused, stop_check. cbn [t_stopSignal with_statusFlag].
  rewrite E4. reflexivity.
Qed.

Lemma step_stopped : forall fuel (t : MovieStreamThread F) (h : H),
  t_phase t = Running ->
  t_statusFlag t = STOPPED ->
  thread_step fuel t h = Some (run_epilogue t, h).
Proof.
  intros fuel t h E1 E2. unfold thread_step. rewrite E1, E2. reflexivity.
Qed.

(** A reader that was started and is told to shut down before it runs
    comes to its end in four steps, whatever the decoder does. *)
Lemma join_started_reader : forall n fuel (t : MovieStreamThread F) (h : H),
  t_phase t = Started ->
  exists t' h',
    Thread_join (4 + n) fuel (MovieStreamThread_shutdown t) h = Some (t', h') /\
    t_phase t' = Exited.
Proof.
  intros n fuel t h Hph.
  change (4 + n)%nat with (S (S (S (S n)))).
  erewrite Thread_join_step;
    [ | cbn; rewrite Hph; discriminate | apply step_started; exact Hph ].
  erewrite Thread_join_step;
    [ | discriminate | apply step_warm_start; reflexivity ].
  erewrite Thread_join_step;
    [ | discriminate | apply step_paused_stopping; reflexivity ].
  erewrite Thread_join_step;
    [ | discriminate | apply step_stopped; reflexivity ].
  eexists. eexists. split; [ apply Thread_join_exited | ]; reflexivity.
Qed.
End JoinFacts.

Section StopFacts.
Context {F : Type} {PF : PyFloat F} {H : Type} {MP : MediaPlayer F H}
        {MD : MetadataProps F}.

(** [stop] returns on a player whose reader was started and has not run
    yet, as after [load]: the wait for the reader is four steps long. *)
Lemma stop_returns_before_reader_runs : forall n (w : World F H) h t,
  p_handle (self w) = Some h ->
  p_tStream (self w) = Some t ->
  t_phase t = Started ->
  stop (4 + n) w = Ret tt (stopped_world w).
Proof.
  intros n w h t Hh Ht Hph.
  destruct (join_started_reader n (4 + n) t h Hph) as [ t' [ h' [ Hj _ ] ] ].
  eapply stop_opened; eassumption.
Qed.

End StopFacts.

(** ** The examples, run *)

(** C1 (the code does not keep the claim). A player is watching the
    slow clip: the frame of 0 s was fetched and is cached in
    [_lastFrame], the frame of 1 s waits in the queue.  [seek(5.0)]
    makes one absolute seek on the decoder, returns the presentation
    time the decoder reports, 5.0, and resets [_queuedFrame] to the null
    frame; but the frame cached in [_lastFrame] is still there, and the
    next [getMovieFrame] returns the frame of 1 s, queued before the
    seek, while the decoder is at 5 s. *)
Theorem seek_keeps_cached_and_queued_frames :
  exists (w w1 w2 : World float (SimPlayer float)) (cached stale : MovieFrame float),
    Demo.run64 Demo.watching = Some w /\
    p_lastFrame (self w) = Some cached /\
    FFPyPlayer_seek (MP := Demo.player64) 5%float w = Ret 5%float w1 /\
    log w1 = log w ++ [call_seek 5%float false] /\
    p_queuedFrame (self w1) = NULL_MOVIE_FRAME_INFO /\
    p_lastFrame (self w1) = Some cached /\
    cached <> NULL_MOVIE_FRAME_INFO /\
    getMovieFrame (MP := Demo.player64) 20 0%float w1 = Ret stale w2 /\
    mf_colorData stale = to_bytearray_first (picture 1) /\
    p_streamTime (self w2) = Some 1%float /\
    option_map (get_pts (MediaPlayer := Demo.player64)) (p_handle (self w2))
    = Some 5%float.
Proof.
  do 5 eexists.
  split; [ vm_compute; reflexivity | ].
  split; [ vm_compute; reflexivity | ].
  split; [ vm_compute; reflexivity | ].
  split; [ vm_compute; reflexivity | ].
  split; [ vm_compute; reflexivity | ].
  split; [ vm_compute; reflexivity | ].
  split; [ intro E; apply (f_equal mf_colorData) in E; discriminate E | ].
  split; [ vm_compute; reflexivity | ].
  repeat split; vm_compute; reflexivity.
Qed.

Section ScriptFacts.
Context {F : Type} {PF : PyFloat F} {H : Type} {MP : MediaPlayer F H}
        {MD : MetadataProps F}.

(** What a script ends in is a state a program can reach. *)
Lemma run_script_reachable : forall fuel l (w w' : World F H),
  reachable w -> run_script fuel l w = Some w' -> reachable w'.
Proof.
  intros fuel l. induction l as [ | a l IH ]; intros w w' Hr E.
  - injection E as <-. exact Hr.
  - destruct a as [ op | ]; cbn [run_script] in E.
    + destruct (run_op fuel op w) as [ [ ] w1 | e w1 | ] eqn:Eop.
      * apply (IH w1 w'); [ | exact E ]. eapply reach_ret; eassumption.
      * apply (IH w1 w'); [ | exact E ]. eapply reach_raise; eassumption.
      * discriminate E.
    + destruct (tick fuel w) as [ w1 | ] eqn:Et; [ | discriminate E ].
      apply (IH w1 w'); [ | exact E ]. eapply reach_tick; eassumption.
Qed.
End ScriptFacts.

(** The full queue of one slot: the frame the reader of the examples
    pulls at 0 s is dropped, and the reader keeps its time stamp and the
    polling interval only. *)
Lemma publish_on_full_queue_witness :
  Queue.full (t_frameQueue (demo_full_reader (F := float))) = true /\
  publish demo_entry (t_frameQueue (demo_full_reader (F := float)))
  = Some (t_frameQueue demo_full_reader) /\
  run_playing (MP := Demo.player64) 5 demo_full_reader Demo.slow64
  = Ret FallThrough
      (after_dropped_frame demo_full_reader 0%float 1%float (val_delay 0%float),
       snd (sim_get_frame Demo.slow64)).
Proof.
  pose proof (publish_on_full_queue_drops_entry (MP := Demo.player64)
                demo_full_reader demo_entry eq_refl) as [ _ [ P R ] ].
  split; [ reflexivity | ]. split; [ exact P | ].
  refine (proj1 (R 5%nat Demo.slow64 (picture 0) 0%float (val_delay 0%float)
                   (snd (sim_get_frame Demo.slow64)) 1 1 1%float _ _ _ _)).
  - vm_compute; reflexivity.
  - reflexivity.
  - discriminate.
  - vm_compute; reflexivity.
Defined.

(** C4, as the claim has it, fails in binary64.  For the frame rate
    2997/100 the polling interval [1.0 / (2997 / 100.0)] is not the
    double nearest to 100/2997 (it is the next one up), and its exact
    value is not 100/2997. *)
Lemma poll_interval_binary64_not_exact :
  exists (i : float) (q : Q),
    poll_interval 2997 100 = inr i /\
    i <> Binary64.lit 100 2997 /\
    Binary64.to_Q i = Some q /\
    ~ (q == 100 # 2997)%Q.
Proof.
  eexists. eexists.
  split; [ vm_compute; reflexivity | ].
  split; [ intro E; apply (f_equal Prim2SF) in E; vm_compute in E; discriminate E | ].
  split; [ vm_compute; reflexivity | ].
  intro E. vm_compute in E. discriminate E.
Qed.

(** The polling interval of 30 frames per second in exact arithmetic,
    and a pass of a playing reader on a stream whose frame rate is still
    0/0. *)
Lemma poll_interval_witness :
  (exists i : Q,
      poll_interval 30 1 = inr i /\ (i == inject_Z 1 / inject_Z 30)%Q) /\
  (exists t' : MovieStreamThread float,
      thread_step (MP := Demo.player64) 5 Demo.playing_reader Demo.raw64
      = Some (t', snd (sim_get_frame Demo.raw64)) /\
      t_frameQueue t' = t_frameQueue Demo.playing_reader /\
      t_frameInterval t' = t_frameInterval Demo.playing_reader /\
      t_statusFlag t' = PLAYING /\
      t_phase t' = Running).
Proof.
  destruct poll_interval_exact_and_zero_denominator_skips as [ A B ].
  split.
  - apply A; reflexivity.
  - apply (B float _ (SimPlayer float) Demo.player64 5%nat Demo.playing_reader
             Demo.raw64 (picture 0, 0%float) (val_delay 0%float)
             (snd (sim_get_frame Demo.raw64)) 0);
      try reflexivity; vm_compute; reflexivity.
Defined.

(** C5, as the claim has it, fails in binary64.  On the clip of 30
    frames per second, whose frame interval is the double nearest to
    1/30, [movieTimeFromFrameIndex(31)] is 1.0333333333333332 and
    [frameIndexFromMovieTime] of it is 30. *)
Lemma frame_index_roundtrip_binary64_off_by_one :
  exists (w : World float (SimPlayer float)) (h : SimPlayer float) (t : float),
    Demo.run64 Demo.loaded30 = Some w /\
    p_handle (self w) = Some h /\
    f_ltb (f_lit 0 1)
      (frameInterval (MetadataProps := Demo.props64) (metadata_of (MP := Demo.player64) (self w) h)) = true /\
    movieTimeFromFrameIndex (MP := Demo.player64) (MD := Demo.props64) 31 w = Ret t w /\
    frameIndexFromMovieTime (MP := Demo.player64) (MD := Demo.props64) t w = Ret 30 w /\
    30 <> 31.
Proof.
  do 3 eexists.
  split; [ vm_compute; reflexivity | ].
  split; [ vm_compute; reflexivity | ].
  split; [ vm_compute; reflexivity | ].
  split; [ vm_compute; reflexivity | ].
  split; [ vm_compute; reflexivity | discriminate ].
Qed.

(** The round trip of the frame index 31 on the clip of 30 frames per
    second, in exact arithmetic. *)
Lemma frame_index_roundtrip_witness :
  exists t : Q,
    movieTimeFromFrameIndex (MP := Demo.playerQ) (MD := Demo.propsQ) 31 Demo.loaded30Q
    = Ret t Demo.loaded30Q /\
    frameIndexFromMovieTime (MP := Demo.playerQ) (MD := Demo.propsQ) t Demo.loaded30Q
    = Ret 31 Demo.loaded30Q.
Proof.
  eapply (frame_index_roundtrip_exact (MP := Demo.playerQ) (MD := Demo.propsQ)
            Demo.loaded30Q _ 31).
  - vm_compute; reflexivity.
  - vm_compute; reflexivity.
  - discriminate.
Defined.

(** [play] on a new player, and [load] after it. *)
Lemma not_loaded_witness :
  run_op (MP := Demo.player64) (MD := Demo.props64) 20 op_play (World_init demo_clock)
  = Raise (RuntimeError msg_not_loaded) (World_init demo_clock) /\
  exists w' : World float (SimPlayer float),
    load (MP := Demo.player64) 20 "slow.mp4" (World_init demo_clock) = Ret tt w' /\
    isLoaded (self w') = true.
Proof.
  destruct (not_loaded_call_raises_and_changes_nothing (MP := Demo.player64)
              (MD := Demo.props64) 20%nat op_play (World_init demo_clock)
              eq_refl eq_refl) as [ A B ].
  split; [ exact A | ].
  eapply (B 20%nat "slow.mp4"%string). vm_compute; reflexivity.
Defined.

(** The status at the end of a session that loads, plays, pauses and
    stops a clip. *)
Lemma status_witness :
  exists w : World float (SimPlayer float),
    Demo.run64 Demo.session = Some w /\
    (status (self w) = NOT_STARTED \/ status (self w) = PLAYING) /\
    isStopped (self w) = false /\
    isFinished (self w) = false.
Proof.
  eexists. split; [ vm_compute; reflexivity | ].
  apply (status_is_not_started_or_playing (MP := Demo.player64) (MD := Demo.props64)).
  apply (run_script_reachable (MP := Demo.player64) (MD := Demo.props64) 20%nat Demo.session (World_init demo_clock)).
  - apply reach_init.
  - vm_compute; reflexivity.
Defined.

(** ** The eye-tracker controller *)

Section ControlFacts.
Import Eyetracker.
Variables STARTED NOT_STARTED PAUSED STOPPED FINISHED : Z.

Local Abbreviation set_status :=
  (Eyetracker.set_status STARTED NOT_STARTED PAUSED STOPPED FINISHED).
Local Abbreviation set_all :=
  (Eyetracker.set_all STARTED NOT_STARTED PAUSED STOPPED FINISHED).
Local Abbreviation init := (Eyetracker.init NOT_STARTED).
Local Abbreviation known :=
  (Eyetracker.known STARTED NOT_STARTED PAUSED STOPPED FINISHED).

Lemma last_recording_app : forall l1 l2,
  last_recording (l1 ++ l2)
  = match last_recording l2 with
    | Some b => Some b
    | None => last_recording l1
    end.
Proof.
  induction l1 as [ | c l1 IH ]; intros l2; cbn [app last_recording].
  - destruct (last_recording l2); reflexivity.
  - rewrite IH. destruct (last_recording l2); reflexivity.
Qed.

(** The status is what was assigned last. *)
Lemma set_status_status : forall v s, ec_status (set_status v s) = v.
Proof.
  intros v s. unfold Eyetracker.set_status.
  destruct (v =? ec_status s); reflexivity.
Qed.

Lemma known_started_or_stop : forall v,
  is_in STARTED [NOT_STARTED; PAUSED; STOPPED; FINISHED] = false ->
  known v = true ->
  (v = STARTED /\ is_in v [NOT_STARTED; PAUSED; STOPPED; FINISHED] = false) \/
  (v <> STARTED /\ is_in v [NOT_STARTED; PAUSED; STOPPED; FINISHED] = true).
Proof.
  unfold Eyetracker.known, is_in. cbn [existsb].
  intros v Hs Hk.
  destruct (Z.eqb_spec v STARTED) as [ -> | Hne ].
  - left. split; [ reflexivity | exact Hs ].
  - right. split; [ exact Hne | ]. cbn [orb] in Hk. exact Hk.
Qed.

Lemma set_status_follows : forall v s,
  is_in STARTED [NOT_STARTED; PAUSED; STOPPED; FINISHED] = false ->
  known v = true ->
  tracker_follows STARTED NOT_STARTED s ->
  tracker_follows STARTED NOT_STARTED (set_status v s).
Proof.
  intros v s Hs Hk Hinv. unfold tracker_follows.
  rewrite set_status_status.
  unfold Eyetracker.set_status.
  destruct (Z.eqb_spec v (ec_status s)) as [ -> | Hne ]; cbn [ec_calls].
  - exact Hinv.
  - right. rewrite !last_recording_app.
    destruct (known_started_or_stop v Hs Hk) as [ [ -> Hno ] | [ Hnot Hyes ] ].
    + rewrite Hno. unfold is_in at 1. cbn [existsb]. rewrite Z.eqb_refl.
      cbn [orb]. rewrite last_recording_app. reflexivity.
    + rewrite Hyes. unfold is_in at 1. cbn [existsb].
      apply Z.eqb_neq in Hnot. rewrite Hnot. reflexivity.
Qed.

(** X1. Provided STARTED is none of NOT_STARTED, PAUSED, STOPPED and
    FINISHED: after any sequence of assignments of these five constants
    to [status] of a new controller, the tracker was last told to record
    exactly if the status is STARTED; it was told nothing only if the
    status never left NOT_STARTED. *)
Theorem tracker_records_iff_started :
  forall (tracker_given : bool) (values : list Z),
    is_in STARTED [NOT_STARTED; PAUSED; STOPPED; FINISHED] = false ->
    forallb known values = true ->
    (ec_status (set_all values (init tracker_given)) = STARTED ->
     last_recording (ec_calls (set_all values (init tracker_given))) = Some true) /\
    (ec_status (set_all values (init tracker_given)) <> STARTED ->
     last_recording (ec_calls (set_all values (init tracker_given))) = Some false \/
     (last_recording (ec_calls (set_all values (init tracker_given))) = None /\
      ec_status (set_all values (init tracker_given)) = NOT_STARTED)).
Proof.
  intros tracker_given values Hs Hk.
  set (s := set_all values (init tracker_given)).
  assert (Hinv : tracker_follows STARTED NOT_STARTED s).
  { subst s. unfold Eyetracker.set_all.
    assert (H0 : tracker_follows STARTED NOT_STARTED (init tracker_given)).
    { left. split; [ | reflexivity ]. destruct tracker_given; reflexivity. }
    revert H0 Hk. generalize (init tracker_given).
    induction values as [ | v values IH ]; intros s0 H0 Hk.
    - exact H0.
    - cbn [forallb] in Hk. apply andb_true_iff in Hk as [ Hv Hvs ].
      cbn [fold_left]. apply IH; [ | exact Hvs ].
      apply set_status_follows; assumption. }
  destruct Hinv as [ [ Hn Hst ] | Hl ].
  - split.
    + intro E. rewrite E in Hst. unfold is_in in Hs.
      cbn [existsb] in Hs. rewrite Hst, Z.eqb_refl in Hs. discriminate Hs.
    + intros _. right. split; assumption.
  - split.
    + intro E. rewrite Hl, E, Z.eqb_refl. reflexivity.
    + intro Hne. left. rewrite Hl. apply Z.eqb_neq in Hne. rewrite Hne.
      reflexivity.
Qed.

Lemma clears_before_start_app : forall l1 l2,
  clears_before_start l1 = true ->
  ends_with_clear l1 = false ->
  clears_before_start l2 = true ->
  clears_before_start (l1 ++ l2) = true.
Proof.
  induction l1 as [ | c l1 IH ]; intros l2 H1 He H2.
  - exact H2.
  - destruct c as [ name | | b ]; cbn [app clears_before_start] in *.
    + apply IH; [ exact H1 | | exact H2 ].
      destruct l1; [ reflexivity | exact He ].
    + destruct l1 as [ | [ name | | [ | ] ] l1 ]; try discriminate H1.
      cbn [app]. apply (IH l2 H1); [ | exact H2 ].
      exact He.
    + apply IH; [ exact H1 | | exact H2 ].
      destruct l1; [ reflexivity | exact He ].
Qed.

Lemma ends_with_clear_app : forall l1 l2,
  l2 <> [] -> ends_with_clear (l1 ++ l2) = ends_with_clear l2.
Proof.
  induction l1 as [ | c l1 IH ]; intros l2 Hne.
  - reflexivity.
  - cbn [app ends_with_clear].
    destruct (l1 ++ l2) eqn:E.
    + apply app_eq_nil in E as [ _ E ]. contradiction.
    + rewrite <- E. apply IH. exact Hne.
Qed.

Lemma set_status_clears : forall v s,
  clears_before_start (ec_calls s) = true ->
  ends_with_clear (ec_calls s) = false ->
  clears_before_start (ec_calls (set_status v s)) = true /\
  ends_with_clear (ec_calls (set_status v s)) = false.
Proof.
  intros v s Hc He. unfold Eyetracker.set_status.
  destruct (v =? ec_status s); cbn [ec_calls]; [ split; assumption | ].
  destruct (is_in v [STARTED]);
    destruct (is_in (ec_status s) [NOT_STARTED; STOPPED; FINISHED]);
    destruct (is_in v [NOT_STARTED; PAUSED; STOPPED; FINISHED]);
    cbn [app]; rewrite ?app_nil_r;
    try (split; assumption);
    (split;
     [ apply clears_before_start_app; [ exact Hc | exact He | reflexivity ]
     | rewrite ends_with_clear_app; [ reflexivity | discriminate ] ]).
Qed.

(** X2. Whatever is assigned to [status] of a new controller, in
    whatever order, and whatever the values of the constants: each
    [clearEvents] the controller calls is followed at once by
    [setRecordingState(True)], and the calls never end on
    [clearEvents]. *)
Theorem events_cleared_only_to_start_recording :
  forall (tracker_given : bool) (values : list Z),
    clears_before_start (ec_calls (set_all values (init tracker_given))) = true /\
    ends_with_clear (ec_calls (set_all values (init tracker_given))) = false.
Proof.
  intros tracker_given values. unfold Eyetracker.set_all.
  assert (H0 : clears_before_start (ec_calls (init tracker_given)) = true /\
               ends_with_clear (ec_calls (init tracker_given)) = false).
  { destruct tracker_given; split; reflexivity. }
  revert H0. generalize (init tracker_given).
  induction values as [ | v values IH ]; intros s0 H0.
  - exact H0.
  - cbn [fold_left]. apply IH. destruct H0 as [ Hc He ].
    apply set_status_clears; assumption.
Qed.

End ControlFacts.

(** The constants as [psychopy.constants] has them in the releases of
    the library: STARTED 1, NOT_STARTED 0, PAUSED 2, STOPPED and FINISHED
    both -1. *)
Lemma tracker_records_iff_started_witness :
  (Eyetracker.ec_status (Eyetracker.set_all 1 0 2 (-1) (-1) [1; 2; 1; -1; 1; 0]
                (Eyetracker.init 0 false)) = 1 ->
   Eyetracker.last_recording
     (Eyetracker.ec_calls (Eyetracker.set_all 1 0 2 (-1) (-1) [1; 2; 1; -1; 1; 0]
                  (Eyetracker.init 0 false))) = Some true) /\
  (Eyetracker.ec_status (Eyetracker.set_all 1 0 2 (-1) (-1) [1; 2; 1; -1; 1; 0]
                (Eyetracker.init 0 false)) <> 1 ->
   Eyetracker.last_recording
     (Eyetracker.ec_calls (Eyetracker.set_all 1 0 2 (-1) (-1) [1; 2; 1; -1; 1; 0]
                  (Eyetracker.init 0 false))) = Some false \/
   (Eyetracker.last_recording
      (Eyetracker.ec_calls (Eyetracker.set_all 1 0 2 (-1) (-1) [1; 2; 1; -1; 1; 0]
                   (Eyetracker.init 0 false))) = None /\
    Eyetracker.ec_status (Eyetracker.set_all 1 0 2 (-1) (-1) [1; 2; 1; -1; 1; 0]
                 (Eyetracker.init 0 false)) = 0)).
Proof.
  apply (tracker_records_iff_started 1 0 2 (-1) (-1) false [1; 2; 1; -1; 1; 0]);
    reflexivity.
Defined.

(** ** More on the reader *)

Section ReaderMore.
Context {F : Type} {PF : PyFloat F} {H : Type} {MP : MediaPlayer F H}.

Lemma publish_grows : forall st (sd : StreamData F) q q',
  published st sd ->
  publish sd q = Some q' -> queue_grows_by_at_most_one st q q'.
Proof.
  intros st sd q q' Hsd E. unfold publish in E.
  destruct (Queue.full q) eqn:Hq; cbn [negb] in E.
  - left. injection E as <-. reflexivity.
  - right. split; [ exact Hq | ]. rewrite (put_not_full sd q Hq) in E.
    injection E as <-. exists sd. split; [ exact Hsd | reflexivity ].
Qed.

Lemma run_playing_queue : forall fuel (t : MovieStreamThread F) (h : H),
  match run_playing fuel t h with
  | Ret _ (t', _) | Raise _ (t', _) =>
      queue_grows_by_at_most_one (t_statusFlag t) (t_frameQueue t)
        (t_frameQueue t')
  | Hang =>
      pull_frame fuel (if get_pause h then set_pause false h else h) = None
  end.
Proof.
  intros fuel t h. unfold run_playing.
  destruct (pull_frame fuel (if get_pause h then set_pause false h else h))
    as [ [ [ [ img pts ] val ] h1 ] | ]; [ | reflexivity ].
  destruct (frame_rate (get_metadata h1)) as [ numer denom ].
  destruct (denom =? 0); [ left; reflexivity | ].
  destruct (poll_interval numer denom) as [ e | i ]; [ left; reflexivity | ].
  cbn [t_frameQueue with_streamTime with_frameInterval with_isReadyEvent
       t_statusFlag t_streamTime].
  match goal with
  | |- context [ publish ?sd ?q ] =>
      destruct (publish_returns sd q) as [ q' Hq' ]; rewrite Hq';
      assert (Hg : queue_grows_by_at_most_one (t_statusFlag t) q q')
        by (apply (publish_grows _ sd); [ do 3 eexists; reflexivity | exact Hq' ])
  end.
  destruct (val_is val "eof"); exact Hg.
Qed.

Lemma stop_check_queue : forall t : MovieStreamThread F,
  t_frameQueue (stop_check t) = t_frameQueue t.
Proof.
  intros t. unfold stop_check.
  destruct (t_stopSignal t || Status_eqb (t_statusFlag t) STOPPING); reflexivity.
Qed.

Lemma observe_queue : forall t : MovieStreamThread F,
  t_frameQueue (observe t) = t_frameQueue t.
Proof. intros t. unfold observe. destruct (t_isPlaying t); reflexivity. Qed.

Lemma run_body_queue : forall fuel (t : MovieStreamThread F) (h : H),
  match run_body fuel t h with
  | Ret _ (t', _) | Raise _ (t', _) =>
      queue_grows_by_at_most_one PLAYING (t_frameQueue t) (t_frameQueue t')
  | Hang =>
      pull_frame fuel (if get_pause h then set_pause false h else h) = None
  end.
Proof.
  intros fuel t h. unfold run_body.
  destruct (Status_eqb (t_statusFlag t) NOT_STARTED); [ left; reflexivity | ].
  destruct (Status_eqb (t_statusFlag (observe t)) PLAYING) eqn:Hpl.
  - pose proof (run_playing_queue fuel (observe t) h) as Hq.
    rewrite observe_queue in Hq.
    assert (Hfl : t_statusFlag (observe t) = PLAYING)
      by (destruct (t_statusFlag (observe t)); try discriminate Hpl; reflexivity).
    rewrite Hfl in Hq.
    destruct (run_playing fuel (observe t) h) as [ [ | ] [ t' h' ] | e [ t' h' ] | ].
    + rewrite stop_check_queue. exact Hq.
    + exact Hq.
    + exact Hq.
    + exact Hq.
  - destruct (Status_eqb (t_statusFlag (observe t)) PAUSED); cbn;
      rewrite stop_check_queue, observe_queue; left; reflexivity.
Qed.

Lemma thread_step_queue : forall fuel (t t' : MovieStreamThread F) (h h' : H),
  thread_step fuel t h = Some (t', h') ->
  queue_grows_by_at_most_one PLAYING (t_frameQueue t) (t_frameQueue t').
Proof.
  intros fuel t t' h h' E. unfold thread_step in E.
  destruct (t_phase t).
  - injection E as <- _. left. reflexivity.
  - injection E as <- _. left. reflexivity.
  - destruct (Status_eqb (t_statusFlag t) STOPPED).
    + injection E as <- _. left. reflexivity.
    + pose proof (run_body_queue fuel t h) as Hq.
      destruct (run_body fuel t h) as [ [ ] [ t1 h1 ] | e [ t1 h1 ] | ].
      * injection E as <- _. exact Hq.
      * injection E as <- _. exact Hq.
      * discriminate E.
  - injection E as <- _. left. reflexivity.
Qed.

(** X3. A step of the reader leaves the capacity of the queue as it
    is and adds at most one entry, at the end, and only when the queue
    was not full; the consumer's [getRecentFrame] takes entries away.
    So a queue of positive capacity that holds no more entries than its
    capacity never does, whoever moves. *)
Theorem queue_never_over_capacity :
  forall fuel (t t' : MovieStreamThread F) (h h' : H),
    0 < Queue.maxsize (t_frameQueue t) ->
    Queue.qsize (t_frameQueue t) <= Queue.maxsize (t_frameQueue t) ->
    (thread_step fuel t h = Some (t', h') ->
     Queue.maxsize (t_frameQueue t') = Queue.maxsize (t_frameQueue t) /\
     Queue.qsize (t_frameQueue t') <= Queue.maxsize (t_frameQueue t)) /\
    (Queue.maxsize (t_frameQueue (snd (getRecentFrame t)))
     = Queue.maxsize (t_frameQueue t) /\
     Queue.qsize (t_frameQueue (snd (getRecentFrame t)))
     <= Queue.qsize (t_frameQueue t)).
Proof.
  intros fuel t t' h h' Hpos Hle. split.
  - intro E. destruct (thread_step_queue fuel t t' h h' E)
      as [ -> | [ Hnf [ sd [ _ -> ] ] ] ]; [ split; [ reflexivity | exact Hle ] | ].
    split; [ reflexivity | ].
    unfold Queue.full in Hnf. apply andb_false_iff in Hnf as [ Hnf | Hnf ].
    + apply Z.ltb_ge in Hnf. lia.
    + apply Z.leb_gt in Hnf. unfold Queue.qsize in *. cbn [Queue.items].
      rewrite length_app. cbn [List.length]. lia.
  - unfold getRecentFrame, Queue.empty, Queue.get_nowait, Queue.qsize.
    destruct (Queue.items (t_frameQueue t)) as [ | x rest ] eqn:Ei; cbn.
    + rewrite Ei. split; [ reflexivity | cbn; lia ].
    + split; [ reflexivity | lia ].
Qed.

(** X4. The reader waits for the decoder only: a step that does not
    end is a pass of a playing reader (the thread is running, the play
    flag is set) in which the pull of lines 257-263 gets no usable frame;
    the queue never makes the reader wait. *)
Theorem reader_waits_for_decoder_only :
  forall fuel (t : MovieStreamThread F) (h : H),
    thread_step fuel t h = None ->
    t_phase t = Running /\
    t_isPlaying t = true /\
    pull_frame fuel (if get_pause h then set_pause false h else h) = None.
Proof.
  intros fuel t h E. unfold thread_step in E.
  destruct (t_phase t); try discriminate E.
  destruct (Status_eqb (t_statusFlag t) STOPPED); [ discriminate E | ].
  split; [ reflexivity | ].
  unfold run_body in E.
  destruct (Status_eqb (t_statusFlag t) NOT_STARTED); [ discriminate E | ].
  unfold observe in E.
  destruct (t_isPlaying t) eqn:Hp; cbn [t_statusFlag with_statusFlag Status_eqb] in E;
    [ | discriminate E ].
  split; [ reflexivity | ].
  pose proof (run_playing_queue fuel (with_statusFlag PLAYING t) h) as Hq.
  destruct (run_playing fuel (with_statusFlag PLAYING t) h)
    as [ [ | ] [ t1 h1 ] | e [ t1 h1 ] | ]; try discriminate E.
  exact Hq.
Qed.

(** The entry the reader publishes for a frame it pulled, and the status
    flag at the end of the pass. *)
Lemma run_body_publishes : forall fuel (t : MovieStreamThread F) (h : H)
    img pts val h1 numer denom i,
  Status_eqb (t_statusFlag t) NOT_STARTED = false ->
  t_isPlaying t = true ->
  Queue.full (t_frameQueue t) = false ->
  pull_frame fuel (if get_pause h then set_pause false h else h)
  = Some ((img, pts), val, h1) ->
  frame_rate (get_metadata h1) = (numer, denom) ->
  denom <> 0 ->
  poll_interval numer denom = inr i ->
  exists t',
    run_body fuel t h = Ret tt (t', h1) /\
    Queue.items (t_frameQueue t')
    = Queue.items (t_frameQueue t)
      ++ [mkStreamData (VDict (get_metadata h1)) (VImage img)
            (VStreamStatus (mkStreamStatus PLAYING pts (f_lit 0 1) 0))
            "ffpyplayer"] /\
    t_streamTime t' = pts /\
    t_frameInterval t' = i /\
    t_isReadyEvent t' = true /\
    t_statusFlag t'
    = (if t_stopSignal t || val_is val "eof" then STOPPED else PLAYING).
Proof.
  intros fuel t h img pts val h1 numer denom i Hns Hplay Hroom Hpull Hrate
    Hden Hint.
  unfold run_body. rewrite Hns. unfold observe. rewrite Hplay.
  cbn [t_statusFlag with_statusFlag Status_eqb].
  unfold run_playing. rewrite Hpull, Hrate.
  apply Z.eqb_neq in Hden. rewrite Hden, Hint.
  cbn [t_frameQueue t_statusFlag t_streamTime with_streamTime
       with_frameInterval with_isReadyEvent with_statusFlag].
  unfold publish. rewrite Hroom. cbn [negb]. rewrite (put_not_full _ _ Hroom).
  eexists. split; [ reflexivity | ].
  unfold stop_check.
  destruct t as [ q st tm rd pl sm sig ph fi js fl ]; cbn.
  destruct (val_is val "eof"); cbn; destruct sig; cbn; repeat split; reflexivity.
Qed.

End ReaderMore.

Section ReaderLife.
Context {F : Type} {PF : PyFloat F} {H : Type} {MP : MediaPlayer F H}.

(** X5. From the producer to the consumer: when a running, playing
    reader with an empty queue pulls a frame and the frame rate is known,
    the step returns and the next [getRecentFrame] gives the entry of
    that frame (its picture, the metadata of the decoder, the status
    PLAYING, the presentation time of the frame as stream time, no
    recording) and leaves the queue empty again. *)
Theorem frame_reaches_consumer :
  forall fuel (t : MovieStreamThread F) (h : H) img pts val h1 numer denom i,
    t_phase t = Running ->
    Status_eqb (t_statusFlag t) NOT_STARTED = false ->
    Status_eqb (t_statusFlag t) STOPPED = false ->
    t_isPlaying t = true ->
    Queue.items (t_frameQueue t) = [] ->
    pull_frame fuel (if get_pause h then set_pause false h else h)
    = Some ((img, pts), val, h1) ->
    frame_rate (get_metadata h1) = (numer, denom) ->
    denom <> 0 ->
    poll_interval numer denom = inr i ->
    exists t',
      thread_step fuel t h = Some (t', h1) /\
      fst (getRecentFrame t') = Some (entry_of_frame (get_metadata h1) img pts) /\
      Queue.items (t_frameQueue (snd (getRecentFrame t'))) = [].
Proof.
  intros fuel t h img pts val h1 numer denom i Hph Hns Hst Hplay Hemp Hpull
    Hrate Hden Hint.
  assert (Hroom : Queue.full (t_frameQueue t) = false).
  { unfold Queue.full, Queue.qsize. rewrite Hemp. cbn [List.length Z.of_nat].
    destruct (Z.ltb_spec 0 (Queue.maxsize (t_frameQueue t))); cbn [andb];
      [ apply Z.leb_gt; assumption | reflexivity ]. }
  destruct (run_body_publishes fuel t h img pts val h1 numer denom i Hns Hplay
              Hroom Hpull Hrate Hden Hint) as [ t' [ Hb [ Hi _ ] ] ].
  exists t'. unfold thread_step. rewrite Hph, Hst, Hb.
  split; [ reflexivity | ].
  rewrite Hemp in Hi. cbn [app] in Hi.
  unfold getRecentFrame, Queue.empty, Queue.get_nowait. rewrite Hi.
  split; reflexivity.
Qed.

Lemma stop_check_ready : forall t : MovieStreamThread F,
  t_isReadyEvent (stop_check t) = t_isReadyEvent t.
Proof.
  intros t. unfold stop_check.
  destruct (t_stopSignal t || Status_eqb (t_statusFlag t) STOPPING); reflexivity.
Qed.

Lemma run_playing_ready : forall fuel (t : MovieStreamThread F) (h : H),
  match run_playing fuel t h with
  | Ret _ (t', _) | Raise _ (t', _) => t_isReadyEvent t' = true
  | Hang => True
  end.
Proof.
  intros fuel t h. unfold run_playing.
  destruct (pull_frame fuel (if get_pause h then set_pause false h else h))
    as [ [ [ [ img pts ] val ] h1 ] | ]; [ | exact Logic.I ].
  destruct (frame_rate (get_metadata h1)) as [ numer denom ].
  destruct (denom =? 0); [ reflexivity | ].
  destruct (poll_interval numer denom) as [ e | i ]; [ reflexivity | ].
  match goal with
  | |- context [ publish ?sd ?q ] =>
      destruct (publish_returns sd q) as [ q' Hq' ]; rewrite Hq'
  end.
  destruct (val_is val "eof"); reflexivity.
Qed.

(** X6. The life of the ready flag.  A step of a running reader whose
    loop is over (status flag STOPPED) ends the thread with the flag
    cleared.  Otherwise the step keeps a flag that is set, and a pass of
    a playing reader that comes back has set it, whether the frame was
    published, skipped or the pass raised. *)
Theorem ready_flag_lifetime :
  forall fuel (t t' : MovieStreamThread F) (h h' : H),
    t_phase t = Running ->
    thread_step fuel t h = Some (t', h') ->
    (Status_eqb (t_statusFlag t) STOPPED = true ->
     t_phase t' = Exited /\ isReady t' = false /\ t_isStreamingEvent t' = false) /\
    (Status_eqb (t_statusFlag t) STOPPED = false ->
     (isReady t = true -> isReady t' = true) /\
     (Status_eqb (t_statusFlag t) NOT_STARTED = false ->
      t_isPlaying t = true -> isReady t' = true)).
Proof.
  intros fuel t t' h h' Hph E. unfold thread_step in E. rewrite Hph in E.
  unfold isReady.
  destruct (Status_eqb (t_statusFlag t) STOPPED) eqn:Hst.
  - injection E as <- _. split; [ | discriminate ].
    intros _. repeat split.
  - split; [ discriminate | ]. intros _.
    unfold run_body in E.
    destruct (Status_eqb (t_statusFlag t) NOT_STARTED) eqn:Hns.
    + injection E as <- _. split; [ intro Hr; exact Hr | discriminate ].
    + unfold observe in E. destruct (t_isPlaying t) eqn:Hp;
        cbn [t_statusFlag with_statusFlag Status_eqb] in E.
      * pose proof (run_playing_ready fuel (with_statusFlag PLAYING t) h) as Hr.
        destruct (run_playing fuel (with_statusFlag PLAYING t) h)
          as [ [ | ] [ t1 h1 ] | e [ t1 h1 ] | ]; try discriminate E;
          injection E as <- _; rewrite ?stop_check_ready;
          split; intros; exact Hr.
      * cbn in E. injection E as <- _. rewrite stop_check_ready.
        split; [ intro Hr; exact Hr | discriminate ].
Qed.

Lemma pull_frame_stays : forall (P : H -> Prop),
  (forall h, P h -> P (snd (get_frame h))) ->
  forall fuel h fd val h1,
    P h -> pull_frame fuel h = Some (fd, val, h1) -> P h1.
Proof.
  intros P Hg fuel. induction fuel as [ | fuel IH ]; intros h fd val h1 Hh E.
  - discriminate E.
  - cbn [pull_frame] in E. specialize (Hg h Hh).
    destruct (get_frame h) as [ [ frameData v ] h' ]. cbn [snd] in Hg.
    destruct frameData as [ fd' | ].
    + destruct (val_is v "not ready").
      * eapply IH; [ exact Hg | exact E ].
      * injection E; intros; subst; exact Hg.
    + eapply IH; [ exact Hg | exact E ].
Qed.

(** X7. While the metadata of the decoder keeps the denominator 0 of
    the frame rate, a running, playing reader never comes to its end,
    stop signal or not: each pass leaves by [continue] before the test
    of the stop signal, so that [join], and with it [stop] of the
    player, does not return however long it waits. *)
Theorem reader_ignores_shutdown_while_rate_unknown :
  forall (P : H -> Prop),
    (forall h, P h -> P (set_pause false h)) ->
    (forall h, P h -> P (snd (get_frame h))) ->
    (forall h, P h -> snd (frame_rate (get_metadata h)) = 0) ->
    forall steps fuel (t : MovieStreamThread F) (h : H),
      P h ->
      t_phase t = Running ->
      t_statusFlag t = PLAYING ->
      t_isPlaying t = true ->
      Thread_join steps fuel (MovieStreamThread_shutdown t) h = None.
Proof.
  intros P Hp Hg Hz steps fuel t h Hh Hph Hfl Hpl.
  assert (G : forall steps (t : MovieStreamThread F) h,
             P h -> t_phase t = Running -> t_statusFlag t = PLAYING ->
             t_isPlaying t = true -> Thread_join steps fuel t h = None).
  { intros steps0.
    induction steps0 as [ | n IH ]; intros t0 h0 Hh0 Hph0 Hfl0 Hpl0.
    - cbn [Thread_join]. rewrite Hph0. reflexivity.
    - destruct (thread_step fuel t0 h0) as [ [ t1 h1 ] | ] eqn:Es.
      + assert (Hne : t_phase t0 <> Exited) by (rewrite Hph0; discriminate).
        rewrite (Thread_join_step n fuel t0 t1 h0 h1 Hne Es).
        unfold thread_step in Es. rewrite Hph0, Hfl0 in Es.
        cbn [Status_eqb] in Es. unfold run_body in Es. rewrite Hfl0 in Es.
        cbn [Status_eqb] in Es. unfold observe in Es. rewrite Hpl0 in Es.
        cbn [t_statusFlag with_statusFlag Status_eqb] in Es.
        unfold run_playing in Es.
        set (hu := if get_pause h0 then set_pause false h0 else h0) in Es.
        assert (Hhu : P hu).
        { unfold hu. destruct (get_pause h0); [ apply Hp | ]; exact Hh0. }
        destruct (pull_frame fuel hu) as [ [ [ fd val ] h2 ] | ] eqn:Ep;
          [ | discriminate Es ].
        pose proof (pull_frame_stays P Hg fuel hu fd val h2 Hhu Ep) as Hh2.
        pose proof (Hz h2 Hh2) as Hd.
        destruct (frame_rate (get_metadata h2)) as [ numer denom ].
        cbn [snd] in Hd. subst denom. cbn [Z.eqb] in Es.
        injection Es as <- <-.
        apply IH; [ exact Hh2 | exact Hph0 | reflexivity | exact Hpl0 ].
      + cbn [Thread_join]. rewrite Hph0, Es. reflexivity. }
  apply G; assumption.
Qed.

Lemma pull_frame_no_frame : forall (P : H -> Prop),
  (forall h, P h -> fst (fst (get_frame h)) = None /\ P (snd (get_frame h))) ->
  forall fuel h, P h -> pull_frame fuel h = None.
Proof.
  intros P Hg fuel. induction fuel as [ | fuel IH ]; intros h Hh.
  - reflexivity.
  - cbn [pull_frame]. destruct (Hg h Hh) as [ Hn Hs ].
    destruct (get_frame h) as [ [ frameData v ] h' ]. cbn [fst snd] in Hn, Hs.
    subst frameData. apply IH. exact Hs.
Qed.

(** X8. As long as the decoder answers without a frame, whatever the
    status string of the answer, ['eof'] included, a running, playing
    reader stays in the pull of lines 257-263: no step ends, the test of
    ['eof'] at line 298 is not reached, and [join] does not return. *)
Theorem reader_never_leaves_pull_without_frame :
  forall (P : H -> Prop),
    (forall h, P h -> P (set_pause false h)) ->
    (forall h, P h -> fst (fst (get_frame h)) = None /\ P (snd (get_frame h))) ->
    forall steps fuel (t : MovieStreamThread F) (h : H),
      P h ->
      t_phase t = Running ->
      t_statusFlag t = PLAYING ->
      t_isPlaying t = true ->
      thread_step fuel t h = None /\
      Thread_join steps fuel (MovieStreamThread_shutdown t) h = None.
Proof.
  intros P Hp Hg steps fuel t h Hh Hph Hfl Hpl.
  assert (G : forall t0 : MovieStreamThread F,
             t_phase t0 = Running -> t_statusFlag t0 = PLAYING ->
             t_isPlaying t0 = true -> thread_step fuel t0 h = None).
  { intros t0 Hph0 Hfl0 Hpl0. unfold thread_step. rewrite Hph0, Hfl0.
    cbn [Status_eqb]. unfold run_body. rewrite Hfl0. cbn [Status_eqb].
    unfold observe. rewrite Hpl0.
    cbn [t_statusFlag with_statusFlag Status_eqb]. unfold run_playing.
    rewrite (pull_frame_no_frame P Hg fuel); [ reflexivity | ].
    destruct (get_pause h); [ apply Hp | ]; exact Hh. }
  split; [ apply G; assumption | ].
  destruct steps as [ | n ]; cbn [Thread_join];
    cbn [t_phase MovieStreamThread_shutdown with_stopSignal];
    rewrite Hph; [ reflexivity | ].
  rewrite G; [ reflexivity | exact Hph | exact Hfl | exact Hpl ].
Qed.

End ReaderLife.

(** A reader that publishes: the running, playing reader of the examples
    on the slow clip. *)
Lemma queue_never_over_capacity_witness :
  exists t' h',
    thread_step (MP := Demo.player64) 5 Demo.playing_reader Demo.slow64
    = Some (t', h') /\
    Queue.maxsize (t_frameQueue t') = 1 /\
    Queue.qsize (t_frameQueue t') <= 1.
Proof.
  eexists. eexists.
  assert (E : thread_step (MP := Demo.player64) 5 Demo.playing_reader Demo.slow64
              = Some (with_frameQueue
                        (Queue.mk 1 [demo_entry])
                        (with_streamTime 0%float
                           (with_frameInterval 1%float
                              (with_isReadyEvent true Demo.playing_reader))),
                      snd (sim_get_frame Demo.slow64)))
    by (vm_compute; reflexivity).
  split; [ exact E | ].
  exact (proj1 (queue_never_over_capacity (MP := Demo.player64) 5%nat
                  Demo.playing_reader _ Demo.slow64 _
                  ltac:(reflexivity) ltac:(discriminate)) E).
Defined.

(** A reader on a stream that has ended. *)
Lemma reader_waits_for_decoder_only_witness :
  thread_step (MP := Demo2.tapes64) 5 Demo.playing_reader Demo2.ended64 = None /\
  t_phase Demo.playing_reader = Running /\
  t_isPlaying Demo.playing_reader = true /\
  pull_frame (MP := Demo2.tapes64) 5 Demo2.ended64 = None.
Proof.
  assert (E : thread_step (MP := Demo2.tapes64) 5 Demo.playing_reader
                Demo2.ended64 = None) by (vm_compute; reflexivity).
  split; [ exact E | ].
  exact (reader_waits_for_decoder_only (MP := Demo2.tapes64) 5%nat
           Demo.playing_reader Demo2.ended64 E).
Defined.

Lemma frame_reaches_consumer_witness :
  exists t' : MovieStreamThread float,
    thread_step (MP := Demo.player64) 5 Demo.playing_reader Demo.slow64
    = Some (t', snd (sim_get_frame Demo.slow64)) /\
    fst (getRecentFrame t')
    = Some (entry_of_frame (sim_meta Demo.slow64) (picture 0) 0%float) /\
    Queue.items (t_frameQueue (snd (getRecentFrame t'))) = [].
Proof.
  apply (frame_reaches_consumer (MP := Demo.player64) 5%nat Demo.playing_reader
           Demo.slow64 (picture 0) 0%float (val_delay 0%float)
           (snd (sim_get_frame Demo.slow64)) 1 1 1%float);
    try reflexivity; try discriminate; vm_compute; reflexivity.
Defined.

Lemma ready_flag_lifetime_witness :
  exists t' h',
    thread_step (MP := Demo.player64) 5 Demo.playing_reader Demo.slow64
    = Some (t', h') /\
    isReady Demo.playing_reader = false /\
    isReady t' = true.
Proof.
  eexists. eexists.
  assert (E : thread_step (MP := Demo.player64) 5 Demo.playing_reader Demo.slow64
              = Some (with_frameQueue
                        (Queue.mk 1 [demo_entry])
                        (with_streamTime 0%float
                           (with_frameInterval 1%float
                              (with_isReadyEvent true Demo.playing_reader))),
                      snd (sim_get_frame Demo.slow64)))
    by (vm_compute; reflexivity).
  split; [ exact E | ]. split; [ reflexivity | ].
  exact (proj2 (proj2 (ready_flag_lifetime (MP := Demo.player64) 5%nat
                         Demo.playing_reader _ Demo.slow64 _ eq_refl E)
                  eq_refl) eq_refl eq_refl).
Defined.

(** A stream that does not know its frame rate: the reader told to shut
    down is still running after seven steps of waiting. *)
Lemma reader_ignores_shutdown_witness :
  Thread_join (MP := Demo.player64) 7 5
    (MovieStreamThread_shutdown Demo.playing_reader) Demo.raw64 = None.
Proof.
  apply (reader_ignores_shutdown_while_rate_unknown (MP := Demo.player64)
           (fun h => snd (frame_rate (sim_meta h)) = 0)).
  - intros h Hh. exact Hh.
  - intros h Hh. cbn [get_frame Demo.player64 SimMediaPlayer].
    unfold sim_get_frame. destruct (sim_pause h); [ exact Hh | ].
    destruct (nth_error (sim_frames h) (sim_pos h)) as [ [ img t ] | ]; exact Hh.
  - intros h Hh. exact Hh.
  - reflexivity.
  - reflexivity.
  - reflexivity.
  - reflexivity.
Defined.

(** A stream that has ended: no step of the reader ends. *)
Lemma reader_never_leaves_pull_witness :
  thread_step (MP := Demo2.tapes64) 5 Demo.playing_reader Demo2.ended64 = None /\
  Thread_join (MP := Demo2.tapes64) 7 5
    (MovieStreamThread_shutdown Demo.playing_reader) Demo2.ended64 = None.
Proof.
  apply (reader_never_leaves_pull_without_frame (MP := Demo2.tapes64)
           (fun h => tape h = [])).
  - intros h Hh. exact Hh.
  - intros h Hh. cbn [get_frame Demo2.tapes64 TapeMediaPlayer].
    unfold tape_get_frame. rewrite Hh. split; [ reflexivity | exact Hh ].
  - reflexivity.
  - reflexivity.
  - reflexivity.
  - reflexivity.
Defined.

(** ** The play flag, as the loop reads it *)

Section FlagFacts.
Context {F : Type} {PF : PyFloat F} {H : Type} {MP : MediaPlayer F H}.







End FlagFacts.



(** ** Stopping: when the reader comes to its end, and when it does not *)

Section StoppingFacts.
Context {F : Type} {PF : PyFloat F} {H : Type} {MP : MediaPlayer F H}
        {MD : MetadataProps F}.








End StoppingFacts.




(** ** A frame rate with numerator 0 *)

Lemma finite_cases : forall x : float,
  Binary64.is_finite x = true ->
  (exists s, Prim2SF x = S754_zero s) \/ (exists s m e, Prim2SF x = S754_finite s m e).
Proof.
  intros x Hf. unfold Binary64.is_finite in Hf.
  destruct (Prim2SF x) as [ s | s | | s m e ]; try discriminate Hf.
  - left. exists s. reflexivity.
  - right. exists s, m, e. reflexivity.
Qed.

(** In binary64, [0 / x] is a zero for every finite [x] that is not. *)
Lemma zero_div_finite : forall x : float,
  Binary64.is_finite x = true ->
  PrimFloat.eqb x PrimFloat.zero = false ->
  PrimFloat.eqb (PrimFloat.div PrimFloat.zero x) PrimFloat.zero = true.
Proof.
  intros x Hf Hnz.
  rewrite FloatAxioms.eqb_spec in Hnz. rewrite FloatAxioms.eqb_spec.
  rewrite FloatAxioms.div_spec.
  destruct (finite_cases x Hf) as [ [ s E ] | [ s [ m [ e E ] ] ] ]; rewrite E in *.
  - destruct s; discriminate Hnz.
  - destruct s; reflexivity.
Qed.

Section ZeroNumerator.
Context {H : Type} {MP : MediaPlayer float H}.

(** X9. In binary64, a frame rate with numerator 0 gives no polling
    interval: [1.0 / (0 / float(denom))] raises [ZeroDivisionError] (or
    [OverflowError], if [denom] is too large for a float).  So a running,
    playing reader that pulls a frame of such a stream, the denominator
    not being 0, dies of the exception: the thread is over with the
    frame not published, and the ready flag, which the last lines of
    [run] would have cleared, is left set. *)
Theorem zero_numerator_ends_reader :
  forall denom : Z,
    (poll_interval (F := float) 0 denom = inl ZeroDivisionError \/
     poll_interval (F := float) 0 denom = inl OverflowError) /\
    (forall fuel (t : MovieStreamThread float) (h : H) fd val h1,
        denom <> 0 ->
        t_phase t = Running ->
        Status_eqb (t_statusFlag t) NOT_STARTED = false ->
        Status_eqb (t_statusFlag t) STOPPED = false ->
        t_isPlaying t = true ->
        pull_frame fuel (if get_pause h then set_pause false h else h)
        = Some (fd, val, h1) ->
        frame_rate (get_metadata h1) = (0, denom) ->
        exists t',
          thread_step fuel t h = Some (t', h1) /\
          t_phase t' = Exited /\
          t_frameQueue t' = t_frameQueue t /\
          isReady t' = true).
Proof.
  intros denom.
  assert (P : poll_interval (F := float) 0 denom = inl ZeroDivisionError \/
              poll_interval (F := float) 0 denom = inl OverflowError).
  { unfold poll_interval. cbn [f_of_int f_div f_lit PyFloat_binary64].
    destruct (Binary64.of_int denom) as [ d | ] eqn:Hd; [ | right; reflexivity ].
    assert (Hf : Binary64.is_finite d = true).
    { unfold Binary64.of_int in Hd.
      destruct (Binary64.is_finite (Binary64.round_Z denom)) eqn:Hf;
        [ | discriminate Hd ].
      injection Hd as <-. exact Hf. }
    change (Binary64.of_int 0) with (Some PrimFloat.zero).
    unfold Binary64.div at 1.
    destruct (PrimFloat.eqb d PrimFloat.zero) eqn:Hz; [ left; reflexivity | ].
    unfold Binary64.div. rewrite (zero_div_finite _ Hf Hz). left. reflexivity. }
  split; [ exact P | ].
  intros fuel t h fd val h1 Hden Hph Hns Hst Hplay Hpull Hrate.
  exists (with_phase Exited (with_isReadyEvent true (with_statusFlag PLAYING t))).
  unfold thread_step. rewrite Hph, Hst.
  unfold run_body. rewrite Hns. unfold observe. rewrite Hplay.
  cbn [t_statusFlag with_statusFlag Status_eqb].
  unfold run_playing. rewrite Hpull, Hrate.
  apply Z.eqb_neq in Hden. rewrite Hden.
  destruct P as [ -> | -> ]; repeat split.
Qed.

End ZeroNumerator.

(** A stream whose frame rate is 0/1. *)
Lemma zero_numerator_ends_reader_witness :
  poll_interval (F := float) 0 1 = inl ZeroDivisionError /\
  exists t' : MovieStreamThread float,
    thread_step (MP := Demo2.tapes64) 5 Demo.playing_reader Demo2.still64
    = Some (t', snd (tape_get_frame Demo2.still64)) /\
    t_phase t' = Exited /\
    t_frameQueue t' = t_frameQueue Demo.playing_reader /\
    isReady t' = true.
Proof.
  destruct (zero_numerator_ends_reader (MP := Demo2.tapes64) 1) as [ _ B ].
  split; [ vm_compute; reflexivity | ].
  apply (B 5%nat Demo.playing_reader Demo2.still64 (picture 0, 0%float)
           (val_delay 0%float) (snd (tape_get_frame Demo2.still64)));
    try reflexivity; try discriminate; vm_compute; reflexivity.
Defined.

(** ** The entries of the queue *)

Section EntryFacts.
Context {F : Type} {PF : PyFloat F} {H : Type} {MP : MediaPlayer F H}.

(** X10. The entries of the queue are what the reader made of frames:
    if each entry of the queue is one, each entry is one after a step of
    the reader and after a [getRecentFrame].  For such an entry the
    property [cameraLib] raises [AttributeError], the metadata being the
    dictionary of the decoder and no [MovieMetadata], although the entry
    was built with the library name ['ffpyplayer']; and its status is
    PLAYING with no recording time and no recorded bytes. *)
Theorem queue_holds_published_entries :
  forall fuel (t t' : MovieStreamThread F) (h h' : H),
    Forall (published PLAYING) (Queue.items (t_frameQueue t)) ->
    (thread_step fuel t h = Some (t', h') ->
     Forall (published PLAYING) (Queue.items (t_frameQueue t'))) /\
    Forall (published PLAYING)
      (Queue.items (t_frameQueue (snd (getRecentFrame t)))) /\
    (forall sd, fst (getRecentFrame t) = Some sd ->
       StreamData_cameraLib sd = inl (AttributeError "movieLib") /\
       sd_cameraLib sd = "ffpyplayer"%string /\
       exists pts,
         sd_streamStatus sd
         = VStreamStatus (mkStreamStatus PLAYING pts (f_lit 0 1) 0)).
Proof.
  intros fuel t t' h h' Hall. split; [ | split ].
  - intro E. destruct (thread_step_queue fuel t t' h h' E)
      as [ -> | [ _ [ sd [ Hsd -> ] ] ] ]; [ exact Hall | ].
    cbn [Queue.items]. apply Forall_app. split; [ exact Hall | ].
    constructor; [ exact Hsd | constructor ].
  - unfold getRecentFrame, Queue.empty, Queue.get_nowait.
    destruct (Queue.items (t_frameQueue t)) as [ | x rest ] eqn:Ei; cbn.
    + rewrite Ei. constructor.
    + inversion Hall; assumption.
  - intros sd E. unfold getRecentFrame, Queue.empty, Queue.get_nowait in E.
    destruct (Queue.items (t_frameQueue t)) as [ | x rest ] eqn:Ei; cbn in E;
      [ discriminate E | ].
    injection E as <-. inversion Hall as [ | x' rest' Hx _ ]; subst.
    destruct Hx as [ md [ img [ pts -> ] ] ].
    repeat split. exists pts. reflexivity.
Qed.

End EntryFacts.

(** ** More on the player *)

Section PlayerMore.
Context {F : Type} {PF : PyFloat F} {H : Type} {MP : MediaPlayer F H}
        {MD : MetadataProps F}.

Lemma start_any : forall fuel (w : World F H) h',
  first_frame fuel
    (set_pause false (set_mute true (mp_open (p_filename (self w))))) = Some h' ->
  start fuel w = Ret tt (loaded_world w (p_filename (self w)) h').
Proof.
  intros fuel w h' Hff.
  unfold start, handle_do, thread_do, the_handle, the_thread, self_upd,
    record, get_self, bind, ret.
  cbn. rewrite Hff. cbn.
  unfold loaded_world. repeat rewrite <- app_assoc. reflexivity.
Qed.

Lemma unload_loaded : forall (w : World F H) h,
  p_handle (self w) = Some h ->
  unload w
  = Ret tt (mkWorld
              (with_handle None (with_frameIndex (-1) (with_filename "" (self w))))
              (clock w) (now w) (log w ++ [call_close_player])).
Proof.
  intros w h Hh.
  unfold unload, handle_do, the_handle, self_upd, record, bind.
  cbn. rewrite Hh. reflexivity.
Qed.

Lemma first_frame_no_frame : forall (P : H -> Prop),
  (forall h, P h -> fst (fst (get_frame h)) = None /\ P (snd (get_frame h))) ->
  forall fuel h, P h -> first_frame fuel h = None.
Proof.
  intros P Hg fuel. induction fuel as [ | fuel IH ]; intros h Hh.
  - reflexivity.
  - cbn [first_frame]. destruct (Hg h Hh) as [ Hn Hs ].
    destruct (get_frame h) as [ [ frame v ] h' ]. cbn [fst snd] in Hn, Hs.
    subst frame. apply IH. exact Hs.
Qed.

Lemma reload_waits : forall fuel (w : World F H) (pathToMovie : string) h,
  p_handle (self w) = Some h ->
  first_frame fuel (set_pause false (set_mute true (mp_open ""))) = None ->
  load fuel pathToMovie w = Hang.
Proof.
  intros fuel w path h Hh Hff.
  unfold load, unload, start, handle_do, thread_do, the_handle, the_thread,
    self_upd, record, get_self, bind, ret, hang.
  cbn. rewrite Hh. cbn. rewrite Hh. cbn. rewrite Hff. reflexivity.
Qed.

(** X11. [load] on a player that holds a decoder closes that decoder
    and opens the new one on the empty file name, whatever path it was
    given: [unload] blanks [_filename] after [load] has stored the path.
    What [load] does next depends on that decoder alone.  If it gives a
    first frame, [load] returns and the player is left with the empty
    file name.  If it gives none, and goes on giving none, as a decoder
    does to which the empty name is no movie, [load] does not return,
    however long it waits and however good the path it was given. *)
Theorem reload_opens_the_empty_name :
  forall (w : World F H) (pathToMovie : string) h,
    p_handle (self w) = Some h ->
    (forall fuel h',
        first_frame fuel (set_pause false (set_mute true (mp_open ""))) = Some h' ->
        exists w',
          load fuel pathToMovie w = Ret tt w' /\
          p_filename (self w') = ""%string /\
          p_handle (self w')
          = Some (set_mute false (seek (f_lit 0 1) false (set_pause true h'))) /\
          log w'
          = log w ++ [call_close_player; call_open ""; call_set_mute true;
                      call_set_pause false; call_set_pause true;
                      call_seek (f_lit 0 1) false; call_set_mute false;
                      call_thread_start]) /\
    (forall P : H -> Prop,
        (forall h0, P h0 ->
           fst (fst (get_frame h0)) = None /\ P (snd (get_frame h0))) ->
        P (set_pause false (set_mute true (mp_open ""))) ->
        forall fuel, load fuel pathToMovie w = Hang).
Proof.
  intros w path h Hh. split.
  - intros fuel h' Hff.
    unfold load, unload, start, handle_do, thread_do, the_handle, the_thread,
      self_upd, record, get_self, bind, ret.
    cbn. rewrite Hh. cbn. rewrite Hh. cbn. rewrite Hff. cbn.
    eexists. split; [ reflexivity | ]. cbn.
    repeat split. repeat rewrite <- app_assoc. reflexivity.
  - intros P Hg HP fuel. apply (reload_waits fuel w path h Hh).
    apply (first_frame_no_frame P Hg). exact HP.
Qed.

End PlayerMore.

Section PlayerMore2.
Context {F : Type} {PF : PyFloat F} {H : Type} {MP : MediaPlayer F H}
        {MD : MetadataProps F}.

Lemma replay_steps : forall fuel a (w w1 w2 w3 : World F H),
  stop fuel w = Ret tt w1 ->
  load fuel (p_filename (self w)) w1 = Ret tt w2 ->
  start fuel w2 = Ret tt w3 ->
  replay fuel a w = Ret tt w3.
Proof.
  intros fuel a w w1 w2 w3 E1 E2 E3. unfold replay.
  rewrite (bind_Ret get_self _ w (self w) w eq_refl).
  rewrite (bind_Ret _ _ _ _ _ E1). rewrite (bind_Ret _ _ _ _ _ E2). exact E3.
Qed.

(** X12. [replay] on a playing or loaded player whose reader comes to
    its end: the decoder in use is closed, then the file is opened twice,
    by [load] and by the [start] that follows it; the decoder [load]
    opened is replaced without being closed.  The flag [autoStart] is
    not read: the player is left NOT_STARTED. *)
Theorem replay_opens_the_file_twice :
  forall fuel (autoStart : bool) (w : World F H) h t t' hj h',
    p_handle (self w) = Some h ->
    p_tStream (self w) = Some t ->
    Thread_join fuel fuel (MovieStreamThread_shutdown t) h = Some (t', hj) ->
    first_frame fuel
      (set_pause false (set_mute true (mp_open (p_filename (self w))))) = Some h' ->
    exists w',
      replay fuel autoStart w = Ret tt w' /\
      log w'
      = log w
        ++ [call_thread_shutdown; call_thread_join; call_close_player]
        ++ [call_open (p_filename (self w)); call_set_mute true;
            call_set_pause false; call_set_pause true;
            call_seek (f_lit 0 1) false; call_set_mute false; call_thread_start]
        ++ [call_open (p_filename (self w)); call_set_mute true;
            call_set_pause false; call_set_pause true;
            call_seek (f_lit 0 1) false; call_set_mute false; call_thread_start] /\
      p_filename (self w') = p_filename (self w) /\
      p_status (self w') = NOT_STARTED.
Proof.
  intros fuel a w h t t' hj h' Hh Ht Hj Hff.
  set (f := p_filename (self w)) in *.
  set (w1 := stopped_world w).
  set (w2 := loaded_world w1 f h').
  exists (loaded_world w2 f h'). split.
  - apply (replay_steps fuel a w w1 w2).
    + eapply stop_opened; eassumption.
    + apply load_not_loaded; [ reflexivity | exact Hff ].
    + apply (start_any fuel w2 h'). exact Hff.
  - split; [ | split; reflexivity ].
    cbn [log loaded_world w2 w1 stopped_world].
    repeat rewrite <- app_assoc. reflexivity.
Qed.

(** X13. [pause] on a loaded player with a reader returns [False] and
    only clears the play flag of the reader: the status of the player is
    not written.  After [play(); pause()] the reader is told to pause
    while the player still answers [isPlaying] with [True]. *)
Theorem pause_leaves_the_status :
  forall (w : World F H) h t,
    p_handle (self w) = Some h ->
    p_tStream (self w) = Some t ->
    exists w1 w2,
      play w = Ret tt w1 /\
      pause w1 = Ret false w2 /\
      isPlaying (self w2) = true /\
      p_tStream (self w2) = Some (MovieStreamThread_pause t) /\
      p_handle (self w2) = Some h /\
      log w2 = log w ++ [call_thread_play; call_thread_pause].
Proof.
  intros w h t Hh Ht.
  destruct w as [ p c n l ]. destruct p. cbn in Hh, Ht. subst.
  eexists. eexists.
  split; [ reflexivity | ]. split; [ reflexivity | ].
  cbn. repeat split; try reflexivity.
  rewrite <- app_assoc. reflexivity.
Qed.

Lemma with_tStream_same : forall (p : FFPyPlayer F H) t,
  p_tStream p = Some t -> with_tStream (Some t) p = p.
Proof. intros [ ] t E. cbn in E. subst. reflexivity. Qed.

(** X14. [_enqueueFrame(blockUntilFrame=False)] on a loaded player.
    With an empty queue it returns [False] and changes nothing.  With an
    entry of the reader at the head of the queue whose picture has a
    plane, it returns [True]: the entry is taken off the queue, its
    stream time is stored, and [_lastFrame] is the frame made of the
    first plane, with the size of the picture, the metadata of the
    entry and the frame index of the player. *)
Theorem enqueueFrame_without_waiting :
  forall fuel (w : World F H) h t,
    p_handle (self w) = Some h ->
    p_tStream (self w) = Some t ->
    (Queue.items (t_frameQueue t) = [] ->
     _enqueueFrame fuel false w = Ret false w) /\
    (forall metadata img pts rest plane planes,
        Queue.items (t_frameQueue t)
        = entry_of_frame metadata img pts :: rest ->
        to_bytearray img = plane :: planes ->
        exists w',
          _enqueueFrame fuel false w = Ret true w' /\
          p_lastFrame (self w')
          = Some (mkMovieFrame (p_frameIndex (self w)) (f_lit 0 1) (get_size img)
                    plane 0 (VDict metadata) "ffpyplayer") /\
          p_streamTime (self w') = Some pts /\
          option_map (fun t' => Queue.items (t_frameQueue t')) (p_tStream (self w'))
          = Some rest).
Proof.
  intros fuel w h t Hh Ht.
  destruct w as [ p c n l ]. destruct p. cbn in Hh, Ht. subst. split.
  - intro Hemp. destruct t as [ q ? ? ? ? ? ? ? ? ? ? ]. destruct q as [ m its ].
    cbn in Hemp. subst. reflexivity.
  - intros metadata img pts rest plane planes Hq Himg.
    destruct t as [ q ? ? ? ? ? ? ? ? ? ? ]. destruct q as [ m its ].
    cbn in Hq. subst. destruct img as [ bs sz ]. cbn in Himg. subst.
    unfold entry_of_frame.
    eexists. split; [ vm_compute; reflexivity | ]. repeat split.
Qed.

(** X15. The timing conversions take a [float] and nothing else: on a
    loaded player, [movieToAbsTime] and [absToMovieTime] of any other
    value, an [int] included, raise [TypeError] before the clock is read,
    and change nothing. *)
Theorem timing_conversions_reject_non_floats :
  forall (w : World F H) h (v : value F),
    p_handle (self w) = Some h ->
    isinstance_float v = false ->
    movieToAbsTime v w = Raise (TypeError msg_movieTime_type) w /\
    absToMovieTime v w = Raise (TypeError msg_absTime_type) w.
Proof.
  intros w h v Hh Hv.
  unfold movieToAbsTime, absToMovieTime.
  rewrite !(bind_Ret _ _ _ _ _ (assert_loaded w h Hh)).
  destruct v; try discriminate Hv; split; reflexivity.
Qed.

End PlayerMore2.

(** ** The frame index *)

Section FrameIndexFacts.
Context {F : Type} {PF : PyFloat F} {H : Type} {MP : MediaPlayer F H}
        {MD : MetadataProps F}.

Local Abbreviation keeps_frame_inv := (keeps (F := F) (H := H) frame_inv).

Lemma frame_keeps_self_upd : forall f,
  (forall p, p_frameIndex (f p) = p_frameIndex p /\
             p_queuedFrame (f p) = p_queuedFrame p /\
             p_lastFrame (f p) = p_lastFrame p) ->
  keeps_frame_inv (self_upd f).
Proof.
  intros f Hf w [ Hi [ Hq Hl ] ]. unfold frame_inv. cbn.
  destruct (Hf (self w)) as [ -> [ -> -> ] ]. repeat split; assumption.
Qed.

Lemma frame_keeps_frameIndex : keeps_frame_inv (self_upd (with_frameIndex (-1))).
Proof.
  intros w [ Hi [ Hq Hl ] ]. unfold frame_inv. cbn. repeat split; assumption.
Qed.

Lemma frame_keeps_queuedFrame :
  keeps_frame_inv (self_upd (with_queuedFrame NULL_MOVIE_FRAME_INFO)).
Proof.
  intros w [ Hi [ Hq Hl ] ]. unfold frame_inv. cbn. repeat split; assumption.
Qed.

Lemma frame_keeps_record : forall c, keeps_frame_inv (record c).
Proof. intros c w Hw. exact Hw. Qed.

Lemma frame_keeps_getTime : keeps_frame_inv getTime.
Proof. intros w Hw. exact Hw. Qed.

Lemma frame_keeps_get_self : keeps_frame_inv get_self.
Proof. intros w Hw. exact Hw. Qed.

Lemma frame_keeps_pts : keeps_frame_inv pts.
Proof. intros w Hw. unfold pts. destruct (p_handle (self w)); exact Hw. Qed.

Lemma frame_keeps_the_handle : keeps_frame_inv the_handle.
Proof.
  intros w Hw. unfold the_handle. destruct (p_handle (self w)); exact Hw.
Qed.

Lemma frame_keeps_the_thread : keeps_frame_inv the_thread.
Proof.
  intros w Hw. unfold the_thread. destruct (p_tStream (self w)); exact Hw.
Qed.

Lemma frame_keeps_assert : keeps_frame_inv _assertMediaPlayer.
Proof.
  intros w Hw. unfold _assertMediaPlayer. destruct (p_handle (self w)); exact Hw.
Qed.

(** The frame [_enqueueFrame] caches carries the frame index of the
    player. *)
Lemma frame_keeps_cache : forall absTime size colorData metadata,
  keeps_frame_inv
    (bind get_self (fun p =>
       bind (self_upd (with_lastFrame
               (Some (mkMovieFrame (p_frameIndex p) absTime size colorData 0
                        metadata "ffpyplayer"))))
            (fun _ => ret true))).
Proof.
  intros absTime size colorData metadata w [ Hi [ Hq Hl ] ].
  unfold frame_inv. cbn. repeat split; try assumption.
  intros frame E. injection E as <-. exact Hi.
Qed.

Create HintDb frame_keeps.
#[local] Hint Resolve keeps_ret keeps_raise keeps_hang frame_keeps_record
  frame_keeps_getTime frame_keeps_get_self frame_keeps_pts
  frame_keeps_the_handle frame_keeps_the_thread frame_keeps_assert
  frame_keeps_frameIndex frame_keeps_queuedFrame frame_keeps_cache
  : frame_keeps.

Ltac keeps_frame :=
  repeat lazymatch goal with
    | |- keeps _ (bind get_self (fun p => bind (self_upd (with_lastFrame _)) _)) =>
        apply frame_keeps_cache
    | |- keeps _ (bind _ _) => apply keeps_bind; [ | intro ]
    | |- keeps _ (match ?x with _ => _ end) => destruct x
    | |- keeps _ (let _ := _ in _) => cbv zeta
    | |- keeps _ (self_upd (with_frameIndex _)) => apply frame_keeps_frameIndex
    | |- keeps _ (self_upd (with_queuedFrame _)) => apply frame_keeps_queuedFrame
    | |- keeps _ (self_upd _) =>
        apply frame_keeps_self_upd; intros [ ]; repeat split
    | |- _ => solve [ auto with frame_keeps nocore ]
    end.

Lemma frame_keeps_handle_do : forall c f, keeps_frame_inv (handle_do c f).
Proof. intros c f. unfold handle_do. keeps_frame. Qed.

Lemma frame_keeps_thread_do : forall c f, keeps_frame_inv (thread_do c f).
Proof. intros c f. unfold thread_do. keeps_frame. Qed.

#[local] Hint Resolve frame_keeps_handle_do frame_keeps_thread_do : frame_keeps.

Lemma frame_keeps_start : forall fuel, keeps_frame_inv (start fuel).
Proof. intro fuel. unfold start. keeps_frame. Qed.

Lemma frame_keeps_unload : keeps_frame_inv unload.
Proof. unfold unload. keeps_frame. Qed.

#[local] Hint Resolve frame_keeps_start frame_keeps_unload : frame_keeps.

Lemma frame_keeps_load : forall fuel path, keeps_frame_inv (load fuel path).
Proof. intros fuel path. unfold load. keeps_frame. Qed.

Lemma frame_keeps_play : keeps_frame_inv play.
Proof. unfold play. keeps_frame. Qed.

Lemma frame_keeps_pause : keeps_frame_inv pause.
Proof. unfold pause. keeps_frame. Qed.

Lemma frame_keeps_stop : forall fuel, keeps_frame_inv (stop fuel).
Proof. intro fuel. unfold stop, join_thread. keeps_frame. Qed.

Lemma frame_keeps_seek : forall t, keeps_frame_inv (FFPyPlayer_seek t).
Proof. intro t. unfold FFPyPlayer_seek. keeps_frame. Qed.

#[local] Hint Resolve frame_keeps_load frame_keeps_play frame_keeps_pause
  frame_keeps_stop frame_keeps_seek : frame_keeps.

Lemma frame_keeps_replay : forall fuel a, keeps_frame_inv (replay fuel a).
Proof. intros fuel a. unfold replay. keeps_frame. Qed.

Lemma frame_keeps_getMetadata : keeps_frame_inv getMetadata.
Proof. unfold getMetadata. keeps_frame. Qed.

Lemma frame_keeps_getStartAbsTime : keeps_frame_inv getStartAbsTime.
Proof. unfold getStartAbsTime. keeps_frame. Qed.

Lemma frame_keeps_enqueueFrame : forall fuel b,
  keeps_frame_inv (_enqueueFrame fuel b).
Proof. intros fuel b. unfold _enqueueFrame. keeps_frame. Qed.

#[local] Hint Resolve frame_keeps_replay frame_keeps_getMetadata
  frame_keeps_getStartAbsTime frame_keeps_enqueueFrame : frame_keeps.

Lemma frame_keeps_run_op : forall fuel op, keeps_frame_inv (run_op fuel op).
Proof.
  intros fuel op.
  destruct op; cbn [run_op]; unfold discard, rewind, fastForward, getMovieFrame,
    movieToAbsTime, absToMovieTime, frameIndexFromMovieTime,
    movieTimeFromFrameIndex;
    keeps_frame.
Qed.

Lemma tick_frames : forall fuel (w w' : World F H),
  tick fuel w = Some w' -> frame_inv w -> frame_inv w'.
Proof.
  intros fuel w w' E Hw. unfold tick in E.
  destruct (p_tStream (self w)) as [ t | ];
    [ destruct (p_handle (self w)) as [ h | ] | ];
    try (injection E as <-; exact Hw).
  destruct (thread_step fuel t h) as [ [ t' h' ] | ]; [ | discriminate E ].
  injection E as <-. destruct w as [ [ ] ? ? ? ]. exact Hw.
Qed.

Lemma reachable_frame_inv : forall w : World F H, reachable w -> frame_inv w.
Proof.
  intros w Hr. induction Hr as
    [ clk | fuel op w w' _ IH E | fuel op e w w' _ IH E | fuel w w' _ IH E ].
  - repeat split. intros frame E. discriminate E.
  - pose proof (frame_keeps_run_op fuel op w IH) as K. rewrite E in K. exact K.
  - pose proof (frame_keeps_run_op fuel op w IH) as K. rewrite E in K. exact K.
  - exact (tick_frames fuel w w' E IH).
Qed.

Lemma getMovieFrame_returns_lastFrame : forall fuel absTime (w w' : World F H) frame,
  getMovieFrame fuel absTime w = Ret frame w' ->
  p_lastFrame (self w') = Some frame /\
  run_op fuel (op_getMovieFrame absTime) w = Ret tt w'.
Proof.
  intros fuel absTime w w' frame E. split.
  - unfold getMovieFrame in E. unfold bind in E.
    destruct (_assertMediaPlayer w) as [ [ ] w1 | | ]; try discriminate E.
    destruct (_enqueueFrame fuel true w1) as [ b w2 | | ]; try discriminate E.
    unfold get_self in E.
    destruct (p_lastFrame (self w2)) as [ fr | ] eqn:El; [ | discriminate E ].
    injection E as <- <-. exact El.
  - cbn [run_op]. unfold discard. rewrite (bind_Ret _ _ _ _ _ E). reflexivity.
Qed.

(** X16. The frame index is never counted.  In every state a program
    can reach, [_frameIndex] is [-1] and [_queuedFrame] is the null frame
    (so the property [frameIndex] gives the index of the null frame), and
    every frame [getMovieFrame] returns carries the frame index [-1]. *)
Theorem frame_index_stays_unset :
  forall w : World F H,
    reachable w ->
    p_frameIndex (self w) = -1 /\
    frameIndex (self w) = mf_frameIndex (NULL_MOVIE_FRAME_INFO (F := F)) /\
    (forall fuel absTime frame w',
        getMovieFrame fuel absTime w = Ret frame w' ->
        mf_frameIndex frame = -1).
Proof.
  intros w Hr. destruct (reachable_frame_inv w Hr) as [ Hi [ Hq Hl ] ].
  split; [ exact Hi | ]. split; [ unfold frameIndex; rewrite Hq; reflexivity | ].
  intros fuel absTime frame w' E.
  destruct (getMovieFrame_returns_lastFrame fuel absTime w w' frame E)
    as [ El Eop ].
  assert (Hr' : reachable w') by (eapply reach_ret; eassumption).
  destruct (reachable_frame_inv w' Hr') as [ _ [ _ Hl' ] ].
  apply Hl'. exact El.
Qed.

End FrameIndexFacts.

(** ** Volume and progress *)

Section VolumeFacts.
Context {H : Type} {MP : MediaPlayer float H} {AC : AudioControls float H}.

Lemma clamp_volume_binary64 : forall v : float,
  PrimFloat.ltb 1 (clamp_volume v) = false /\
  PrimFloat.ltb (clamp_volume v) 0 = false /\
  (PrimFloat.ltb 1 v = false -> PrimFloat.ltb v 0 = false -> clamp_volume v = v).
Proof.
  intros v. unfold clamp_volume, py_max, py_min.
  cbn [f_ltb f_lit PyFloat_binary64].
  change (Binary64.lit 1 1) with 1%float. change (Binary64.lit 0 1) with 0%float.
  destruct (PrimFloat.ltb 1 v) eqn:H1.
  - change (PrimFloat.ltb 1 0) with false. cbv iota.
    repeat split; try reflexivity. discriminate.
  - destruct (PrimFloat.ltb v 0) eqn:H0.
    + repeat split; try reflexivity. discriminate.
    + repeat split; assumption.
Qed.

(** X17. In binary64, whatever float is assigned to [volume] of a
    loaded player, the decoder is handed a volume that is neither above
    1.0 nor below 0.0; a value for which both comparisons with the bounds
    are false (a value in the range, or a NaN) is handed over as it
    is. *)
Theorem volume_setter_clamps :
  forall (value : float) (w : World float H) h,
    p_handle (self w) = Some h ->
    set_volume_property value w
    = Ret tt (mkWorld (with_handle (Some (set_volume (clamp_volume value) h)) (self w))
                (clock w) (now w) (log w)) /\
    PrimFloat.ltb 1 (clamp_volume value) = false /\
    PrimFloat.ltb (clamp_volume value) 0 = false /\
    (PrimFloat.ltb 1 value = false -> PrimFloat.ltb value 0 = false ->
     clamp_volume value = value).
Proof.
  intros value w h Hh. split; [ | apply clamp_volume_binary64 ].
  unfold set_volume_property.
  rewrite (bind_Ret _ _ _ _ _ (assert_loaded w h Hh)).
  rewrite (bind_Ret _ _ _ _ _ (the_handle_loaded w h Hh)).
  reflexivity.
Qed.

(** X18. On a loaded player whose decoder reports the volume it was
    set, [volumeUp] and [volumeDown] return the sum, or the difference,
    of the volume and the amount, clamped: in binary64 a value that is
    neither above 1.0 nor below 0.0, however large the amount. *)
Theorem volume_steps_stay_in_range :
  forall (amount : float) (w : World float H) h,
    p_handle (self w) = Some h ->
    (forall x h0, get_volume (set_volume x h0) = x) ->
    (exists w',
        volumeUp amount w
        = Ret (clamp_volume (PrimFloat.add (get_volume h) amount)) w' /\
        PrimFloat.ltb 1 (clamp_volume (PrimFloat.add (get_volume h) amount)) = false /\
        PrimFloat.ltb (clamp_volume (PrimFloat.add (get_volume h) amount)) 0 = false) /\
    (exists w',
        volumeDown amount w
        = Ret (clamp_volume (PrimFloat.sub (get_volume h) amount)) w' /\
        PrimFloat.ltb 1 (clamp_volume (PrimFloat.sub (get_volume h) amount)) = false /\
        PrimFloat.ltb (clamp_volume (PrimFloat.sub (get_volume h) amount)) 0 = false).
Proof.
  intros amount w h Hh Hlaw.
  destruct w as [ p c n l ]. destruct p. cbn in Hh. subst.
  split; eexists;
    (split; [ | split; [ apply clamp_volume_binary64
                       | apply clamp_volume_binary64 ] ]).
  - unfold volumeUp, volume, set_volume_property, _assertMediaPlayer,
      the_handle, self_upd, bind, ret. cbn. rewrite Hlaw. reflexivity.
  - unfold volumeDown, volume, set_volume_property, _assertMediaPlayer,
      the_handle, self_upd, bind, ret. cbn. rewrite Hlaw. reflexivity.
Qed.

End VolumeFacts.

Section ProgressFacts.
Context {H : Type} {MP : MediaPlayer Q H} {MD : MetadataProps Q}.

(** X19. [getPercentageComplete], in exact arithmetic.  Without a
    decoder it raises the [RuntimeError] of [getMetadata]; on a movie of
    duration 0 it raises [ZeroDivisionError]; on a movie of positive
    duration whose presentation time is between 0 and the duration it
    returns [pts / duration * 100], a value between 0 and 100.  It
    changes nothing. *)
Theorem percentage_complete_exact :
  forall w : World Q H,
    (p_handle (self w) = None ->
     getPercentageComplete w = Raise (RuntimeError msg_not_loaded) w) /\
    (forall h,
        p_handle (self w) = Some h ->
        ((duration (get_metadata h) == 0)%Q ->
         getPercentageComplete w = Raise ZeroDivisionError w) /\
        ((0 < duration (get_metadata h))%Q ->
         (0 <= get_pts h)%Q ->
         (get_pts h <= duration (get_metadata h))%Q ->
         exists r : Q,
           getPercentageComplete w = Ret r w /\
           (r == get_pts h / duration (get_metadata h) * 100)%Q /\
           (0 <= r)%Q /\ (r <= 100)%Q)).
Proof.
  intros w. split.
  - intro Hh. unfold getPercentageComplete, getMetadata.
    apply bind_Raise. apply bind_Raise. apply assert_not_loaded. exact Hh.
  - intros h Hh.
    unfold getPercentageComplete.
    rewrite (bind_Ret _ _ _ _ _ (getMetadata_loaded w h Hh)).
    rewrite (bind_Ret _ _ _ _ _ (the_handle_loaded w h Hh)).
    cbn [md_duration metadata_of f_div f_mul f_lit PyFloat_exact].
    unfold Exact.div. split.
    + intro Hz. apply Qeq_bool_iff in Hz. rewrite Hz. reflexivity.
    + intros Hpos H0 Hle.
      rewrite Qeq_bool_false
        by (intro E; rewrite E in Hpos; exact (Qlt_irrefl 0 Hpos)).
      eexists. split; [ reflexivity | ].
      split; [ reflexivity | ].
      assert (Hq0 : (0 <= get_pts h / duration (get_metadata h))%Q).
      { apply Qle_shift_div_l; [ exact Hpos | ]. rewrite Qmult_0_l. exact H0. }
      assert (Hq1 : (get_pts h / duration (get_metadata h) <= 1)%Q).
      { apply Qle_shift_div_r; [ exact Hpos | ]. rewrite Qmult_1_l. exact Hle. }
      split.
      * apply Qmult_le_0_compat; [ exact Hq0 | discriminate ].
      * setoid_replace (100 # 1)%Q with (1 * (100 # 1))%Q at 2 by ring.
        apply Qmult_le_compat_r; [ exact Hq1 | discriminate ].
Qed.

(** X20. On a loaded player whose decoder lands where an absolute seek
    sends it, [rewind(s)] returns [pts - s] and a [fastForward(s)] after
    it returns, in exact arithmetic, to the presentation time [pts] the
    player had: the two calls make two absolute seeks, to [pts - s] and
    to [(pts - s) + s]. *)
Theorem rewind_then_fastForward_returns :
  forall (w : World Q H) h (seconds : Q),
    p_handle (self w) = Some h ->
    (forall t h0, get_pts (seek t false h0) = t) ->
    exists (x y : Q) (w1 w2 : World Q H),
      rewind seconds w = Ret x w1 /\
      x = (get_pts h - seconds)%Q /\
      fastForward seconds w1 = Ret y w2 /\
      (y == get_pts h)%Q /\
      log w2 = log w ++ [call_seek (get_pts h - seconds)%Q false;
                         call_seek (get_pts h - seconds + seconds)%Q false].
Proof.
  intros w h seconds Hh Hlaw.
  destruct w as [ p c n l ]. destruct p. cbn in Hh. subst.
  do 4 eexists.
  split.
  { unfold rewind, FFPyPlayer_seek, pts, handle_do, _assertMediaPlayer,
      the_handle, self_upd, record, bind, ret. cbn. rewrite Hlaw. reflexivity. }
  split; [ reflexivity | ].
  split.
  { unfold fastForward, FFPyPlayer_seek, pts, handle_do, _assertMediaPlayer,
      the_handle, self_upd, record, bind, ret. cbn. rewrite !Hlaw. reflexivity. }
  split.
  - cbn [f_add f_sub PyFloat_exact]. ring.
  - cbn. rewrite <- app_assoc. reflexivity.
Qed.

End ProgressFacts.

(** ** Waiting for a frame *)

Section WaitFacts.
Context {F : Type} {PF : PyFloat F} {H : Type} {MP : MediaPlayer F H}
        {MD : MetadataProps F}.

Lemma stop_check_idle : forall t : MovieStreamThread F,
  t_frameQueue (stop_check t) = t_frameQueue t /\
  t_isPlaying (stop_check t) = t_isPlaying t.
Proof.
  intros t. unfold stop_check.
  destruct (t_stopSignal t || Status_eqb (t_statusFlag t) STOPPING);
    split; reflexivity.
Qed.

(** A reader that is not told to play publishes nothing: its steps end,
    and leave the queue and the play flag as they are. *)
Lemma thread_step_idle : forall fuel (t : MovieStreamThread F) (h : H),
  t_isPlaying t = false ->
  exists t' h',
    thread_step fuel t h = Some (t', h') /\
    t_frameQueue t' = t_frameQueue t /\
    t_isPlaying t' = false.
Proof.
  intros fuel t h Hp. unfold thread_step.
  destruct (t_phase t).
  - exists t, h. repeat split. exact Hp.
  - eexists. eexists. split; [ reflexivity | ]. split; reflexivity.
  - destruct (Status_eqb (t_statusFlag t) STOPPED).
    + eexists. eexists. split; [ reflexivity | ]. split; [ reflexivity | exact Hp ].
    + unfold run_body.
      destruct (Status_eqb (t_statusFlag t) NOT_STARTED).
      * eexists. eexists. split; [ reflexivity | ].
        split; [ reflexivity | exact Hp ].
      * unfold observe. rewrite Hp.
        cbn [t_statusFlag with_statusFlag Status_eqb run_paused].
        exists (stop_check (with_statusFlag PAUSED t)).
        exists (if negb (get_pause h) then set_pause true h else h).
        split; [ reflexivity | ].
        destruct (stop_check_idle (with_statusFlag PAUSED t)) as [ E1 E2 ].
        rewrite E1, E2. split; [ reflexivity | exact Hp ].
  - exists t, h. repeat split. exact Hp.
Qed.

Lemma wait_frame_idle : forall steps fuel (t : MovieStreamThread F) (h : H),
  Queue.items (t_frameQueue t) = [] ->
  t_isPlaying t = false ->
  wait_frame steps fuel t h = None.
Proof.
  induction steps as [ | n IH ]; intros fuel t h Hq Hp.
  - reflexivity.
  - cbn [wait_frame]. unfold getRecentFrame, Queue.empty. rewrite Hq.
    destruct (thread_step_idle fuel t h Hp) as [ t' [ h' [ E [ Eq Ep ] ] ] ].
    rewrite E. apply IH; [ rewrite Eq; exact Hq | exact Ep ].
Qed.

Lemma enqueueFrame_idle : forall fuel (w : World F H) h t,
  p_handle (self w) = Some h ->
  p_tStream (self w) = Some t ->
  Queue.items (t_frameQueue t) = [] ->
  t_isPlaying t = false ->
  _enqueueFrame fuel true w = Hang.
Proof.
  intros fuel w h t Hh Ht Hq Hp. unfold _enqueueFrame.
  rewrite (bind_Ret _ _ _ _ _ (assert_loaded w h Hh)).
  rewrite (bind_Ret _ _ _ _ _ (the_thread_some w t Ht)).
  rewrite (bind_Ret _ _ _ _ _ (the_handle_loaded w h Hh)).
  rewrite (wait_frame_idle fuel fuel t h Hq Hp). reflexivity.
Qed.



(** X22. A [play] that comes before the reader thread has run its
    first lines is lost: [run] begins by clearing the play flag.  After
    [load], [play] and the first step of the reader, the player answers
    [isPlaying] with [True] while the reader is not told to play, and
    [getMovieFrame] does not return, however long it waits. *)
Theorem play_before_reader_starts_is_lost :
  forall fuel (absTime : F) (w : World F H) h t,
    p_handle (self w) = Some h ->
    p_tStream (self w) = Some t ->
    t_phase t = Started ->
    Queue.items (t_frameQueue t) = [] ->
    exists w1 w2,
      play w = Ret tt w1 /\
      tick fuel w1 = Some w2 /\
      isPlaying (self w2) = true /\
      option_map t_isPlaying (p_tStream (self w2)) = Some false /\
      option_map t_phase (p_tStream (self w2)) = Some Running /\
      getMovieFrame fuel absTime w2 = Hang.
Proof.
  intros fuel absTime w h t Hh Ht Hph Hq.
  destruct w as [ p c n l ]. destruct p. cbn in Hh, Ht. subst.
  destruct t as [ q ? ? ? ? ? ? ph ? ? ? ]. cbn in Hph, Hq. subst.
  eexists. eexists.
  split; [ reflexivity | ]. split; [ reflexivity | ].
  split; [ reflexivity | ]. split; [ reflexivity | ]. split; [ reflexivity | ].
  unfold getMovieFrame.
  match goal with
  | |- bind _ _ ?w = _ =>
      rewrite (bind_Ret _ _ _ _ _ (assert_loaded w h eq_refl));
      apply bind_Hang;
      apply (enqueueFrame_idle fuel w h _ eq_refl eq_refl)
  end.
  - exact Hq.
  - reflexivity.
Qed.

(** X23. [getMovieFrame] on a loaded player with an entry of the
    reader waiting returns at once, however short the wait it is
    granted: the frame is made of the oldest entry of the queue, which
    is taken off; the argument [absTime] plays no part. *)
Theorem getMovieFrame_returns_oldest_entry :
  forall fuel (absTime : F) (w : World F H) h t metadata img pts rest plane planes,
    p_handle (self w) = Some h ->
    p_tStream (self w) = Some t ->
    Queue.items (t_frameQueue t) = entry_of_frame metadata img pts :: rest ->
    to_bytearray img = plane :: planes ->
    exists w',
      getMovieFrame (S fuel) absTime w
      = Ret (mkMovieFrame (p_frameIndex (self w)) (f_lit 0 1) (get_size img)
               plane 0 (VDict metadata) "ffpyplayer") w' /\
      option_map (fun t' => Queue.items (t_frameQueue t')) (p_tStream (self w'))
      = Some rest /\
      p_handle (self w') = Some h /\
      p_streamTime (self w') = Some pts.
Proof.
  intros fuel absTime w h t metadata img pts rest plane planes Hh Ht Hq Himg.
  destruct w as [ p c n l ]. destruct p. cbn in Hh, Ht. subst.
  destruct t as [ q ? ? ? ? ? ? ? ? ? ? ]. destruct q as [ m its ].
  cbn in Hq. subst. destruct img as [ bs sz ]. cbn in Himg. subst.
  unfold entry_of_frame.
  eexists. split; [ | split; [ | split ] ].
  - unfold getMovieFrame, _enqueueFrame, _assertMediaPlayer, the_thread,
      the_handle, get_self, self_upd, bind, ret.
    cbn [self p_handle p_tStream wait_frame getRecentFrame Queue.empty
         Queue.items t_frameQueue Queue.get_nowait].
    cbn. reflexivity.
  - reflexivity.
  - reflexivity.
  - reflexivity.
Qed.

End WaitFacts.


Lemma getMovieFrame_returns_oldest_entry_witness :
  exists w' : World float (SimPlayer float),
    getMovieFrame (MP := Demo.player64) 1 7%float Demo2.playing64
    = Ret (mkMovieFrame (-1) 0%float (1, 1) (to_bytearray_first (picture 0)) 0
             (VDict (snd (clip 10 1 1))) "ffpyplayer") w' /\
    option_map (fun t' => Queue.items (t_frameQueue t')) (p_tStream (self w'))
    = Some [].
Proof.
  assert (Hh : exists h t,
             p_handle (self Demo2.playing64) = Some h /\
             p_tStream (self Demo2.playing64) = Some t /\
             Queue.items (t_frameQueue t)
             = [entry_of_frame (snd (clip 10 1 1)) (picture 0) 0%float])
    by (eexists; eexists; (split; [ vm_compute; reflexivity | ]);
        (split; vm_compute; reflexivity)).
  destruct Hh as [ h [ t [ Hh [ Ht Hq ] ] ] ].
  destruct (getMovieFrame_returns_oldest_entry (MP := Demo.player64) 0%nat
              7%float Demo2.playing64 h t (snd (clip 10 1 1)) (picture 0)
              0%float [] _ [] Hh Ht Hq eq_refl)
    as [ w' [ E [ Eq _ ] ] ].
  exists w'. split; [ | exact Eq ].
  rewrite E. vm_compute. reflexivity.
Defined.

(** A new player: [load], [play], and the reader enters [run]. *)
Lemma play_before_reader_starts_witness :
  exists w1 w2 : World float (SimPlayer float),
    play Demo.loaded64 = Ret tt w1 /\
    tick (MP := Demo.player64) 20 w1 = Some w2 /\
    isPlaying (self w2) = true /\
    getMovieFrame (MP := Demo.player64) 20 0%float w2 = Hang.
Proof.
  assert (Hh : exists h t,
             p_handle (self Demo.loaded64) = Some h /\
             p_tStream (self Demo.loaded64) = Some t /\
             t_phase t = Started /\
             Queue.items (t_frameQueue t) = [])
    by (eexists; eexists; (split; [ vm_compute; reflexivity | ]);
        (split; [ vm_compute; reflexivity | ]);
        (split; vm_compute; reflexivity)).
  destruct Hh as [ h [ t [ Hh [ Ht [ Hp Hq ] ] ] ] ].
  destruct (play_before_reader_starts_is_lost (MP := Demo.player64) 20%nat
              0%float Demo.loaded64 h t Hh Ht Hp Hq)
    as [ w1 [ w2 [ E1 [ E2 [ Ei [ _ [ _ Eg ] ] ] ] ] ] ].
  exists w1, w2. repeat split; assumption.
Defined.

(** ** Loading and stopping; calls on the audio without a decoder *)

Section LoadStopFacts.
Context {F : Type} {PF : PyFloat F} {H : Type} {MP : MediaPlayer F H}
        {MD : MetadataProps F}.

(** X24. [load] followed at once by [stop], on a player that held no
    decoder and a file whose decoder gives a first frame: both calls
    return, however the reader thread is scheduled in between (it was
    started and has not run, and comes to its end as soon as it runs
    with the stop signal set).  The decoder was opened, muted, unpaused,
    paused, sent to 0.0 and unmuted, the reader started, shut down and
    joined, and the decoder closed; the player holds neither of them,
    keeps the file name, and a second [stop] raises the [RuntimeError]
    of a player not opened. *)
Theorem load_then_stop_returns :
  forall n (w : World F H) (pathToMovie : string) h',
    p_handle (self w) = None ->
    first_frame (4 + n) (set_pause false (set_mute true (mp_open pathToMovie)))
    = Some h' ->
    exists w1 w2,
      load (4 + n) pathToMovie w = Ret tt w1 /\
      stop (4 + n) w1 = Ret tt w2 /\
      p_handle (self w2) = None /\
      p_tStream (self w2) = None /\
      p_filename (self w2) = pathToMovie /\
      log w2
      = log w ++ [call_open pathToMovie; call_set_mute true;
                  call_set_pause false; call_set_pause true;
                  call_seek (f_lit 0 1) false; call_set_mute false;
                  call_thread_start; call_thread_shutdown; call_thread_join;
                  call_close_player] /\
      stop (4 + n) w2 = Raise (RuntimeError msg_not_opened) w2.
Proof.
  intros n w path h' Hh Hff.
  exists (loaded_world w path h'), (stopped_world (loaded_world w path h')).
  split; [ apply load_not_loaded; assumption | ].
  split; [ eapply stop_returns_before_reader_runs; reflexivity | ].
  split; [ reflexivity | ]. split; [ reflexivity | ]. split; [ reflexivity | ].
  split.
  - cbn [log loaded_world stopped_world]. rewrite <- app_assoc. reflexivity.
  - reflexivity.
Qed.

End LoadStopFacts.

Section AudioErrors.
Context {F : Type} {PF : PyFloat F} {H : Type} {MP : MediaPlayer F H}
        {AC : AudioControls F H}.

(** X25. The audio calls on a player without a decoder.  The getter and
    the setter of [volume], [volumeUp] and [volumeDown] raise the
    [RuntimeError] of [_assertMediaPlayer]; the getter and the setter
    of [muted], which do not call it, raise the [AttributeError] of a
    method looked up on [None].  None of them changes anything. *)
Theorem audio_calls_without_decoder :
  forall (w : World F H) (value amount : F) (b : bool),
    p_handle (self w) = None ->
    volume w = Raise (RuntimeError msg_not_loaded) w /\
    set_volume_property value w = Raise (RuntimeError msg_not_loaded) w /\
    volumeUp amount w = Raise (RuntimeError msg_not_loaded) w /\
    volumeDown amount w = Raise (RuntimeError msg_not_loaded) w /\
    muted w = Raise (AttributeError "NoneType") w /\
    set_muted b w = Raise (AttributeError "NoneType") w.
Proof.
  intros w value amount b Hh.
  pose proof (assert_not_loaded w Hh) as Ha.
  repeat split.
  - unfold volume. apply bind_Raise. exact Ha.
  - unfold set_volume_property. apply bind_Raise. exact Ha.
  - unfold volumeUp. apply bind_Raise. exact Ha.
  - unfold volumeDown. apply bind_Raise. exact Ha.
  - unfold muted, the_handle, bind. rewrite Hh. reflexivity.
  - unfold set_muted, handle_do, the_handle, bind. rewrite Hh. reflexivity.
Qed.

End AudioErrors.

(** A new player, the slow clip. *)
Lemma load_then_stop_returns_witness :
  exists w1 w2 : World float (SimPlayer float),
    load (MP := Demo.player64) 20 "slow.mp4" (World_init demo_clock) = Ret tt w1 /\
    stop (MP := Demo.player64) 20 w1 = Ret tt w2 /\
    p_handle (self w2) = None /\
    stop (MP := Demo.player64) 20 w2 = Raise (RuntimeError msg_not_opened) w2.
Proof.
  assert (Hff : exists h',
             first_frame (MP := Demo.player64) 20
               (set_pause (MediaPlayer := Demo.player64) false
                  (set_mute (MediaPlayer := Demo.player64) true
                     (mp_open (MediaPlayer := Demo.player64) "slow.mp4")))
             = Some h')
    by (eexists; vm_compute; reflexivity).
  destruct Hff as [ h' Hff ].
  destruct (load_then_stop_returns (MP := Demo.player64)
              16%nat (World_init demo_clock) "slow.mp4" h' eq_refl Hff)
    as [ w1 [ w2 [ E1 [ E2 [ Eh [ _ [ _ [ _ E3 ] ] ] ] ] ] ] ].
  exists w1, w2. repeat split; assumption.
Defined.

(** A new player with a volume. *)
Lemma audio_calls_without_decoder_witness :
  volumeUp (AC := Demo2.audio64) 0.25%float
    (World_init demo_clock)
  = Raise (RuntimeError msg_not_loaded) (World_init demo_clock) /\
  muted (AC := Demo2.audio64) (World_init demo_clock)
  = Raise (AttributeError "NoneType") (World_init demo_clock).
Proof.
  destruct (audio_calls_without_decoder (MP := Demo2.loud64)
              (AC := Demo2.audio64) (World_init demo_clock) 0.5%float
              0.25%float true eq_refl)
    as [ _ [ _ [ Eu [ _ [ Em _ ] ] ] ] ].
  split; [ exact Eu | exact Em ].
Defined.

(** ** The further examples, run *)

(** The full queue of the examples holds an entry of the reader. *)
Lemma queue_holds_published_entries_witness :
  Forall (published PLAYING)
    (Queue.items (t_frameQueue (snd (getRecentFrame (demo_full_reader (F := float)))))) /\
  (forall sd,
      fst (getRecentFrame (demo_full_reader (F := float))) = Some sd ->
      StreamData_cameraLib sd = inl (AttributeError "movieLib") /\
      sd_cameraLib sd = "ffpyplayer"%string /\
      exists pts,
        sd_streamStatus sd
        = VStreamStatus (mkStreamStatus PLAYING pts (f_lit 0 1) 0)).
Proof.
  refine (proj2 (queue_holds_published_entries (MP := Demo.player64) 5%nat
                   demo_full_reader demo_full_reader Demo.slow64 Demo.slow64 _)).
  constructor; [ | constructor ].
  exists (snd (clip 10 1 1)), (picture 0), (f_lit 0 1). reflexivity.
Defined.

(** The slow clip is loaded; [load("slow.mp4")] follows.  On the disk of
    the examples, where any name is a stream, the call returns with the
    stream of the empty name; on the strict disk it does not return. *)
Lemma reload_opens_the_empty_name_witness :
  (exists w' : World float (SimPlayer float),
      load (MP := Demo.player64) 20 "slow.mp4" Demo.loaded64 = Ret tt w' /\
      p_filename (self w') = ""%string /\
      option_map (get_metadata (MediaPlayer := Demo.player64)) (p_handle (self w'))
      = Some (snd (demo_disk ""))) /\
  p_filename (self Demo3.strict_loaded64) = "slow.mp4"%string /\
  load (MP := Demo3.strict64) 20 "slow.mp4" Demo3.strict_loaded64 = Hang.
Proof.
  split; [ | split; [ vm_compute; reflexivity | ] ].
  - assert (Hh : exists h, p_handle (self Demo.loaded64) = Some h)
      by (eexists; vm_compute; reflexivity).
    destruct Hh as [ h Hh ].
    assert (Hff : exists h',
               first_frame (MP := Demo.player64) 20
                 (set_pause (MediaPlayer := Demo.player64) false
                    (set_mute (MediaPlayer := Demo.player64) true
                       (mp_open (MediaPlayer := Demo.player64) ""))) = Some h' /\
               sim_meta h' = snd (demo_disk ""))
      by (eexists; split; vm_compute; reflexivity).
    destruct Hff as [ h' [ Hff Hm ] ].
    destruct (proj1 (reload_opens_the_empty_name (MP := Demo.player64)
                       Demo.loaded64 "slow.mp4" h Hh) 20%nat h' Hff)
      as [ w' [ E [ Ef [ Eh _ ] ] ] ].
    exists w'. split; [ exact E | ]. split; [ exact Ef | ].
    rewrite Eh. cbn. rewrite Hm. reflexivity.
  - assert (Hh : exists h, p_handle (self Demo3.strict_loaded64) = Some h)
      by (eexists; vm_compute; reflexivity).
    destruct Hh as [ h Hh ].
    apply (proj2 (reload_opens_the_empty_name (MP := Demo3.strict64)
                    Demo3.strict_loaded64 "slow.mp4" h Hh)
             (fun h0 => sim_frames h0 = [])).
    + intros h0 E. cbn [get_frame Demo3.strict64 SimMediaPlayer].
      unfold sim_get_frame. destruct (sim_pause h0); [ split; [ reflexivity | exact E ] | ].
      rewrite E. destruct (sim_pos h0); split; first [ reflexivity | exact E ].
    + reflexivity.
Defined.

Lemma replay_opens_the_file_twice_witness :
  exists w' : World float (SimPlayer float),
    replay (MP := Demo.player64) 20 true Demo.loaded64 = Ret tt w' /\
    log w'
    = log Demo.loaded64
      ++ [call_thread_shutdown; call_thread_join; call_close_player]
      ++ [call_open "clip30.mp4"; call_set_mute true; call_set_pause false;
          call_set_pause true; call_seek 0%float false; call_set_mute false;
          call_thread_start]
      ++ [call_open "clip30.mp4"; call_set_mute true; call_set_pause false;
          call_set_pause true; call_seek 0%float false; call_set_mute false;
          call_thread_start] /\
    p_filename (self w') = "clip30.mp4"%string /\
    p_status (self w') = NOT_STARTED.
Proof.
  assert (Hf : p_filename (self Demo.loaded64) = "clip30.mp4"%string)
    by (vm_compute; reflexivity).
  assert (Hh : exists h t t' hj h',
             p_handle (self Demo.loaded64) = Some h /\
             p_tStream (self Demo.loaded64) = Some t /\
             Thread_join (MP := Demo.player64) 20 20
               (MovieStreamThread_shutdown t) h = Some (t', hj) /\
             first_frame (MP := Demo.player64) 20
               (set_pause (MediaPlayer := Demo.player64) false
                  (set_mute (MediaPlayer := Demo.player64) true
                     (mp_open (MediaPlayer := Demo.player64)
                        (p_filename (self Demo.loaded64))))) = Some h')
    by (do 5 eexists;
        (split; [ vm_compute; reflexivity | ]);
        (split; [ vm_compute; reflexivity | ]);
        (split; vm_compute; reflexivity)).
  destruct Hh as [ h [ t [ t' [ hj [ h' [ Hh [ Ht [ Hj Hff ] ] ] ] ] ] ] ].
  destruct (replay_opens_the_file_twice (MP := Demo.player64) 20%nat true
              Demo.loaded64 h t t' hj h' Hh Ht Hj Hff)
    as [ w' [ E [ El [ Ef Es ] ] ] ].
  exists w'. rewrite Hf in El, Ef.
  split; [ exact E | ]. split; [ exact El | ]. split; [ exact Ef | exact Es ].
Defined.

Lemma pause_leaves_the_status_witness :
  exists w1 w2 : World float (SimPlayer float),
    play Demo.loaded64 = Ret tt w1 /\
    pause w1 = Ret false w2 /\
    isPlaying (self w2) = true /\
    option_map t_isPlaying (p_tStream (self w2)) = Some false.
Proof.
  assert (Hh : exists h, p_handle (self Demo.loaded64) = Some h)
    by (eexists; vm_compute; reflexivity).
  destruct Hh as [ h Hh ].
  assert (Ht : exists t, p_tStream (self Demo.loaded64) = Some t)
    by (eexists; vm_compute; reflexivity).
  destruct Ht as [ t Ht ].
  destruct (pause_leaves_the_status Demo.loaded64 h t Hh Ht)
    as [ w1 [ w2 [ E1 [ E2 [ Ep [ Et _ ] ] ] ] ] ].
  exists w1, w2. repeat split; try assumption.
  rewrite Et. destruct t; reflexivity.
Defined.

(** The slow clip is playing and the frame of 0 s waits in the queue. *)
Lemma enqueueFrame_without_waiting_witness :
  exists w' : World float (SimPlayer float),
    _enqueueFrame (MP := Demo.player64) 20 false Demo2.playing64 = Ret true w' /\
    p_lastFrame (self w')
    = Some (mkMovieFrame (-1) 0%float (1, 1) (to_bytearray_first (picture 0)) 0
              (VDict (snd (clip 10 1 1))) "ffpyplayer") /\
    p_streamTime (self w') = Some 0%float /\
    option_map (fun t' => Queue.items (t_frameQueue t')) (p_tStream (self w'))
    = Some [].
Proof.
  assert (Hh : exists h, p_handle (self Demo2.playing64) = Some h)
    by (eexists; vm_compute; reflexivity).
  destruct Hh as [ h Hh ].
  assert (Ht : exists t,
             p_tStream (self Demo2.playing64) = Some t /\
             Queue.items (t_frameQueue t)
             = [entry_of_frame (snd (clip 10 1 1)) (picture 0) 0%float])
    by (eexists; split; vm_compute; reflexivity).
  destruct Ht as [ t [ Ht Hq ] ].
  destruct (proj2 (enqueueFrame_without_waiting (MP := Demo.player64) 20%nat
                     Demo2.playing64 h t Hh Ht)
              (snd (clip 10 1 1)) (picture 0) 0%float [] _ [] Hq eq_refl)
    as [ w' [ E [ El [ Es Eq ] ] ] ].
  exists w'. split; [ exact E | ]. split; [ | split; assumption ].
  rewrite El. vm_compute. reflexivity.
Defined.

Lemma timing_conversions_reject_non_floats_witness :
  movieToAbsTime (MP := Demo.player64) (VInt 5) Demo.loaded64
  = Raise (TypeError msg_movieTime_type) Demo.loaded64 /\
  absToMovieTime (MP := Demo.player64) (VInt 5) Demo.loaded64
  = Raise (TypeError msg_absTime_type) Demo.loaded64.
Proof.
  assert (Hh : exists h, p_handle (self Demo.loaded64) = Some h)
    by (eexists; vm_compute; reflexivity).
  destruct Hh as [ h Hh ].
  exact (timing_conversions_reject_non_floats (MP := Demo.player64)
           Demo.loaded64 h (VInt 5) Hh eq_refl).
Defined.

(** At the end of the program that watches the slow clip. *)
Lemma frame_index_stays_unset_witness :
  exists w : World float (SimPlayer float),
    Demo.run64 Demo.watching = Some w /\
    p_frameIndex (self w) = -1 /\
    frameIndex (self w) = -1 /\
    option_map mf_frameIndex (p_lastFrame (self w)) = Some (-1).
Proof.
  eexists. split; [ vm_compute; reflexivity | ].
  match goal with
  | |- p_frameIndex (self ?w) = _ /\ _ =>
      assert (Hr : reachable (MP := Demo.player64) (MD := Demo.props64) w)
  end.
  { apply (run_script_reachable (MP := Demo.player64) (MD := Demo.props64) 20%nat
             Demo.watching (World_init demo_clock)).
    - apply reach_init.
    - vm_compute; reflexivity. }
  destruct (frame_index_stays_unset (MP := Demo.player64) (MD := Demo.props64)
              _ Hr) as [ Hi [ Hq _ ] ].
  split; [ exact Hi | ]. split; [ exact Hq | ]. reflexivity.
Defined.

Lemma volume_setter_clamps_witness :
  set_volume_property (AC := Demo2.audio64) 1.5%float
    Demo2.loud_loaded64
  = Ret tt (mkWorld
              (with_handle
                 (option_map (set_volume (AudioControls := Demo2.audio64) 1%float)
                    (p_handle (self Demo2.loud_loaded64)))
                 (self Demo2.loud_loaded64))
              (clock Demo2.loud_loaded64) (now Demo2.loud_loaded64)
              (log Demo2.loud_loaded64)) /\
  clamp_volume 1.5%float = 1%float /\
  clamp_volume (-0.25)%float = 0%float /\
  clamp_volume 0.5%float = 0.5%float.
Proof.
  assert (Hh : exists h, p_handle (self Demo2.loud_loaded64) = Some h)
    by (eexists; vm_compute; reflexivity).
  destruct Hh as [ h Hh ].
  destruct (volume_setter_clamps (AC := Demo2.audio64)
              1.5%float Demo2.loud_loaded64 h Hh) as [ E _ ].
  split.
  - rewrite E, Hh. reflexivity.
  - repeat split; vm_compute; reflexivity.
Defined.

Lemma volume_steps_stay_in_range_witness :
  (exists w',
      volumeUp (AC := Demo2.audio64) 0.75%float
        Demo2.loud_loaded64 = Ret 1%float w') /\
  (exists w',
      volumeDown (AC := Demo2.audio64) 1.5%float
        Demo2.loud_loaded64 = Ret 0%float w').
Proof.
  assert (Hh : exists h,
             p_handle (self Demo2.loud_loaded64) = Some h /\
             get_volume (AudioControls := Demo2.audio64) h = 1%float)
    by (eexists; split; vm_compute; reflexivity).
  destruct Hh as [ h [ Hh Hv ] ].
  destruct (volume_steps_stay_in_range (AC := Demo2.audio64) 0.75%float Demo2.loud_loaded64 h Hh
              (fun x h0 => eq_refl)) as [ [ w1 [ E1 _ ] ] _ ].
  destruct (volume_steps_stay_in_range (AC := Demo2.audio64) 1.5%float Demo2.loud_loaded64 h Hh
              (fun x h0 => eq_refl)) as [ _ [ w2 [ E2 _ ] ] ].
  split.
  - exists w1. rewrite E1, Hv. vm_compute. reflexivity.
  - exists w2. rewrite E2, Hv. vm_compute. reflexivity.
Defined.

(** The clip of 30 frames per second lasts 2 s and was just loaded. *)
Lemma percentage_complete_exact_witness :
  exists r : Q,
    getPercentageComplete (MP := Demo.playerQ) Demo.loaded30Q = Ret r Demo.loaded30Q /\
    (0 <= r)%Q /\ (r <= 100)%Q.
Proof.
  assert (Hh : exists h,
             p_handle (self Demo.loaded30Q) = Some h /\
             sim_meta h = snd (clip 60 30 1) /\ sim_pts h = 0%Q)
    by (eexists; (split; [ vm_compute; reflexivity | ]);
        (split; vm_compute; reflexivity)).
  destruct Hh as [ h [ Hh [ Hm Hp ] ] ].
  destruct (proj2 (proj2 (percentage_complete_exact (MP := Demo.playerQ)
                            Demo.loaded30Q) h Hh)) as [ r [ E [ _ [ H0 H1 ] ] ] ].
  - cbn [get_metadata Demo.playerQ SimMediaPlayer]. rewrite Hm. reflexivity.
  - cbn [get_pts Demo.playerQ SimMediaPlayer]. rewrite Hp. discriminate.
  - cbn [get_pts get_metadata Demo.playerQ SimMediaPlayer]. rewrite Hp, Hm.
    discriminate.
  - exists r. repeat split; assumption.
Defined.

Lemma rewind_then_fastForward_returns_witness :
  exists (x y : Q) (w1 w2 : World Q (SimPlayer Q)),
    rewind (MP := Demo.playerQ) (1 # 2) Demo.loaded30Q = Ret x w1 /\
    fastForward (MP := Demo.playerQ) (1 # 2) w1 = Ret y w2 /\
    (y == 0)%Q.
Proof.
  assert (Hh : exists h,
             p_handle (self Demo.loaded30Q) = Some h /\ sim_pts h = 0%Q)
    by (eexists; split; vm_compute; reflexivity).
  destruct Hh as [ h [ Hh Hp ] ].
  destruct (rewind_then_fastForward_returns (MP := Demo.playerQ) Demo.loaded30Q
              h (1 # 2) Hh (fun t h0 => eq_refl))
    as [ x [ y [ w1 [ w2 [ E1 [ _ [ E2 [ Ey _ ] ] ] ] ] ] ] ].
  exists x, y, w1, w2. repeat split; try assumption.
  rewrite Ey. cbn [get_pts Demo.playerQ SimMediaPlayer]. rewrite Hp. reflexivity.
Defined.
